(** * LEMI-423 reader and site processor: a shallow embedding

    Source files: [LEMI_423_Reader.py] (classes [Read_Lemi_Header] and
    [Read_Lemi_Data]) and [Process_LEMI_423.py] ([process_site],
    [process_all_sites] and the entry point).

    Conventions of the embedding.
    - A Python [str] is a [string]; its characters are code points below 256.
    - A Python [float] is a binary64 [PrimFloat.float]; [int(...)] and
      [float(...)] are written out on their literal grammar.
    - A raised exception is the [Raise] case of [result]; [try/except] is a
      match on it.  Attribute and local-variable updates made before an
      exception stay made, as in Python.
    - A [DataFrame] is an index and a finite map from column names to columns.
    - Two library calls are taken as parameters ([PyRuntime]): the UTF-8
      decoder [bytes.decode(errors='ignore')] and [pd.to_datetime] with the
      format of the header's deployment line. *)

From Stdlib Require Import ZArith List String Ascii Lia Sorted Permutation.
From Stdlib Require PrimFloat SpecFloat FloatOps FloatAxioms.
From stdpp Require Import base option gmap strings list pretty.

Import ListNotations.
Local Open Scope string_scope.
Local Open Scope list_scope.
Local Open Scope Z_scope.

Abbreviation float := PrimFloat.float.

(** ** Exceptions *)

Inductive exn :=
| KeyError (key : string)
| IndexError
| ValueError
| AttributeError
| TypeError
| OSError
| UnboundLocalError (name : string).

Inductive result (A : Type) :=
| Ok (a : A)
| Raise (e : exn).
Arguments Ok {A} a.
Arguments Raise {A} e.

#[global] Instance result_ret : MRet result := fun A a => Ok a.
#[global] Instance result_bind : MBind result := fun A B f m =>
  match m with
  | Ok a => f a
  | Raise e => Raise e
  end.

Definition of_option {A} (e : exn) (o : option A) : result A :=
  match o with
  | Some a => Ok a
  | None => Raise e
  end.

Definition is_ok {A} (r : result A) : bool :=
  match r with
  | Ok _ => true
  | Raise _ => false
  end.

(** ** Python [str] methods *)

Module Str.

Definition code (c : ascii) : N := N_of_ascii c.

(** [str.isspace] on the code points below 256. *)
Definition is_space (c : ascii) : bool :=
  let n := code c in
  ((9 <=? n) && (n <=? 13) || (28 <=? n) && (n <=? 32)
   || (n =? 133) || (n =? 160))%N.

(** The line boundaries of [str.splitlines] below 256, [\r] apart. *)
Definition is_linebreak (c : ascii) : bool :=
  let n := code c in
  ((n =? 10) || (n =? 11) || (n =? 12) || (28 <=? n) && (n <=? 30)
   || (n =? 133))%N.

Definition is_cr (c : ascii) : bool := (code c =? 13)%N.
Definition is_lf (c : ascii) : bool := (code c =? 10)%N.

Definition digit_of (c : ascii) : option Z :=
  let n := code c in
  if ((48 <=? n) && (n <=? 57))%N then Some (Z.of_N n - 48) else None.

Definition lower (c : ascii) : ascii :=
  let n := code c in
  if ((65 <=? n) && (n <=? 90))%N then ascii_of_N (n + 32) else c.

Fixpoint lowercase (s : string) : string :=
  match s with
  | EmptyString => EmptyString
  | String c s' => String (lower c) (lowercase s')
  end.

Definition is_empty (s : string) : bool :=
  match s with
  | EmptyString => true
  | String _ _ => false
  end.

(** [s.splitlines()] *)
Fixpoint splitlines (s : string) : list string :=
  match s with
  | EmptyString => []
  | String c s' =>
      if is_cr c then
        match s' with
        | String c2 s'' =>
            if is_lf c2 then EmptyString :: splitlines s''
            else EmptyString :: splitlines s'
        | EmptyString => [EmptyString]
        end
      else if is_linebreak c then EmptyString :: splitlines s'
      else
        match splitlines s' with
        | l :: ls => String c l :: ls
        | [] => [String c EmptyString]
        end
  end.

(** [s.split()]: the maximal runs of non-blank characters. *)
Fixpoint split (s : string) : list string :=
  match s with
  | EmptyString => []
  | String c s' =>
      if is_space c then split s'
      else
        match s' with
        | EmptyString => [String c EmptyString]
        | String c2 _ =>
            if is_space c2 then String c EmptyString :: split s'
            else
              match split s' with
              | t :: ts => String c t :: ts
              | [] => [String c EmptyString]
              end
        end
  end.

(** [s.split(sep)] for a one-character separator: never empty. *)
Fixpoint split_on (sep : ascii) (s : string) : list string :=
  match s with
  | EmptyString => [EmptyString]
  | String c s' =>
      if Ascii.eqb c sep then EmptyString :: split_on sep s'
      else
        match split_on sep s' with
        | t :: ts => String c t :: ts
        | [] => [String c EmptyString]
        end
  end.

(** [sep in s] *)
Fixpoint contains (sep : ascii) (s : string) : bool :=
  match s with
  | EmptyString => false
  | String c s' => Ascii.eqb c sep || contains sep s'
  end.

Fixpoint lstrip (s : string) : string :=
  match s with
  | EmptyString => EmptyString
  | String c s' => if is_space c then lstrip s' else s
  end.

Fixpoint rstrip (s : string) : string :=
  match s with
  | EmptyString => EmptyString
  | String c s' =>
      let r := rstrip s' in
      if is_space c && is_empty r then EmptyString else String c r
  end.

(** [s.strip()] *)
Definition strip (s : string) : string := rstrip (lstrip s).

(** [s.lstrip(ch)] for a one-character set. *)
Fixpoint lstrip_char (ch : ascii) (s : string) : string :=
  match s with
  | EmptyString => EmptyString
  | String c s' => if Ascii.eqb c ch then lstrip_char ch s' else s
  end.

(** [s[:n]] and [s[n:]] *)
Fixpoint take (n : nat) (s : string) : string :=
  match n, s with
  | S n', String c s' => String c (take n' s')
  | _, _ => EmptyString
  end.

Fixpoint drop (n : nat) (s : string) : string :=
  match n, s with
  | S n', String _ s' => drop n' s'
  | _, _ => s
  end.

(** [s.endswith(suffix)] *)
Definition endswith (suffix s : string) : bool :=
  String.eqb (drop (String.length s - String.length suffix) s) suffix
  && (String.length suffix <=? String.length s)%nat.

(** [s.startswith(ch)] for one character. *)
Definition startswith_char (ch : ascii) (s : string) : bool :=
  match s with
  | String c _ => Ascii.eqb c ch
  | EmptyString => false
  end.

End Str.

(** [l[i]] and [l[-1]] on a Python list. *)
Definition getitem {A} (l : list A) (i : nat) : result A :=
  of_option IndexError (l !! i).

Definition getlast {A} (l : list A) : result A :=
  of_option IndexError (last l).

(** ** Numbers: [int(s)], [float(s)] and [format(x, '.6f')] *)

Module Num.

Definition prec : Z := FloatOps.prec.
Definition emax : Z := FloatOps.emax.

(** The binary64 nearest to an integer (ties to even). *)
Definition of_Z (z : Z) : float :=
  FloatOps.SF2Prim (SpecFloat.binary_normalize prec emax z 0 false).

(** The binary64 nearest to [(-1)^neg * n * 10^e10] (ties to even): what a
    correctly rounded decimal-to-binary conversion returns. *)
Definition of_decimal (neg : bool) (n : Z) (e10 : Z) : float :=
  match n with
  | Zpos p =>
      if 0 <=? e10 then
        FloatOps.SF2Prim
          (SpecFloat.binary_normalize prec emax
             ((if neg then Zneg p else Zpos p) * 10 ^ e10) 0 false)
      else
        FloatOps.SF2Prim
          (SpecFloat.SFdiv prec emax
             (SpecFloat.S754_finite neg p 0)
             (SpecFloat.S754_finite false (Z.to_pos (10 ^ (- e10))) 0))
  | _ => if neg then PrimFloat.neg_zero else PrimFloat.zero
  end.

(** [digit (["_"] digit)*], after its first digit: the value so far, the
    number of digits read, and the rest of the text. *)
Fixpoint digits_tail (s : string) (acc : Z) (n : Z) : Z * Z * string :=
  match s with
  | String c s' =>
      match Str.digit_of c with
      | Some d => digits_tail s' (10 * acc + d) (n + 1)
      | None =>
          if Ascii.eqb c "_" then
            match s' with
            | String c2 s'' =>
                match Str.digit_of c2 with
                | Some d => digits_tail s'' (10 * acc + d) (n + 1)
                | None => (acc, n, s)
                end
            | EmptyString => (acc, n, s)
            end
          else (acc, n, s)
      end
  | EmptyString => (acc, n, s)
  end.

Definition digitpart (s : string) (acc : Z) : option (Z * Z * string) :=
  match s with
  | String c s' =>
      match Str.digit_of c with
      | Some d => Some (digits_tail s' (10 * acc + d) 1)
      | None => None
      end
  | EmptyString => None
  end.

(** An optional sign: whether it is a minus, and the rest. *)
Definition sign (s : string) : bool * string :=
  match s with
  | String c s' =>
      if Ascii.eqb c "-" then (true, s')
      else if Ascii.eqb c "+" then (false, s')
      else (false, s)
  | EmptyString => (false, s)
  end.

(** The blanks that [int] and [float] skip around a number, on the code
    points below 256: those of C's [isspace] (tab to carriage return, and
    the space), and the two other spaces, 133 and 160, which the conversion
    turns into a space first.  The separators 28 to 31, which [str.strip]
    removes, are not among them. *)
Definition is_blank (c : ascii) : bool :=
  let n := Str.code c in
  ((9 <=? n) && (n <=? 13) || (n =? 32) || (n =? 133) || (n =? 160))%N.

Fixpoint skip_blanks (s : string) : string :=
  match s with
  | EmptyString => EmptyString
  | String c s' => if is_blank c then skip_blanks s' else s
  end.

Fixpoint drop_trailing_blanks (s : string) : string :=
  match s with
  | EmptyString => EmptyString
  | String c s' =>
      let r := drop_trailing_blanks s' in
      if is_blank c && Str.is_empty r then EmptyString else String c r
  end.

Definition trim (s : string) : string := drop_trailing_blanks (skip_blanks s).

(** [int(s)] in base ten. *)
Definition py_int (s : string) : result Z :=
  let '(neg, body) := sign (trim s) in
  match digitpart body 0 with
  | Some (v, _, EmptyString) => Ok (if neg then - v else v)
  | _ => Raise ValueError
  end.

(** The exponent part [(e|E) [sign] digitpart], when the text has one. *)
Definition exponent (s : string) : option (Z * string) :=
  match s with
  | String c s' =>
      if Ascii.eqb (Str.lower c) "e" then
        let '(neg, body) := sign s' in
        match digitpart body 0 with
        | Some (v, _, rest) => Some (if neg then - v else v, rest)
        | None => None
        end
      else Some (0, s)
  | EmptyString => Some (0, s)
  end.

(** [[digitpart] "." digitpart | digitpart ["."]]: the digits read as one
    integer, the number of them after the point, and the rest. *)
Definition number (s : string) : option (Z * Z * string) :=
  match digitpart s 0 with
  | Some (ip, _, rest) =>
      match rest with
      | String c rest' =>
          if Ascii.eqb c "." then
            match digitpart rest' ip with
            | Some (v, k, rest'') => Some (v, k, rest'')
            | None => Some (ip, 0, rest')
            end
          else Some (ip, 0, rest)
      | EmptyString => Some (ip, 0, rest)
      end
  | None =>
      match s with
      | String c rest' =>
          if Ascii.eqb c "." then digitpart rest' 0 else None
      | EmptyString => None
      end
  end.

(** [float(s)] *)
Definition py_float (s : string) : result float :=
  let '(neg, body) := sign (trim s) in
  let low := Str.lowercase body in
  if String.eqb low "inf" || String.eqb low "infinity" then
    Ok (if neg then PrimFloat.neg_infinity else PrimFloat.infinity)
  else if String.eqb low "nan" then Ok PrimFloat.nan
  else
    match number body with
    | Some (v, k, rest) =>
        match exponent rest with
        | Some (e, EmptyString) => Ok (of_decimal neg v (e - k))
        | _ => Raise ValueError
        end
    | None => Raise ValueError
    end.

(** The nearest integer to [m * 2^e * 10^6], ties to even. *)
Definition scaled_micro (m : positive) (e : Z) : Z :=
  if 0 <=? e then Zpos m * 2 ^ e * 1000000
  else
    let d := 2 ^ (- e) in
    let q := (Zpos m * 1000000) / d in
    let r := (Zpos m * 1000000) mod d in
    match 2 * r ?= d with
    | Lt => q
    | Gt => q + 1
    | Eq => if Z.even q then q else q + 1
    end.

Definition pad6 (z : Z) : string :=
  let s := pretty z in
  String.concat "" (repeat "0" (6 - String.length s)) +:+ s.

(** [format(x, '.6f')] *)
Definition format_6f (x : float) : string :=
  match FloatOps.Prim2SF x with
  | SpecFloat.S754_nan => "nan"
  | SpecFloat.S754_infinity s => if s then "-inf" else "inf"
  | SpecFloat.S754_zero s => if s then "-0.000000" else "0.000000"
  | SpecFloat.S754_finite s m e =>
      let n := scaled_micro m e in
      (if s then "-" else "") +:+ pretty (n / 1000000) +:+ "." +:+
      pad6 (n mod 1000000)
  end.

End Num.

(** ** Python values and dictionaries *)

Inductive pyval :=
| PyNone
| PyInt (z : Z)
| PyFloat (x : float)
| PyStr (s : string)
| PyTimestamp (ns : Z)   (* nanoseconds since the epoch *)
| PyNaT
| PyDict (d : gmap string float).

Abbreviation dict := (gmap string pyval).

(** [d[k]] *)
Definition dict_get (d : dict) (k : string) : result pyval :=
  of_option (KeyError k) (d !! k).

(** [c[k]] where [c] is expected to be a dictionary of floats. *)
Definition coeff_get (c : pyval) (k : string) : result float :=
  match c with
  | PyDict d => of_option (KeyError k) (d !! k)
  | _ => Raise TypeError
  end.

(** ** The file system seen by the program *)

Record filesystem := {
  fs_dirs : gmap string (list string);      (* [os.listdir] of each directory *)
  fs_files : gmap string (list Byte.byte);  (* content of each readable file *)
}.

(** [open(path, 'rb')] followed by reading: the whole content, or [OSError]. *)
Definition open_rb (fs : filesystem) (path : string) : result (list Byte.byte) :=
  of_option OSError (fs_files fs !! path).

(** ** Binary records ([np.dtype] and [np.fromfile]) *)

Module Bin.

Definition byte_val (b : Byte.byte) : Z := Z.of_N (Byte.to_N b).

Definition byte_of (z : Z) : Byte.byte :=
  match Byte.of_N (Z.to_N (z mod 256)) with
  | Some b => b
  | None => Byte.x00
  end.

(** Little-endian unsigned and two's-complement readings of a byte string. *)
Fixpoint le_uint (bs : list Byte.byte) : Z :=
  match bs with
  | [] => 0
  | b :: bs' => byte_val b + 256 * le_uint bs'
  end.

Definition le_sint (bs : list Byte.byte) : Z :=
  let w := 8 * Z.of_nat (length bs) in
  let u := le_uint bs in
  if u <? 2 ^ (w - 1) then u else u - 2 ^ w.

(** The [n] low bytes of [z], least significant first. *)
Fixpoint le_bytes (n : nat) (z : Z) : list Byte.byte :=
  match n with
  | O => []
  | S n' => byte_of z :: le_bytes n' (z / 256)
  end.

Definition slice (off len : nat) (bs : list Byte.byte) : list Byte.byte :=
  firstn len (skipn off bs).

(** One element of [binary_format]: ten packed little-endian fields. *)
Record RawRecord := {
  time : Z;   (* u4 *)
  tick : Z;   (* u2 *)
  Bx : Z;     (* i4 *)
  By : Z;     (* i4 *)
  Bz : Z;     (* i4 *)
  Ex : Z;     (* i4 *)
  Ey : Z;     (* i4 *)
  sync : Z;   (* b  *)
  stage : Z;  (* B  *)
  CRC : Z;    (* i2 *)
}.

Definition itemsize : nat := 30.
Definition header_size : nat := 1024.

Definition decode_record (bs : list Byte.byte) : RawRecord := {|
  time := le_uint (slice 0 4 bs);
  tick := le_uint (slice 4 2 bs);
  Bx := le_sint (slice 6 4 bs);
  By := le_sint (slice 10 4 bs);
  Bz := le_sint (slice 14 4 bs);
  Ex := le_sint (slice 18 4 bs);
  Ey := le_sint (slice 22 4 bs);
  sync := le_sint (slice 26 1 bs);
  stage := le_uint (slice 27 1 bs);
  CRC := le_sint (slice 28 2 bs);
|}.

(** The bytes of a record in the layout of [binary_format] (the inverse
    direction, [ndarray.tobytes]). *)
Definition encode_record (r : RawRecord) : list Byte.byte :=
  le_bytes 4 (time r) ++ le_bytes 2 (tick r) ++ le_bytes 4 (Bx r) ++
  le_bytes 4 (By r) ++ le_bytes 4 (Bz r) ++ le_bytes 4 (Ex r) ++
  le_bytes 4 (Ey r) ++ le_bytes 1 (sync r) ++ le_bytes 1 (stage r) ++
  le_bytes 2 (CRC r).

(** [np.fromfile(f, dtype=binary_format)] on the bytes left in [f]: the
    number of whole items is computed first, then that many are read. *)
Definition fromfile (rest : list Byte.byte) : list RawRecord :=
  map (fun i => decode_record (slice (itemsize * i) itemsize rest))
      (seq 0 (length rest / itemsize)).

(** [f.read(1024)] then [np.fromfile(f, ...)]. *)
Definition read_records (content : list Byte.byte) : list RawRecord :=
  fromfile (skipn header_size content).

End Bin.

(** ** Data frames *)

Inductive column :=
| IntCol (l : list Z)        (* an integer dtype *)
| FloatCol (l : list float)  (* float64 *)
| TimeCol (l : list Z)       (* datetime64[ns, UTC] *)
| DeltaCol (l : list Z).     (* timedelta64[ns] *)

Inductive index :=
| RangeIndex (n : nat)
| DatetimeIndex (l : list Z).

Record DataFrame := {
  df_index : index;
  df_cols : gmap string column;
}.

Module Pd.

Definition index_len (i : index) : nat :=
  match i with
  | RangeIndex n => n
  | DatetimeIndex l => length l
  end.

(** [len(df)] *)
Definition len (df : DataFrame) : nat := index_len (df_index df).

(** [pd.DataFrame(data)] for a structured array. *)
Definition of_records (rs : list Bin.RawRecord) : DataFrame := {|
  df_index := RangeIndex (length rs);
  df_cols :=
    <["time" := IntCol (map Bin.time rs)]>
    (<["tick" := IntCol (map Bin.tick rs)]>
    (<["Bx" := IntCol (map Bin.Bx rs)]>
    (<["By" := IntCol (map Bin.By rs)]>
    (<["Bz" := IntCol (map Bin.Bz rs)]>
    (<["Ex" := IntCol (map Bin.Ex rs)]>
    (<["Ey" := IntCol (map Bin.Ey rs)]>
    (<["sync" := IntCol (map Bin.sync rs)]>
    (<["stage" := IntCol (map Bin.stage rs)]>
    (<["CRC" := IntCol (map Bin.CRC rs)]> ∅)))))))));
|}.

(** [df[k]] *)
Definition getcol (df : DataFrame) (k : string) : result column :=
  of_option (KeyError k) (df_cols df !! k).

(** [df[k] = c] *)
Definition setcol (df : DataFrame) (k : string) (c : column) : DataFrame :=
  {| df_index := df_index df; df_cols := <[k := c]> (df_cols df) |}.

(** [pd.to_datetime(c, unit='s', utc=True)] *)
Definition to_datetime_s (c : column) : result column :=
  match c with
  | IntCol l => Ok (TimeCol (map (fun t => t * 1000000000) l))
  | _ => Raise TypeError
  end.

(** [pd.to_timedelta(c, unit='ms')] *)
Definition to_timedelta_ms (c : column) : result column :=
  match c with
  | IntCol l => Ok (DeltaCol (map (fun t => t * 1000000) l))
  | _ => Raise TypeError
  end.

(** [a + b] for a datetime column and a timedelta column on one index. *)
Definition add_delta (a b : column) : result column :=
  match a, b with
  | TimeCol la, DeltaCol lb => Ok (TimeCol (zip_with Z.add la lb))
  | _, _ => Raise TypeError
  end.

(** [c * k] for a Python float [k]: the integers are converted to float64. *)
Definition mul_scalar (c : column) (k : float) : result column :=
  match c with
  | IntCol l => Ok (FloatCol (map (fun z => PrimFloat.mul (Num.of_Z z) k) l))
  | FloatCol l => Ok (FloatCol (map (fun x => PrimFloat.mul x k) l))
  | _ => Raise TypeError
  end.

(** [c + k] for a Python float [k]. *)
Definition add_scalar (c : column) (k : float) : result column :=
  match c with
  | IntCol l => Ok (FloatCol (map (fun z => PrimFloat.add (Num.of_Z z) k) l))
  | FloatCol l => Ok (FloatCol (map (fun x => PrimFloat.add x k) l))
  | _ => Raise TypeError
  end.

(** [df.set_index(k, inplace=True)]; only a datetime column is indexed in
    this program. *)
Definition set_index (df : DataFrame) (k : string) : result DataFrame :=
  c ← getcol df k;
  match c with
  | TimeCol l =>
      Ok {| df_index := DatetimeIndex l; df_cols := delete k (df_cols df) |}
  | _ => Raise TypeError
  end.

(** [df.index.min()] and [df.index.max()]: [NaT] on an empty datetime index. *)
Definition index_min (df : DataFrame) : pyval :=
  match df_index df with
  | DatetimeIndex (t :: ts) => PyTimestamp (fold_right Z.min t ts)
  | DatetimeIndex [] => PyNaT
  | RangeIndex (S _) => PyInt 0
  | RangeIndex O => PyFloat PrimFloat.nan
  end.

Definition index_max (df : DataFrame) : pyval :=
  match df_index df with
  | DatetimeIndex (t :: ts) => PyTimestamp (fold_right Z.max t ts)
  | DatetimeIndex [] => PyNaT
  | RangeIndex (S n) => PyInt (Z.of_nat n)
  | RangeIndex O => PyFloat PrimFloat.nan
  end.

(** [df.index < t + pd.Timedelta(seconds=1)]: every comparison with [NaT]
    is false. *)
Definition index_before_plus_1s (df : DataFrame) (t : pyval) : list bool :=
  match df_index df, t with
  | DatetimeIndex l, PyTimestamp t0 => map (fun x => x <? t0 + 1000000000) l
  | i, _ => repeat false (index_len i)
  end.

Fixpoint select {A} (mask : list bool) (l : list A) : list A :=
  match mask, l with
  | b :: mask', x :: l' => if b then x :: select mask' l' else select mask' l'
  | _, _ => []
  end.

Definition select_col (mask : list bool) (c : column) : column :=
  match c with
  | IntCol l => IntCol (select mask l)
  | FloatCol l => FloatCol (select mask l)
  | TimeCol l => TimeCol (select mask l)
  | DeltaCol l => DeltaCol (select mask l)
  end.

(** [df[mask]] for a boolean mask over the rows. *)
Definition select_rows (df : DataFrame) (mask : list bool) : DataFrame := {|
  df_index :=
    match df_index df with
    | RangeIndex n => RangeIndex (length (select mask (seq 0 n)))
    | DatetimeIndex l => DatetimeIndex (select mask l)
    end;
  df_cols := select_col mask <$> df_cols df;
|}.

(** [df.drop(columns=ks, errors='ignore', inplace=True)] *)
Definition drop_columns (df : DataFrame) (ks : list string) : DataFrame :=
  {| df_index := df_index df;
     df_cols := fold_right (fun k m => delete k m) (df_cols df) ks |}.

(** [df[k] = z] for an integer scalar. *)
Definition set_scalar (df : DataFrame) (k : string) (z : Z) : DataFrame :=
  setcol df k (IntCol (repeat z (len df))).

Definition app_col (a b : column) : column :=
  match a, b with
  | IntCol x, IntCol y => IntCol (x ++ y)
  | FloatCol x, FloatCol y => FloatCol (x ++ y)
  | TimeCol x, TimeCol y => TimeCol (x ++ y)
  | DeltaCol x, DeltaCol y => DeltaCol (x ++ y)
  | IntCol x, FloatCol y => FloatCol (map Num.of_Z x ++ y)
  | FloatCol x, IntCol y => FloatCol (x ++ map Num.of_Z y)
  | _, _ => a
  end.

Definition app_index (a b : index) : index :=
  match a, b with
  | DatetimeIndex x, DatetimeIndex y => DatetimeIndex (x ++ y)
  | _, _ => RangeIndex (index_len a + index_len b)
  end.

(** [pd.concat([a, b])] for frames with the same columns (every frame
    [process_site] builds has the columns Bx, By, Ex, Ey, site_id). *)
Definition concat2 (a b : DataFrame) : DataFrame := {|
  df_index := app_index (df_index a) (df_index b);
  df_cols := union_with (fun x y => Some (app_col x y)) (df_cols a) (df_cols b);
|}.

(** [pd.concat(dfs) if dfs else None] *)
Definition concat_or_none (dfs : list DataFrame) : option DataFrame :=
  match dfs with
  | [] => None
  | d :: ds => Some (fold_left concat2 ds d)
  end.

End Pd.

(** ** [class Read_Lemi_Data] *)

Module Read_Lemi_Data.

Record t := {
  binary_file : string;
  coefficients : pyval;
  data : option DataFrame;
}.

(** [__init__] *)
Definition init (binary_file : string) (coefficients : pyval) : t :=
  {| binary_file := binary_file; coefficients := coefficients; data := None |}.

(** [df[ch] = df[ch] * self.coefficients[k] + self.coefficients[a]] *)
Definition calibrate (self : t) (df : DataFrame) (ch k a : string)
  : result DataFrame :=
  raw ← Pd.getcol df ch;
  scale ← coeff_get (coefficients self) k;
  scaled ← Pd.mul_scalar raw scale;
  offset ← coeff_get (coefficients self) a;
  phys ← Pd.add_scalar scaled offset;
  Ok (Pd.setcol df ch phys).

(** The [try] block of [_from_binary], up to the assignment of [self.data]. *)
Definition from_binary_body (fs : filesystem) (self : t) : result DataFrame :=
  content ← open_rb fs (binary_file self);
  let data := Bin.read_records content in
  let df := Pd.of_records data in
  secs ← Pd.getcol df "time";
  stamp ← Pd.to_datetime_s secs;
  ticks ← Pd.getcol df "tick";
  delta ← Pd.to_timedelta_ms ticks;
  when ← Pd.add_delta stamp delta;
  let df := Pd.setcol df "time" when in
  df ← calibrate self df "Bx" "Kmx" "Ax";
  df ← calibrate self df "By" "Kmy" "Ay";
  df ← calibrate self df "Bz" "Kmz" "Az";
  df ← calibrate self df "Ex" "Ke1" "Ae1";
  df ← calibrate self df "Ey" "Ke2" "Ae2";
  Pd.set_index df "time".

(** [_from_binary]: the object after the call, and the value returned
    ([None] from the [except] branch). *)
Definition _from_binary (fs : filesystem) (self : t) : t * option DataFrame :=
  match from_binary_body fs self with
  | Ok df =>
      ({| binary_file := binary_file self;
          coefficients := coefficients self;
          data := Some df |}, Some df)
  | Raise _ => (self, None)
  end.

(** [get_data] *)
Definition get_data (self : t) : option DataFrame := data self.

End Read_Lemi_Data.

(** ** Statements that update an object and may raise *)

(** A method body over a state [S]: the state after it, and its value or
    the exception it raised.  Updates made before the raise are kept. *)
Definition M (S A : Type) : Type := S → S * result A.

#[global] Instance M_ret {S} : MRet (M S) := fun A a s => (s, Ok a).
#[global] Instance M_bind {S} : MBind (M S) := fun A B f m s =>
  match m s with
  | (s', Ok a) => f a s'
  | (s', Raise e) => (s', Raise e)
  end.

Definition lift {S A} (r : result A) : M S A := fun s => (s, r).
Definition get {S} : M S S := fun s => (s, Ok s).
Definition modify {S} (f : S → S) : M S unit := fun s => (f s, Ok tt).

(** [try: body except Exception as e: handler(e)] *)
Definition try_except {S A} (body : M S A) (handler : exn → M S A) : M S A :=
  fun s =>
    match body s with
    | (s', Ok a) => (s', Ok a)
    | (s', Raise e) => handler e s'
    end.

(** ** The two library calls taken as parameters *)

Class PyRuntime := {
  (** [bytes.decode(errors='ignore')] with the default UTF-8 codec *)
  decode_ignore : list Byte.byte → string;
  (** [pd.to_datetime(s, format="%Y/%m/%d %H:%M:%S")], in nanoseconds *)
  to_datetime : string → result Z;
}.

(** ** [class Read_Lemi_Header] *)

Module Read_Lemi_Header.

Record t := {
  binary_file : string;
  instrument_number : pyval;
  deployment_time : pyval;
  latitude : pyval;
  longitude : pyval;
  elevation : pyval;
  coefficients : gmap string float;
}.

(** [__init__] *)
Definition init (binary_file : string) : t := {|
  binary_file := binary_file;
  instrument_number := PyNone;
  deployment_time := PyNone;
  latitude := PyNone;
  longitude := PyNone;
  elevation := PyNone;
  coefficients := ∅;
|}.

Definition set_instrument_number (v : pyval) (self : t) : t :=
  {| binary_file := binary_file self; instrument_number := v;
     deployment_time := deployment_time self; latitude := latitude self;
     longitude := longitude self; elevation := elevation self;
     coefficients := coefficients self |}.

Definition set_deployment_time (v : pyval) (self : t) : t :=
  {| binary_file := binary_file self;
     instrument_number := instrument_number self;
     deployment_time := v; latitude := latitude self;
     longitude := longitude self; elevation := elevation self;
     coefficients := coefficients self |}.

Definition set_latitude (v : pyval) (self : t) : t :=
  {| binary_file := binary_file self;
     instrument_number := instrument_number self;
     deployment_time := deployment_time self; latitude := v;
     longitude := longitude self; elevation := elevation self;
     coefficients := coefficients self |}.

Definition set_longitude (v : pyval) (self : t) : t :=
  {| binary_file := binary_file self;
     instrument_number := instrument_number self;
     deployment_time := deployment_time self; latitude := latitude self;
     longitude := v; elevation := elevation self;
     coefficients := coefficients self |}.

Definition set_elevation (v : pyval) (self : t) : t :=
  {| binary_file := binary_file self;
     instrument_number := instrument_number self;
     deployment_time := deployment_time self; latitude := latitude self;
     longitude := longitude self; elevation := v;
     coefficients := coefficients self |}.

Definition set_coefficients (v : gmap string float) (self : t) : t :=
  {| binary_file := binary_file self;
     instrument_number := instrument_number self;
     deployment_time := deployment_time self; latitude := latitude self;
     longitude := longitude self; elevation := elevation self;
     coefficients := v |}.

(** [a, b = l]: exactly two values. *)
Definition unpack2 {A} (l : list A) : result (A * A) :=
  match l with
  | [a; b] => Ok (a, b)
  | _ => Raise ValueError
  end.

(** [(int(s[:n]) + float(s[n:]) / 60) * (-1 if d.strip() == neg else 1)] *)
Definition decimal_degrees (n : nat) (neg : string) (s d : string)
  : result float :=
  deg ← Num.py_int (Str.take n s);
  minutes ← Num.py_float (Str.drop n s);
  Ok (PrimFloat.mul
        (PrimFloat.add (Num.of_Z deg) (PrimFloat.div minutes (Num.of_Z 60)))
        (Num.of_Z (if String.eqb (Str.strip d) neg then -1 else 1))).

(** The dictionary comprehension of [_extract_coefficients]: later lines
    overwrite earlier ones. *)
Fixpoint coefficient_items (lines : list string) (acc : gmap string float)
  : result (gmap string float) :=
  match lines with
  | [] => Ok acc
  | line :: rest =>
      if Str.contains "=" line then
        name ← getitem (Str.split_on "=" line) 0;
        text ← getitem (Str.split_on "=" line) 1;
        value ← Num.py_float text;
        coefficient_items rest
          (<[Str.lstrip_char "%" (Str.strip name) := value]> acc)
      else coefficient_items rest acc
  end.

Section Methods.
Context `{PyRuntime}.
Variable fs : filesystem.

(** [_read_header]: the lines of the first 1024 bytes, [[]] on any error. *)
Definition _read_header (self : t) : list string :=
  match open_rb fs (binary_file self) with
  | Ok content => Str.splitlines (decode_ignore (firstn 1024 content))
  | Raise _ => []
  end.

Definition _extract_instrument_number (header : list string) : M t unit :=
  line ← lift (getitem header 0);
  if Str.contains "#" line then
    text ← lift (getlast (Str.split_on "#" line));
    n ← lift (Num.py_int text);
    modify (set_instrument_number (PyInt n))
  else modify (set_instrument_number PyNone).

Definition _extract_deployment_time (header : list string) : M t unit :=
  line4 ← lift (getitem header 4);
  date ← lift (getlast (Str.split line4));
  line5 ← lift (getitem header 5);
  time ← lift (getlast (Str.split line5));
  stamp ← lift (to_datetime (date +:+ " " +:+ time));
  modify (set_deployment_time (PyTimestamp stamp)).

Definition _extract_coefficients (header : list string) : M t unit :=
  items ← lift (coefficient_items (skipn 13 header) ∅);
  modify (set_coefficients items).

Definition _extract_coordinates (header : list string) : M t unit :=
  line9 ← lift (getitem header 9);
  tok9 ← lift (getlast (Str.split line9));
  '(lat, lat_dir) ← lift (unpack2 (Str.split_on "," tok9));
  line10 ← lift (getitem header 10);
  tok10 ← lift (getlast (Str.split line10));
  '(lon, lon_dir) ← lift (unpack2 (Str.split_on "," tok10));
  la ← lift (decimal_degrees 2 "S" lat lat_dir);
  modify (set_latitude (PyFloat la));;
  lo ← lift (decimal_degrees 3 "W" lon lon_dir);
  modify (set_longitude (PyFloat lo));;
  line11 ← lift (getitem header 11);
  head ← lift (getitem (Str.split_on "," line11) 0);
  tok11 ← lift (getlast (Str.split head));
  el ← lift (Num.py_float tok11);
  modify (set_elevation (PyFloat el)).

(** [format(v, '.6f')] for an attribute value. *)
Definition format_6f (v : pyval) : result string :=
  match v with
  | PyFloat x => Ok (Num.format_6f x)
  | PyInt z => Ok (Num.format_6f (Num.of_Z z))
  | _ => Raise TypeError
  end.

(** The dictionary literal of [read]. *)
Definition metadata : M t dict :=
  self ← get;
  la ← lift (format_6f (latitude self));
  lo ← lift (format_6f (longitude self));
  mret (<["instrument_number" := instrument_number self]>
       (<["deployment_time" := deployment_time self]>
       (<["latitude" := latitude self]>
       (<["longitude" := longitude self]>
       (<["elevation" := elevation self]>
       (<["geo_site" := PyStr (la +:+ ", " +:+ lo)]>
       (<["coefficients" := PyDict (coefficients self)]> ∅))))))).

(** The [try] block of [read]. *)
Definition read_body (header : list string) : M t dict :=
  _extract_instrument_number header;;
  _extract_deployment_time header;;
  _extract_coefficients header;;
  _extract_coordinates header;;
  metadata.

(** [read]: the object after the call and the dictionary returned. *)
Definition read (self : t) : t * dict :=
  let header := _read_header self in
  match header with
  | [] => (self, ∅)
  | _ =>
      match read_body header self with
      | (self', Ok md) => (self', md)
      | (self', Raise _) => (self', ∅)
      end
  end.

End Methods.

End Read_Lemi_Header.

(** ** [os.path] on POSIX paths *)

Module Os.

Fixpoint rstrip_char (ch : ascii) (s : string) : string :=
  match s with
  | EmptyString => EmptyString
  | String c s' =>
      let r := rstrip_char ch s' in
      if Ascii.eqb c ch && Str.is_empty r then EmptyString else String c r
  end.

(** [os.path.join(a, b)] *)
Definition path_join (a b : string) : string :=
  if Str.startswith_char "/" b then b
  else if Str.is_empty a || Str.endswith "/" a then a +:+ b
  else a +:+ "/" +:+ b.

(** [os.path.basename(p)]: what follows the last slash. *)
Definition basename (p : string) : string :=
  default EmptyString (last (Str.split_on "/" p)).

(** The prefix of [p] up to its last slash, the slash included. *)
Fixpoint dir_part (p : string) : string :=
  match p with
  | EmptyString => EmptyString
  | String c p' => if Str.contains "/" p then String c (dir_part p') else EmptyString
  end.

(** [os.path.dirname(p)] *)
Definition dirname (p : string) : string :=
  let head := dir_part p in
  let r := rstrip_char "/" head in
  if Str.is_empty r then head else r.

End Os.

(** ** The log *)

Inductive level := INFO | WARNING | ERROR.

Inductive message :=
| MsgHandlingSite (site_name : string)
| MsgFolderNotFound (site_name : string)
| MsgNoFiles (site_name : string)
| MsgProcessingFile (binary_file : string)
| MsgFileError (binary_file : string) (e : exn)
| MsgFinishedSite (site_name : string)
| MsgPoolError (e : exn)
| MsgAllSitesProcessed
| MsgNoDataLoaded
| MsgSiteMetadata
| MsgFirstRows
| MsgSite (site_id : pyval)
| MsgInvalidCsvPath.

Abbreviation logbook := (list (level * message)).

(** ** [Process_LEMI_423.py] *)

(** One row of the metadata table. *)
Record SiteInfo := {
  SiteName : string;
  ExDipole : pyval;
  ExAzimuth : pyval;
  EyDipole : pyval;
  EyAzimuth : pyval;
}.

(** [bool(v)] *)
Definition truthy (v : pyval) : bool :=
  match v with
  | PyNone => false
  | PyInt z => negb (z =? 0)
  | PyFloat x => negb (PrimFloat.eqb x PrimFloat.zero)
  | PyStr s => negb (Str.is_empty s)
  | PyTimestamp _ => true
  | PyNaT => true
  | PyDict d => negb (bool_decide (d = ∅))
  end.

(** [v is None] *)
Definition is_none (v : pyval) : bool :=
  match v with
  | PyNone => true
  | _ => false
  end.

(** [sorted(l, key=key)]: every key is computed first, in order; the sort is
    stable. *)
Fixpoint insert_by_key {A} (x : Z * A) (l : list (Z * A)) : list (Z * A) :=
  match l with
  | [] => [x]
  | y :: l' => if fst x <=? fst y then x :: y :: l' else y :: insert_by_key x l'
  end.

Fixpoint decorate {A} (key : A → result Z) (l : list A) : result (list (Z * A)) :=
  match l with
  | [] => Ok []
  | x :: l' =>
      k ← key x;
      rest ← decorate key l';
      Ok ((k, x) :: rest)
  end.

Definition sorted_by_key {A} (key : A → result Z) (l : list A) : result (list A) :=
  keyed ← decorate key l;
  Ok (map snd (fold_right insert_by_key [] keyed)).

(** [int(os.path.basename(x).split('.')[0])] *)
Definition file_key (x : string) : result Z :=
  prefix ← getitem (Str.split_on "." (Os.basename x)) 0;
  Num.py_int prefix.

(** The list [binary_files] of [process_site]. *)
Definition binary_files (site_path : string) (names : list string)
  : result (list string) :=
  sorted_by_key file_key
    (map (Os.path_join site_path) (List.filter (Str.endswith ".B423") names)).

(** The local variables of [process_site] that outlive one loop turn, and
    the log lines written so far. *)
Record Locals := {
  all_data : list DataFrame;
  start_time : pyval;
  finish_time : pyval;
  sample_rate : pyval;
  header_info : option dict;   (* [None]: not yet assigned *)
  log : logbook;
}.

Definition locals0 (log : logbook) : Locals := {|
  all_data := [];
  start_time := PyNone;
  finish_time := PyNone;
  sample_rate := PyNone;
  header_info := None;
  log := log;
|}.

Definition set_start_time (v : pyval) (l : Locals) : Locals :=
  {| all_data := all_data l; start_time := v; finish_time := finish_time l;
     sample_rate := sample_rate l; header_info := header_info l; log := log l |}.

Definition set_finish_time (v : pyval) (l : Locals) : Locals :=
  {| all_data := all_data l; start_time := start_time l; finish_time := v;
     sample_rate := sample_rate l; header_info := header_info l; log := log l |}.

Definition set_sample_rate (v : pyval) (l : Locals) : Locals :=
  {| all_data := all_data l; start_time := start_time l;
     finish_time := finish_time l; sample_rate := v;
     header_info := header_info l; log := log l |}.

Definition set_header_info (v : dict) (l : Locals) : Locals :=
  {| all_data := all_data l; start_time := start_time l;
     finish_time := finish_time l; sample_rate := sample_rate l;
     header_info := Some v; log := log l |}.

Definition append_data (df : DataFrame) (l : Locals) : Locals :=
  {| all_data := all_data l ++ [df]; start_time := start_time l;
     finish_time := finish_time l; sample_rate := sample_rate l;
     header_info := header_info l; log := log l |}.

Definition write_log (lv : level) (m : message) (l : Locals) : Locals :=
  {| all_data := all_data l; start_time := start_time l;
     finish_time := finish_time l; sample_rate := sample_rate l;
     header_info := header_info l; log := log l ++ [(lv, m)] |}.

(** [df.index] where [df] may be [None]. *)
Definition frame (df : option DataFrame) : result DataFrame :=
  of_option AttributeError df.

(** [len(df[df.index < df.index.min() + pd.Timedelta(seconds=1)])] *)
Definition first_second_count (df : DataFrame) : Z :=
  Z.of_nat (Pd.len (Pd.select_rows df (Pd.index_before_plus_1s df (Pd.index_min df)))).

(** [for x in l: body(x)] *)
Fixpoint for_each {S A} (l : list A) (body : A → M S unit) : M S unit :=
  match l with
  | [] => mret tt
  | x :: l' => body x;; for_each l' body
  end.

Section Process.
Context `{PyRuntime}.
Variable fs : filesystem.

(** The [try] block of the loop over [binary_files]. *)
Definition file_try (site_id : Z) (binary_file : string) : M Locals unit :=
  let info := snd (Read_Lemi_Header.read fs (Read_Lemi_Header.init binary_file)) in
  modify (set_header_info info);;
  coeffs ← lift (dict_get info "coefficients");
  let df := snd (Read_Lemi_Data._from_binary fs (Read_Lemi_Data.init binary_file coeffs)) in
  vars ← get;
  first ← lift (if truthy (start_time vars) then Ok (start_time vars)
                 else d ← frame df; Ok (Pd.index_min d));
  modify (set_start_time first);;
  d ← lift (frame df);
  modify (set_finish_time (Pd.index_max d));;
  vars ← get;
  (if is_none (sample_rate vars)
   then modify (set_sample_rate (PyInt (first_second_count d)))
   else mret tt);;
  let d := Pd.drop_columns d ["time"; "Bz"; "tick"; "sync"; "stage"; "CRC"] in
  let d := Pd.set_scalar d "site_id" site_id in
  modify (append_data d).

(** One turn of the loop: [except Exception: write_log(...); continue]. *)
Definition file_step (site_id : Z) (binary_file : string) : M Locals unit :=
  modify (write_log INFO (MsgProcessingFile binary_file));;
  try_except (file_try site_id binary_file)
    (fun e => modify (write_log ERROR (MsgFileError binary_file e))).

(** The dictionary [metadata] built after the loop. *)
Definition site_metadata (site_info : SiteInfo) (site_id : Z) : M Locals dict :=
  vars ← get;
  info ← lift (of_option (UnboundLocalError "header_info") (header_info vars));
  rx ← lift (dict_get info "instrument_number");
  la ← lift (dict_get info "latitude");
  lat ← lift (Read_Lemi_Header.format_6f la);
  lo ← lift (dict_get info "longitude");
  lon ← lift (Read_Lemi_Header.format_6f lo);
  alt ← lift (dict_get info "elevation");
  mret (<["site_id" := PyInt site_id]>
       (<["site_name" := PyStr (SiteName site_info)]>
       (<["Rx_no." := rx]>
       (<["Lat" := PyStr lat]>
       (<["Lon" := PyStr lon]>
       (<["Alt" := alt]>
       (<["Start Time" := start_time vars]>
       (<["Finish Time" := finish_time vars]>
       (<["Sample Rate" := sample_rate vars]>
       (<["ExDipole" := ExDipole site_info]>
       (<["ExAz" := ExAzimuth site_info]>
       (<["EyDipole" := EyDipole site_info]>
       (<["EyAz" := EyAzimuth site_info]> ∅))))))))))))).

(** The loop of [process_site]. *)
Definition site_loop (site_id : Z) (files : list string) : M Locals unit :=
  for_each files (file_step site_id).

(** What follows the loop. *)
Definition site_finish (site_info : SiteInfo) (site_id : Z)
  : M Locals (option DataFrame * option dict) :=
  md ← site_metadata site_info site_id;
  modify (write_log INFO (MsgFinishedSite (SiteName site_info)));;
  vars ← get;
  mret (Pd.concat_or_none (all_data vars), Some md).

(** [process_site(directory, site_info, site_id)]: the log lines of the
    job, and the pair it returns or the exception it raises. *)
Definition process_site (directory : string) (site_info : SiteInfo) (site_id : Z)
  : logbook * result (option DataFrame * option dict) :=
  let site_name := SiteName site_info in
  let site_path := Os.path_join directory site_name in
  let log0 := [(INFO, MsgHandlingSite site_name)] in
  match fs_dirs fs !! site_path with
  | None =>
      ((log0 ++ [(WARNING, MsgFolderNotFound site_name)])%list, Ok (None, None))
  | Some names =>
      match binary_files site_path names with
      | Raise e => (log0, Raise e)
      | Ok [] =>
          ((log0 ++ [(WARNING, MsgNoFiles site_name)])%list, Ok (None, None))
      | Ok files =>
          let '(vars, r) :=
            (site_loop site_id files;; site_finish site_info site_id)
              (locals0 log0) in
          (log vars, r)
      end
  end.

(** The body of [for future in futures]: a job that returned a table adds
    it and its summary; a job that raised adds a log line. *)
Definition collect (acc : list DataFrame * list (option dict) * logbook)
    (r : result (option DataFrame * option dict))
  : list DataFrame * list (option dict) * logbook :=
  let '(all_data, metadata_list, lg) := acc in
  match r with
  | Ok (Some df, metadata) =>
      (all_data ++ [df], metadata_list ++ [metadata], lg)
  | Ok (None, _) => acc
  | Raise e => (all_data, metadata_list, lg ++ [(ERROR, MsgPoolError e)])
  end.

(** The jobs of the pool, in the order of the metadata rows. *)
Definition run_jobs (directory : string) (rows : list (Z * SiteInfo))
  : list (result (option DataFrame * option dict)) :=
  map (fun row => snd (process_site directory (snd row) (fst row))) rows.

(** [process_all_sites(csv_file, num_workers)]; [metadata_df] is what
    [load_metadata(csv_file)] returned, with the index label of each row. *)
Definition process_all_sites (csv_file : string)
    (metadata_df : option (list (Z * SiteInfo)))
  : logbook * (option DataFrame * option (list (option dict))) :=
  match metadata_df with
  | None => ([], (None, None))
  | Some rows =>
      let '(all_data, metadata_list, lg) :=
        fold_left collect (run_jobs (Os.dirname csv_file) rows) ([], [], []) in
      (lg, (Pd.concat_or_none all_data, Some metadata_list))
  end.

End Process.

(** [df.empty] *)
Definition df_empty (df : DataFrame) : bool :=
  (Pd.len df =? 0)%nat || bool_decide (dom (df_cols df) = ∅).

(** [log_summary(time_series_df, metadata_df)] *)
Definition log_summary (time_series_df : option DataFrame)
    (metadata_df : list (option dict)) : logbook :=
  match time_series_df with
  | None => [(WARNING, MsgNoDataLoaded)]
  | Some df =>
      if df_empty df then [(WARNING, MsgNoDataLoaded)]
      else
        [(INFO, MsgSiteMetadata); (INFO, MsgFirstRows)] ++
        map (fun v => (INFO, MsgSite v))
            (omap (fun row : option dict => row ≫= (.!! "site_id")) metadata_df)
  end.

(** The entry point after the two prompts: [is_file] is
    [os.path.isfile(csv_file)]. *)
Definition main `{PyRuntime} (fs : filesystem) (csv_file : string) (is_file : bool)
    (metadata_df : option (list (Z * SiteInfo))) : logbook :=
  if is_file then
    let '(lg, (time_series_data, site_metadata)) :=
      process_all_sites fs csv_file metadata_df in
    match time_series_data, site_metadata with
    | Some _, Some md =>
        lg ++ [(INFO, MsgAllSitesProcessed)] ++ log_summary time_series_data md
    | _, _ => lg
    end
  else [(ERROR, MsgInvalidCsvPath)].

(** ** A runtime for plain ASCII headers, and sample inputs *)

Module Sample.

(** On bytes below 128 the UTF-8 decoder is the identity; this decoder drops
    the others. *)
Definition decode_ascii (bs : list Byte.byte) : string :=
  string_of_list_ascii
    (map ascii_of_byte (List.filter (fun b => (Byte.to_N b <? 128)%N) bs)).

(** Days from 1970-01-01 to a date of the proleptic Gregorian calendar. *)
Definition days_from_civil (y m d : Z) : Z :=
  let y' := if m <=? 2 then y - 1 else y in
  let era := y' / 400 in
  let yoe := y' - era * 400 in
  let mp := (m + 9) mod 12 in
  let doy := (153 * mp + 2) / 5 + d - 1 in
  let doe := yoe * 365 + yoe / 4 - yoe / 100 + doy in
  era * 146097 + doe - 719468.

Definition days_in_month (y m : Z) : Z :=
  if m =? 2 then
    if ((y mod 4 =? 0) && negb (y mod 100 =? 0)) || (y mod 400 =? 0) then 29 else 28
  else if (m =? 4) || (m =? 6) || (m =? 9) || (m =? 11) then 30 else 31.

(** A run of exactly [n] digits. *)
Fixpoint digits (n : nat) (s : string) (acc : Z) : option (Z * string) :=
  match n, s with
  | O, _ => Some (acc, s)
  | S n', String c s' =>
      match Str.digit_of c with
      | Some d => digits n' s' (10 * acc + d)
      | None => None
      end
  | S _, EmptyString => None
  end.

Definition expect (ch : ascii) (s : string) : option string :=
  match s with
  | String c s' => if Ascii.eqb c ch then Some s' else None
  | EmptyString => None
  end.

(** Texts of the exact shape [YYYY/MM/DD HH:MM:SS]. *)
Definition strptime (s : string) : result Z :=
  of_option ValueError (
    '(y, s) ← digits 4 s 0; s ← expect "/" s;
    '(mo, s) ← digits 2 s 0; s ← expect "/" s;
    '(d, s) ← digits 2 s 0; s ← expect " " s;
    '(h, s) ← digits 2 s 0; s ← expect ":" s;
    '(mi, s) ← digits 2 s 0; s ← expect ":" s;
    '(se, s) ← digits 2 s 0;
    if Str.is_empty s && (1 <=? mo) && (mo <=? 12) && (1 <=? d)
       && (d <=? days_in_month y mo) && (h <=? 23) && (mi <=? 59) && (se <=? 59)
    then Some ((((days_from_civil y mo d * 24 + h) * 60 + mi) * 60 + se) * 1000000000)
    else None).

Definition runtime : PyRuntime := {|
  decode_ignore := decode_ascii;
  to_datetime := strptime;
|}.

Definition nl : string := String (ascii_of_N 10) EmptyString.

Definition header_lines (lat lon : string) : list string :=
  [ "%LEMI423 #00123"; "%Firmware 1.2"; "%"; "%Start"; "%Date 2024/07/03";
    "%Time 01:02:03"; "%"; "%"; "%"; "%Lat " +:+ lat; "%Lon " +:+ lon;
    "%Alt 123.4,M"; "%Coefficients";
    "%Kmx = 0.5"; "%Ax = 1.0"; "%Kmy = 0.25"; "%Ay = -2.0"; "%Kmz = 2.0";
    "%Az = 0.0"; "%Ke1 = 0.125"; "%Ae1 = 3.0"; "%Ke2 = 4.0"; "%Ae2 = -1.5" ].

(** A header block: the lines, blank-padded to 1024 bytes. *)
Definition header_bytes (lines : list string) : list Byte.byte :=
  firstn 1024 (list_byte_of_string (String.concat nl lines)
               ++ repeat (byte_of_ascii " ") 1024).

Definition good_header : list Byte.byte :=
  header_bytes (header_lines "3455.1234,S" "13836.0000,E").

Definition record1 : Bin.RawRecord := {|
  Bin.time := 1720000000; Bin.tick := 0; Bin.Bx := -2; Bin.By := 3;
  Bin.Bz := 4; Bin.Ex := -5; Bin.Ey := 6; Bin.sync := -1; Bin.stage := 200;
  Bin.CRC := -300 |}.

Definition record2 : Bin.RawRecord := {|
  Bin.time := 1720000000; Bin.tick := 500; Bin.Bx := 10; Bin.By := 11;
  Bin.Bz := 12; Bin.Ex := 13; Bin.Ey := 14; Bin.sync := 0; Bin.stage := 1;
  Bin.CRC := 2 |}.

Definition record3 : Bin.RawRecord := {|
  Bin.time := 1720000001; Bin.tick := 0; Bin.Bx := 20; Bin.By := 21;
  Bin.Bz := 22; Bin.Ex := 23; Bin.Ey := 24; Bin.sync := 0; Bin.stage := 1;
  Bin.CRC := 2 |}.

(** A well-formed file: the header, three records, seven stray bytes. *)
Definition good_file : list Byte.byte :=
  good_header ++ Bin.encode_record record1 ++ Bin.encode_record record2
  ++ Bin.encode_record record3 ++ repeat Byte.x2a 7.

Definition coeffs : gmap string float :=
  default ∅ (match Read_Lemi_Header.coefficient_items
                     (skipn 13 (header_lines "" "")) ∅ with
             | Ok m => Some m
             | Raise _ => None
             end).

(** A later file of the same site: one record an hour on. *)
Definition later_file : list Byte.byte :=
  good_header
  ++ Bin.encode_record {|
       Bin.time := 1720003600; Bin.tick := 250; Bin.Bx := 1; Bin.By := 2;
       Bin.Bz := 3; Bin.Ex := 4; Bin.Ey := 5; Bin.sync := 0; Bin.stage := 1;
       Bin.CRC := 0 |}.

(** A row of the metadata table. *)
Definition site (name : string) : SiteInfo := {|
  SiteName := name;
  ExDipole := PyFloat (Num.of_Z 50);
  ExAzimuth := PyFloat (Num.of_Z 0);
  EyDipole := PyFloat (Num.of_Z 50);
  EyAzimuth := PyFloat (Num.of_Z 90);
|}.

(** Sites S1 and S3 hold one good file each; there is no folder S2. *)
Definition two_of_three : filesystem := {|
  fs_dirs := {[ "base/S1" := ["1720000000.B423"; "notes.txt"];
                "base/S3" := ["1720000000.B423"] ]};
  fs_files := {[ "base/S1/1720000000.B423" := good_file;
                 "base/S3/1720000000.B423" := good_file ]};
|}.

(** Site S1 holds two good files, listed out of order. *)
Definition two_files : filesystem := {|
  fs_dirs := {[ "base/S1" := ["1720003600.B423"; "1720000000.B423"] ]};
  fs_files := {[ "base/S1/1720000000.B423" := good_file;
                 "base/S1/1720003600.B423" := later_file ]};
|}.

(** Site S1 holds a good file followed by an empty one. *)
Definition good_then_empty : filesystem := {|
  fs_dirs := {[ "base/S1" := ["1720003600.B423"; "1720000000.B423"] ]};
  fs_files := {[ "base/S1/1720000000.B423" := good_file;
                 "base/S1/1720003600.B423" := [] ]};
|}.

(** Site S1 holds a good file and one whose name starts with no integer. *)
Definition stray_name : filesystem := {|
  fs_dirs := {[ "base/S1" := ["notes.B423"; "1720000000.B423"] ]};
  fs_files := {[ "base/S1/1720000000.B423" := good_file;
                 "base/S1/notes.B423" := good_file ]};
|}.

(** Two sites whose one file holds the header and no record. *)
Definition empty_sites : filesystem := {|
  fs_dirs := {[ "base/S1" := ["1720000000.B423"];
                "base/S2" := ["1720000000.B423"] ]};
  fs_files := {[ "base/S1/1720000000.B423" := good_header;
                 "base/S2/1720000000.B423" := good_header ]};
|}.

End Sample.

(** ** More of the program, and more sample inputs *)




Module MoreSample.
Import Sample.

(** One good file, alone. *)
Definition one_file : filesystem :=
  {| fs_dirs := ∅; fs_files := {[ "f.B423" := good_file ]} |}.

(** The header of the good file, without any record. *)
Definition header_only : filesystem :=
  {| fs_dirs := ∅; fs_files := {[ "f.B423" := good_header ]} |}.

(** A file whose latitude field holds no number. *)
Definition no_latitude : filesystem :=
  {| fs_dirs := ∅;
     fs_files := {[ "f.B423" :=
       header_bytes (header_lines "north,N" "13836.0000,E") ]} |}.

(** Thirteen lines without a coefficient, then Kmx twice and a remark. *)
Definition kmx_twice : list string :=
  repeat "%" 13 ++ ["%Kmx = 1"] ++ "%Kmx = 2" :: ["%end"].

End MoreSample.

(** ** [load_metadata] *)

(** A table as [pd.read_csv] returns it: the column labels and, for each
    row, its index label and its cells, [None] for a missing value (NaN). *)
Record CsvTable := {
  csv_columns : list string;
  csv_rows : list (Z * list (option pyval));
}.

Definition required_columns : list string :=
  ["SiteName"; "ExDipole"; "ExAzimuth"; "EyDipole"; "EyAzimuth"].

(** [col in df.columns] *)
Definition has_column (df : CsvTable) (col : string) : bool :=
  existsb (String.eqb col) (csv_columns df).

(** The position of a label among the columns. *)
Fixpoint column_position (col : string) (columns : list string) : option nat :=
  match columns with
  | [] => None
  | c :: columns' =>
      if String.eqb col c then Some O
      else S <$> column_position col columns'
  end.

Fixpoint column_positions (cols columns : list string) : result (list nat) :=
  match cols with
  | [] => Ok []
  | col :: cols' =>
      p ← of_option (KeyError col) (column_position col columns);
      ps ← column_positions cols' columns;
      Ok (p :: ps)
  end.

(** The cells of a row at some positions. *)
Definition cells_at (positions : list nat) (row : Z * list (option pyval))
  : Z * list (option pyval) :=
  (fst row, map (fun p => default None (snd row !! p)) positions).

(** [df[cols]] for a list of labels. *)
Definition select_columns (cols : list string) (df : CsvTable) : result CsvTable :=
  positions ← column_positions cols (csv_columns df);
  Ok {| csv_columns := cols; csv_rows := map (cells_at positions) (csv_rows df) |}.

Definition present (cell : option pyval) : bool :=
  match cell with
  | Some _ => true
  | None => false
  end.

(** [df.dropna()]: the rows without a missing value, under their labels. *)
Definition dropna (df : CsvTable) : CsvTable :=
  {| csv_columns := csv_columns df;
     csv_rows := List.filter (fun row => forallb present (snd row)) (csv_rows df) |}.

Inductive load_message :=
| MsgLoaded (csv_file : string)
| MsgLoadError (e : exn).

(** [load_metadata(csv_file)]: the log lines written and the value
    returned; [read_csv] is [pd.read_csv]. *)
Definition load_metadata (read_csv : string → result CsvTable) (csv_file : string)
  : list (level * load_message) * option CsvTable :=
  match read_csv csv_file with
  | Raise e => ([(ERROR, MsgLoadError e)], None)
  | Ok df =>
      let missing_cols :=
        List.filter (fun col => negb (has_column df col)) required_columns in
      match missing_cols with
      | _ :: _ => ([(ERROR, MsgLoadError ValueError)], None)
      | [] =>
          match select_columns required_columns df with
          | Ok selected => ([(INFO, MsgLoaded csv_file)], Some (dropna selected))
          | Raise e =>
              ([(INFO, MsgLoaded csv_file); (ERROR, MsgLoadError e)], None)
          end
      end
  end.

Module MetadataSample.

(** Three sites: the first lacks a remark, the second its Ex dipole. *)
Definition three_sites : CsvTable :=
  {| csv_columns :=
       ["SiteName"; "Remark"; "ExDipole"; "ExAzimuth"; "EyDipole"; "EyAzimuth"];
     csv_rows :=
       [ (0, [Some (PyStr "S1"); None; Some (PyInt 50); Some (PyInt 0);
              Some (PyInt 50); Some (PyInt 90)]);
         (1, [Some (PyStr "S2"); Some (PyStr "wet"); None; Some (PyInt 0);
              Some (PyInt 50); Some (PyInt 90)]);
         (2, [Some (PyStr "S3"); Some (PyStr "dry"); Some (PyInt 48);
              Some (PyInt 5); Some (PyInt 52); Some (PyInt 95)]) ] |}.

(** A table without the Ey azimuth. *)
Definition no_azimuth : CsvTable :=
  {| csv_columns := ["SiteName"; "ExDipole"; "ExAzimuth"; "EyDipole"];
     csv_rows :=
       [ (0, [Some (PyStr "S1"); Some (PyInt 50); Some (PyInt 0);
              Some (PyInt 50)]) ] |}.

End MetadataSample.

(** * The vocabulary of the statements *)

(** The timestamp of a record, in nanoseconds since the epoch (UTC): its
    [time] in seconds plus its [tick] in milliseconds. *)
Definition stamp (r : Bin.RawRecord) : Z :=
  Bin.time r * 1000000000 + Bin.tick r * 1000000.

(** [raw * scale + offset] in binary64. *)
Definition physical (scale offset : float) (raw : Z) : float :=
  PrimFloat.add (PrimFloat.mul (Num.of_Z raw) scale) offset.

(** The ten coefficients the calibration reads. *)
Record Coefficients := {
  Kmx : float; Ax : float; Kmy : float; Ay : float; Kmz : float; Az : float;
  Ke1 : float; Ae1 : float; Ke2 : float; Ae2 : float;
}.

(** The ten lookups, in the order [_from_binary] makes them. *)
Definition lookup_coefficients (c : pyval) : result Coefficients :=
  kmx ← coeff_get c "Kmx"; ax ← coeff_get c "Ax";
  kmy ← coeff_get c "Kmy"; ay ← coeff_get c "Ay";
  kmz ← coeff_get c "Kmz"; az ← coeff_get c "Az";
  ke1 ← coeff_get c "Ke1"; ae1 ← coeff_get c "Ae1";
  ke2 ← coeff_get c "Ke2"; ae2 ← coeff_get c "Ae2";
  Ok {| Kmx := kmx; Ax := ax; Kmy := kmy; Ay := ay; Kmz := kmz; Az := az;
        Ke1 := ke1; Ae1 := ae1; Ke2 := ke2; Ae2 := ae2 |}.

(** The frame with every channel calibrated and the timestamps as index. *)
Definition calibrated_frame (rs : list Bin.RawRecord) (k : Coefficients)
  : DataFrame := {|
  df_index := DatetimeIndex (map stamp rs);
  df_cols :=
    <["tick" := IntCol (map Bin.tick rs)]>
    (<["Bx" := FloatCol (map (fun r => physical (Kmx k) (Ax k) (Bin.Bx r)) rs)]>
    (<["By" := FloatCol (map (fun r => physical (Kmy k) (Ay k) (Bin.By r)) rs)]>
    (<["Bz" := FloatCol (map (fun r => physical (Kmz k) (Az k) (Bin.Bz r)) rs)]>
    (<["Ex" := FloatCol (map (fun r => physical (Ke1 k) (Ae1 k) (Bin.Ex r)) rs)]>
    (<["Ey" := FloatCol (map (fun r => physical (Ke2 k) (Ae2 k) (Bin.Ey r)) rs)]>
    (<["sync" := IntCol (map Bin.sync rs)]>
    (<["stage" := IntCol (map Bin.stage rs)]>
    (<["CRC" := IntCol (map Bin.CRC rs)]> ∅))))))));
|}.

(** The keys of the dictionary literal of [read]. *)
Definition metadata_keys : gset string :=
  {[ "instrument_number"; "deployment_time"; "latitude"; "longitude";
     "elevation"; "geo_site"; "coefficients" ]}.

(** The last blank-separated word of line [i], split at its comma. *)
Definition coordinate_field (header : list string) (i : nat)
  : result (string * string) :=
  line ← getitem header i;
  tok ← getlast (Str.split line);
  Read_Lemi_Header.unpack2 (Str.split_on "," tok).

Section HeaderVocabulary.
Context `{PyRuntime}.

(** The outcome of the [try] block of [read]: a full dictionary when the
    four extractions succeed, an exception as soon as one fails. *)
Inductive read_outcome (header : list string) : Read_Lemi_Header.t * result dict → Prop :=
| read_full s' md :
    dom md = metadata_keys →
    (∀ s0, is_ok (snd (Read_Lemi_Header._extract_instrument_number header s0)) = true) →
    (∀ s0, is_ok (snd (Read_Lemi_Header._extract_deployment_time header s0)) = true) →
    (∀ s0, is_ok (snd (Read_Lemi_Header._extract_coefficients header s0)) = true) →
    (∀ s0, is_ok (snd (Read_Lemi_Header._extract_coordinates header s0)) = true) →
    read_outcome header (s', Ok md)
| read_failed s' e :
    (∀ s0, is_ok (snd (Read_Lemi_Header._extract_instrument_number header s0)) = false)
    ∨ (∀ s0, is_ok (snd (Read_Lemi_Header._extract_deployment_time header s0)) = false)
    ∨ (∀ s0, is_ok (snd (Read_Lemi_Header._extract_coefficients header s0)) = false)
    ∨ (∀ s0, is_ok (snd (Read_Lemi_Header._extract_coordinates header s0)) = false) →
    read_outcome header (s', Raise e).

End HeaderVocabulary.

(** The frame a file adds to [all_data]. *)
Definition trimmed (site_id : Z) (d : DataFrame) : DataFrame :=
  Pd.set_scalar
    (Pd.drop_columns d ["time"; "Bz"; "tick"; "sync"; "stage"; "CRC"])
    "site_id" site_id.

(** The files named in the "processing file" lines of a log, in order. *)
Definition processed (lg : logbook) : list string :=
  omap (fun entry : level * message =>
          match snd entry with
          | MsgProcessingFile f => Some f
          | _ => None
          end) lg.

(** The dictionary of [site_metadata] as a function of the local
    variables. *)
Definition summary_of (site_info : SiteInfo) (site_id : Z) (vars : Locals)
  : result dict :=
  snd (site_metadata site_info site_id vars).

Section SiteVocabulary.
Context `{PyRuntime}.
Variable fs : filesystem.

(** What [header_reader.read()] returns for a file. *)
Definition header_of (binary_file : string) : dict :=
  snd (Read_Lemi_Header.read fs (Read_Lemi_Header.init binary_file)).

(** The frame a file contributes in the loop of [process_site], or the
    exception that makes the loop skip it. *)
Definition file_frame (binary_file : string) : result DataFrame :=
  coeffs ← dict_get (header_of binary_file) "coefficients";
  frame (snd (Read_Lemi_Data._from_binary fs
                (Read_Lemi_Data.init binary_file coeffs))).

(** The local variables after a turn that did not raise. *)
Definition after_file (site_id : Z) (binary_file : string) (d : DataFrame)
    (vars : Locals) : Locals := {|
  all_data :=
    all_data vars ++ [trimmed site_id d];
  start_time :=
    if truthy (start_time vars) then start_time vars else Pd.index_min d;
  finish_time := Pd.index_max d;
  sample_rate :=
    if is_none (sample_rate vars) then PyInt (first_second_count d)
    else sample_rate vars;
  header_info := Some (header_of binary_file);
  log := log vars;
|}.

End SiteVocabulary.

(** The order of the decorated list: by key. *)
Definition fst_le {A} (a b : Z * A) : Prop := fst a <= fst b.

(** [a] comes no later than [b]: both have a key, and they are in order. *)
Definition key_le {A} (key : A → result Z) (a b : A) : Prop :=
  ∃ ka kb, key a = Ok ka ∧ key b = Ok kb ∧ ka <= kb.

(** The earliest of a list of timestamps. *)
Definition earliest (stamps : list Z) : option Z :=
  match stamps with
  | [] => None
  | t :: ts => Some (fold_right Z.min t ts)
  end.

(** How many timestamps lie less than one second after the earliest. *)
Definition count_first_second (stamps : list Z) : Z :=
  match earliest stamps with
  | Some t0 =>
      Z.of_nat (length (List.filter (fun t => t <? t0 + 1000000000) stamps))
  | None => 0
  end.

(** Whether a job handed back a table. *)
Definition yields_table (r : result (option DataFrame * option dict)) : bool :=
  match r with
  | Ok (Some _, _) => true
  | _ => false
  end.

(** ** The vocabulary of the further properties *)

(** The files named in the "error processing" lines of a log, in order. *)
Definition failed (lg : logbook) : list string :=
  omap (fun entry : level * message =>
          match snd entry with
          | MsgFileError f _ => Some f
          | _ => None
          end) lg.

(** The latest of a list of timestamps. *)
Definition latest (stamps : list Z) : option Z :=
  match stamps with
  | [] => None
  | t :: ts => Some (fold_right Z.max t ts)
  end.

(** What one job of the pool contributes to the batch: its table, its
    summary, its log line. *)
Definition job_table (r : result (option DataFrame * option dict))
  : option DataFrame :=
  match r with
  | Ok (Some df, _) => Some df
  | _ => None
  end.

Definition job_summary (r : result (option DataFrame * option dict))
  : option (option dict) :=
  match r with
  | Ok (Some _, md) => Some md
  | _ => None
  end.

Definition job_error (r : result (option DataFrame * option dict))
  : option (level * message) :=
  match r with
  | Raise e => Some (ERROR, MsgPoolError e)
  | Ok _ => None
  end.

(** The key a header line gives its coefficient. *)
Definition coefficient_key (line : string) : result string :=
  name ← getitem (Str.split_on "=" line) 0;
  Ok (Str.lstrip_char "%" (Str.strip name)).

(** The value a header line gives its coefficient. *)
Definition coefficient_value (line : string) : result float :=
  text ← getitem (Str.split_on "=" line) 1;
  Num.py_float text.

(** The ranges of the ten fields of [binary_format]. *)
Definition in_range (r : Bin.RawRecord) : Prop :=
  0 <= Bin.time r < 2 ^ 32
  ∧ 0 <= Bin.tick r < 2 ^ 16
  ∧ - 2 ^ 31 <= Bin.Bx r < 2 ^ 31
  ∧ - 2 ^ 31 <= Bin.By r < 2 ^ 31
  ∧ - 2 ^ 31 <= Bin.Bz r < 2 ^ 31
  ∧ - 2 ^ 31 <= Bin.Ex r < 2 ^ 31
  ∧ - 2 ^ 31 <= Bin.Ey r < 2 ^ 31
  ∧ - 2 ^ 7 <= Bin.sync r < 2 ^ 7
  ∧ 0 <= Bin.stage r < 2 ^ 8
  ∧ - 2 ^ 15 <= Bin.CRC r < 2 ^ 15.

(** The columns of the table a site job returns. *)
Definition site_columns : gset string :=
  {[ "Bx"; "By"; "Ex"; "Ey"; "site_id" ]}.

(** A table of a site: indexed by time, with the four channels kept and
    the site's id in every row. *)
Definition site_frame (site_id : Z) (d : DataFrame) : Prop :=
  (∃ stamps, df_index d = DatetimeIndex stamps)
  ∧ dom (df_cols d) = site_columns
  ∧ df_cols d !! "site_id" = Some (IntCol (repeat site_id (Pd.len d))).

(** The parts of what a job returned, with defaults for the other cases. *)
Definition job_data (r : result (option DataFrame * option dict))
  : option DataFrame :=
  match r with
  | Ok (data, _) => data
  | Raise _ => None
  end.

Definition job_dict (r : result (option DataFrame * option dict)) : dict :=
  match r with
  | Ok (_, Some md) => md
  | _ => ∅
  end.

Definition has_summary (r : result (option DataFrame * option dict)) : bool :=
  match r with
  | Ok (_, Some _) => true
  | _ => false
  end.

Definition value_or {A} (a0 : A) (r : result A) : A :=
  match r with
  | Ok a => a
  | Raise _ => a0
  end.

(** The vocabulary of the rounding argument: binary64 numbers as a mantissa and
    an exponent, their values, and what a right shift does. *)
Module Rounding.
Import SpecFloat.

Definition prec : Z := FloatOps.prec.
Definition emax : Z := FloatOps.emax.

(** The value [m * 2^e] of a mantissa and an exponent, as an integer
    multiple of [2^-3000]. *)
Definition val (m e : Z) : Z := m * 2 ^ (e + 3000).

Definition exact (mrs : shr_record) : Prop := shr_r mrs = false ∧ shr_s mrs = false.

(** [mrs'] is [mrs] shifted right by [k] bits: the mantissa is divided and
    the result is exact just when nothing but zeros was shifted out. *)
Definition shifted (k : Z) (mrs mrs' : shr_record) : Prop :=
  0 <= shr_m mrs →
  shr_m mrs' = shr_m mrs / 2 ^ k
  ∧ (exact mrs' ↔ exact mrs ∧ shr_m mrs = shr_m mrs' * 2 ^ k).

Definition fexp (e : Z) : Z := SpecFloat.fexp prec emax e.

Definition below (s : bool) (K : positive) (eK : Z) (x : spec_float) : Prop :=
  match x with
  | S754_zero s' => s' = s
  | S754_finite s' m e => s' = s ∧ -3000 <= e ∧ val (Zpos m) e <= val (Zpos K) eK
  | _ => False
  end.

Definition nonneg (x : spec_float) : Prop :=
  match x with
  | S754_zero _ => True
  | S754_finite s _ _ => s = false
  | _ => False
  end.

Definition value (x : spec_float) : Z :=
  match x with
  | S754_finite _ m e => val (Zpos m) e
  | _ => 0
  end.

(** What [Num.of_Z d] must be for a small [d]: zero, or a positive
    number of value [d]. *)
Definition small_ok (d : Z) : bool :=
  match FloatOps.Prim2SF (Num.of_Z d) with
  | S754_zero _ => d =? 0
  | S754_finite false m e => (-60 <=? e) && (Zpos m * 2 ^ (e + 60) =? d * 2 ^ 60)
  | _ => false
  end.

(** The largest mantissa-exponent pair used as a bound: [90 * 2^k]. *)
Definition K90 : positive := 6333186975989760.

End Rounding.

(** Minutes of arc: a binary64 number from 0 up to, not including, 60. *)
Definition is_minutes (m : float) : Prop :=
  PrimFloat.leb (Num.of_Z 0) m = true ∧ PrimFloat.ltb m (Num.of_Z 60) = true.

(** The degrees and minutes of a coordinate of at most [max] degrees: whole
    degrees below [max] with minutes of arc, or [max] degrees and no
    minute. *)
Definition is_coordinate (max d : Z) (m : float) : Prop :=
  (0 <= d < max ∧ is_minutes m) ∨ (d = max ∧ m = PrimFloat.zero).

(** The cell of a row under a label, missing when the label is. *)
Definition cell_of (df : CsvTable) (row : Z * list (option pyval)) (col : string)
  : option pyval :=
  p ← column_position col (csv_columns df);
  default None (snd row !! p).

(** The five required cells of a row. *)
Definition required_cells (df : CsvTable) (row : Z * list (option pyval))
  : list (option pyval) :=
  map (cell_of df row) required_columns.

(** * Properties *)

(** ** The string and number primitives on examples *)

Example splitlines_ex :
  Str.splitlines ("a" +:+ String (ascii_of_N 13) (String (ascii_of_N 10) "b")
                  +:+ String (ascii_of_N 10) "") = ["a"; "b"].
Proof. reflexivity. Qed.

Example split_ex : Str.split "  Lat   3455.1234,S " = ["Lat"; "3455.1234,S"].
Proof. reflexivity. Qed.

Example py_int_ex : Num.py_int " -1_0 " = Ok (-10) /\ Num.py_int "1__0" = Raise ValueError.
Proof. split; reflexivity. Qed.

(** A unit separator after the digit is no blank for [int] and [float],
    though [str.strip] removes it. *)
Example py_int_separator_ex :
  Num.py_int (String "5" (String (ascii_of_N 31) "")) = Raise ValueError
  /\ is_ok (Num.py_float (String "5" (String (ascii_of_N 31) ""))) = false
  /\ Str.strip (String "5" (String (ascii_of_N 31) "")) = "5"
  /\ Num.py_int (String (ascii_of_N 160) "5 ") = Ok 5.
Proof. repeat split; vm_compute; reflexivity. Qed.


(** ** Records: lossless decoding and the record count *)

Section Records.
Import Bin.

Lemma byte_val_range (b : Byte.byte) : 0 <= byte_val b < 256.
Proof.
  unfold byte_val. pose proof (Byte.to_N_bounded b) as Hb. lia.
Qed.

Lemma byte_of_val (b : Byte.byte) (k : Z) : byte_of (byte_val b + 256 * k) = b.
Proof.
  unfold byte_of.
  replace ((byte_val b + 256 * k) mod 256) with (byte_val b).
  - unfold byte_val. rewrite N2Z.id, Byte.of_to_N. reflexivity.
  - pose proof (byte_val_range b). symmetry.
    replace (byte_val b + 256 * k) with (byte_val b + k * 256) by ring.
    rewrite Z_mod_plus_full. apply Z.mod_small. lia.
Qed.

Lemma le_uint_range (bs : list Byte.byte) :
  0 <= le_uint bs < 256 ^ Z.of_nat (length bs).
Proof.
  induction bs as [|b bs IH]; [simpl; lia|].
  cbn [le_uint length]. rewrite Nat2Z.inj_succ, Z.pow_succ_r by lia.
  pose proof (byte_val_range b). lia.
Qed.

(** Writing back the low bytes undoes the reading, whatever multiple of
    [256 ^ length] was added in between (the sign wrap). *)
Lemma le_bytes_le_uint (bs : list Byte.byte) (k : Z) :
  le_bytes (length bs) (le_uint bs + k * 256 ^ Z.of_nat (length bs)) = bs.
Proof.
  revert k. induction bs as [|b bs IH]; intros k; [reflexivity|].
  cbn [le_uint length le_bytes].
  rewrite Nat2Z.inj_succ, Z.pow_succ_r by lia.
  replace (byte_val b + 256 * le_uint bs + k * (256 * 256 ^ Z.of_nat (length bs)))
    with (byte_val b + 256 * (le_uint bs + k * 256 ^ Z.of_nat (length bs))) by ring.
  rewrite byte_of_val. f_equal.
  pose proof (byte_val_range b).
  replace ((byte_val b + 256 * (le_uint bs + k * 256 ^ Z.of_nat (length bs))) / 256)
    with (le_uint bs + k * 256 ^ Z.of_nat (length bs)).
  - apply IH.
  - symmetry.
    replace (byte_val b + 256 * (le_uint bs + k * 256 ^ Z.of_nat (length bs)))
      with (byte_val b + (le_uint bs + k * 256 ^ Z.of_nat (length bs)) * 256) by ring.
    rewrite Z.div_add, Z.div_small by lia. lia.
Qed.

Lemma le_bytes_uint (n : nat) (bs : list Byte.byte) :
  length bs = n → le_bytes n (le_uint bs) = bs.
Proof.
  intros <-. pose proof (le_bytes_le_uint bs 0) as E.
  rewrite Z.mul_0_l, Z.add_0_r in E. exact E.
Qed.

Lemma le_bytes_sint (n : nat) (bs : list Byte.byte) :
  length bs = n → le_bytes n (le_sint bs) = bs.
Proof.
  intros <-. unfold le_sint.
  replace (2 ^ (8 * Z.of_nat (length bs))) with (256 ^ Z.of_nat (length bs)).
  2:{ change 256 with (2 ^ 8). rewrite <- Z.pow_mul_r by lia. reflexivity. }
  destruct (_ <? _).
  - apply le_bytes_uint. reflexivity.
  - pose proof (le_bytes_le_uint bs (-1)) as E.
    replace (le_uint bs - 256 ^ Z.of_nat (length bs))
      with (le_uint bs + -1 * 256 ^ Z.of_nat (length bs)) by ring.
    exact E.
Qed.

Lemma decode_encode (bs : list Byte.byte) :
  length bs = itemsize → encode_record (decode_record bs) = bs.
Proof.
  intros Hlen.
  do 30 (destruct bs as [|? bs]; [discriminate Hlen|]).
  destruct bs; [|discriminate Hlen].
  unfold encode_record, decode_record, slice.
  cbn [time tick Bx By Bz Ex Ey sync stage CRC firstn skipn].
  rewrite !le_bytes_uint, !le_bytes_sint by reflexivity.
  reflexivity.
Qed.

Lemma read_records_length (content : list Byte.byte) :
  length (read_records content) = ((length content - header_size) / itemsize)%nat.
Proof.
  unfold read_records, fromfile.
  rewrite length_map, length_seq, length_skipn. reflexivity.
Qed.

Lemma slice_app_l (off len : nat) (l1 l2 : list Byte.byte) :
  (off + len <= length l1)%nat → slice off len (l1 ++ l2) = slice off len l1.
Proof.
  intros Hle. unfold slice.
  rewrite skipn_app, firstn_app, length_skipn.
  replace (len - (length l1 - off))%nat with 0%nat by lia.
  rewrite firstn_O, app_nil_r. reflexivity.
Qed.

(** Bytes after the last whole record are ignored. *)
Lemma fromfile_trailing (rest extra : list Byte.byte) :
  (length rest mod itemsize = 0)%nat → (length extra < itemsize)%nat →
  fromfile (rest ++ extra) = fromfile rest.
Proof.
  intros Hmod Hlt. unfold fromfile.
  assert (Hn : ((length (rest ++ extra)) / itemsize = length rest / itemsize)%nat).
  { rewrite length_app. unfold itemsize in *.
    pose proof (Nat.div_mod_eq (length rest) 30) as E1.
    pose proof (Nat.div_mod_eq (length rest + length extra) 30) as E2.
    pose proof (Nat.mod_upper_bound (length rest + length extra) 30 ltac:(lia)).
    lia. }
  rewrite Hn. apply map_ext_in. intros i Hi. apply in_seq in Hi.
  f_equal. apply slice_app_l.
  unfold itemsize in *.
  pose proof (Nat.div_mod_eq (length rest) 30). nia.
Qed.

End Records.

(** C2 (amended).  Decoding a 30-byte record into the ten fields and
    writing them back gives the same 30 bytes.  The number of records
    decoded from a file is [(size - 1024) / 30] rounded down when the file
    holds at least the 1024 header bytes and 0 when it is shorter, and
    bytes after the last whole record are dropped. *)
Theorem record_roundtrip_and_count :
  (∀ bs : list Byte.byte,
     length bs = 30%nat → Bin.encode_record (Bin.decode_record bs) = bs)
  ∧ (∀ content : list Byte.byte,
       Z.of_nat (length (Bin.read_records content))
       = Z.max 0 (Z.of_nat (length content) - 1024) / 30)
  ∧ (∀ header rest extra : list Byte.byte,
       length header = 1024%nat → (length rest mod 30 = 0)%nat →
       (length extra < 30)%nat →
       Bin.read_records (header ++ rest ++ extra) = Bin.read_records (header ++ rest)).
Proof.
  split; [|split].
  - intros bs Hlen. apply decode_encode. exact Hlen.
  - intros content. rewrite read_records_length.
    unfold Bin.header_size, Bin.itemsize.
    destruct (Nat.le_gt_cases 1024 (length content)) as [Hge|Hlt].
    + rewrite Z.max_r by lia. rewrite Nat2Z.inj_div, Nat2Z.inj_sub by lia.
      reflexivity.
    + replace (length content - 1024)%nat with 0%nat by lia.
      rewrite Z.max_l by lia. reflexivity.
  - intros header rest extra Hh Hmod Hlt. unfold Bin.read_records, Bin.header_size.
    rewrite !skipn_app, Hh, Nat.sub_diag. cbn [skipn].
    rewrite (skipn_all2 header) by lia. cbn [app].
    apply fromfile_trailing; assumption.
Qed.

(** The records of the sample file survive the round trip, and its seven
    stray bytes are dropped. *)
Lemma record_roundtrip_and_count_witness :
  Bin.encode_record (Bin.decode_record (Bin.encode_record Sample.record1))
  = Bin.encode_record Sample.record1
  ∧ Z.of_nat (length (Bin.read_records Sample.good_file)) = 3.
Proof.
  split.
  - apply (proj1 record_roundtrip_and_count). reflexivity.
  - rewrite (proj1 (proj2 record_roundtrip_and_count)). reflexivity.
Defined.

(** C2 as stated fails on a file shorter than its header: an empty file
    decodes to no record, while [(0 - 1024) / 30] rounded down is -35. *)
Lemma record_count_short_file :
  Z.of_nat (length (Bin.read_records [])) = 0
  ∧ Z.of_nat (length (Bin.read_records []))
    ≠ (Z.of_nat (length (@nil Byte.byte)) - 1024) / 30.
Proof. split; [reflexivity | discriminate]. Qed.

(** ** The data reader: calibration and atomicity *)

Section Calibration.
Import Read_Lemi_Data.

Lemma zip_with_stamp (rs : list Bin.RawRecord) :
  zip_with Z.add (map (fun t => t * 1000000000) (map Bin.time rs))
                 (map (fun t => t * 1000000) (map Bin.tick rs))
  = map stamp rs.
Proof. induction rs as [|r rs IH]; [reflexivity|]. cbn. rewrite IH. reflexivity. Qed.

Lemma calibrate_int (self : t) (df : DataFrame) (ch k a : string)
    (l : list Z) (kv av : float) :
  df_cols df !! ch = Some (IntCol l) →
  coeff_get (coefficients self) k = Ok kv →
  coeff_get (coefficients self) a = Ok av →
  calibrate self df ch k a
  = Ok (Pd.setcol df ch (FloatCol (map (physical kv av) l))).
Proof.
  intros Hch Hk Ha. unfold calibrate, Pd.getcol.
  rewrite Hch. cbn. rewrite Hk. cbn. rewrite Ha. cbn.
  rewrite map_map. reflexivity.
Qed.

Lemma calibrate_raise (self : t) (df : DataFrame) (ch k a : string)
    (l : list Z) :
  df_cols df !! ch = Some (IntCol l) →
  is_ok (coeff_get (coefficients self) k ≫= fun _ => coeff_get (coefficients self) a) = false →
  is_ok (calibrate self df ch k a) = false.
Proof.
  intros Hch Hk. unfold calibrate, Pd.getcol. rewrite Hch. cbn.
  destruct (coeff_get (coefficients self) k); cbn in *; [|reflexivity].
  destruct (coeff_get (coefficients self) a); cbn in *; [discriminate|reflexivity].
Qed.

End Calibration.

Section FromBinary.
Import Read_Lemi_Data.

Lemma calibrate_spec (self : t) (df : DataFrame) (ch k a : string) (l : list Z) :
  df_cols df !! ch = Some (IntCol l) →
  calibrate self df ch k a
  = (kv ← coeff_get (coefficients self) k;
     av ← coeff_get (coefficients self) a;
     Ok (Pd.setcol df ch (FloatCol (map (physical kv av) l)))).
Proof.
  intros Hch. unfold calibrate, Pd.getcol. rewrite Hch. cbn.
  destruct (coeff_get (coefficients self) k); [|reflexivity]. cbn.
  destruct (coeff_get (coefficients self) a); [|reflexivity]. cbn.
  rewrite map_map. reflexivity.
Qed.

(** One [df[ch] = ...] statement: rewrite it, then split on its two
    coefficient lookups; a failed lookup ends both sides. *)
Ltac calibrate_step l :=
  rewrite (calibrate_spec _ _ _ _ _ l) by reflexivity;
  match goal with
  | |- context [coeff_get ?c ?k ≫= _] =>
      destruct (coeff_get c k); [|reflexivity]
  end;
  cbn [mbind result_bind];
  match goal with
  | |- context [coeff_get ?c ?k ≫= _] =>
      destruct (coeff_get c k); [|reflexivity]
  end;
  cbn [mbind result_bind].

(** The [try] block of [_from_binary] opens the file, makes the ten
    coefficient lookups, and, when all succeed, yields the calibrated
    frame. *)
Lemma from_binary_body_spec (fs : filesystem) (self : t) :
  from_binary_body fs self
  = (content ← open_rb fs (binary_file self);
     k ← lookup_coefficients (coefficients self);
     Ok (calibrated_frame (Bin.read_records content) k)).
Proof.
  unfold from_binary_body, lookup_coefficients.
  destruct (open_rb fs (binary_file self)) as [content|e]; [|reflexivity].
  cbn [mbind result_bind].
  set (rs := Bin.read_records content).
  change (Pd.getcol (Pd.of_records rs) "time") with (Ok (IntCol (map Bin.time rs))).
  change (Pd.getcol (Pd.of_records rs) "tick") with (Ok (IntCol (map Bin.tick rs))).
  cbn [mbind result_bind Pd.to_datetime_s Pd.to_timedelta_ms Pd.add_delta].
  rewrite zip_with_stamp.
  calibrate_step (map Bin.Bx rs).
  calibrate_step (map Bin.By rs).
  calibrate_step (map Bin.Bz rs).
  calibrate_step (map Bin.Ex rs).
  calibrate_step (map Bin.Ey rs).
  rewrite !map_map. reflexivity.
Qed.

Lemma lookup_coefficients_dict (c : gmap string float) (k : Coefficients) :
  c !! "Kmx" = Some (Kmx k) → c !! "Ax" = Some (Ax k) →
  c !! "Kmy" = Some (Kmy k) → c !! "Ay" = Some (Ay k) →
  c !! "Kmz" = Some (Kmz k) → c !! "Az" = Some (Az k) →
  c !! "Ke1" = Some (Ke1 k) → c !! "Ae1" = Some (Ae1 k) →
  c !! "Ke2" = Some (Ke2 k) → c !! "Ae2" = Some (Ae2 k) →
  lookup_coefficients (PyDict c) = Ok k.
Proof.
  intros H1 H2 H3 H4 H5 H6 H7 H8 H9 H10. unfold lookup_coefficients, coeff_get.
  rewrite H1, H2, H3, H4, H5, H6, H7, H8, H9, H10. destruct k. reflexivity.
Qed.

Lemma lookup_coefficients_inv (c : pyval) (k : Coefficients) :
  lookup_coefficients c = Ok k →
  ∃ d : gmap string float, c = PyDict d
    ∧ d !! "Kmx" = Some (Kmx k) ∧ d !! "Ax" = Some (Ax k)
    ∧ d !! "Kmy" = Some (Kmy k) ∧ d !! "Ay" = Some (Ay k)
    ∧ d !! "Kmz" = Some (Kmz k) ∧ d !! "Az" = Some (Az k)
    ∧ d !! "Ke1" = Some (Ke1 k) ∧ d !! "Ae1" = Some (Ae1 k)
    ∧ d !! "Ke2" = Some (Ke2 k) ∧ d !! "Ae2" = Some (Ae2 k).
Proof.
  unfold lookup_coefficients. destruct c; try discriminate. unfold coeff_get.
  destruct (d !! "Kmx") eqn:E1; [|discriminate].
  destruct (d !! "Ax") eqn:E2; [|discriminate].
  destruct (d !! "Kmy") eqn:E3; [|discriminate].
  destruct (d !! "Ay") eqn:E4; [|discriminate].
  destruct (d !! "Kmz") eqn:E5; [|discriminate].
  destruct (d !! "Az") eqn:E6; [|discriminate].
  destruct (d !! "Ke1") eqn:E7; [|discriminate].
  destruct (d !! "Ae1") eqn:E8; [|discriminate].
  destruct (d !! "Ke2") eqn:E9; [|discriminate].
  destruct (d !! "Ae2") eqn:E10; [|discriminate].
  cbn. intros [= <-]. exists d. cbn. repeat split; assumption || reflexivity.
Qed.

End FromBinary.

(** C1.  For a readable file and a coefficient dictionary holding the ten
    keys, [_from_binary] returns a frame whose Bx, By, Bz, Ex and Ey columns
    are [raw * scale + offset] (in binary64, the raw count converted
    exactly) with the pairs (Kmx, Ax), (Kmy, Ay), (Kmz, Az), (Ke1, Ae1),
    (Ke2, Ae2), and whose index is, for each record, its [time] in seconds
    plus its [tick] in milliseconds, counted in nanoseconds since the UTC
    epoch. *)
Theorem calibration_formula (fs : filesystem) (path : string)
    (content : list Byte.byte) (c : gmap string float)
    (kmx ax kmy ay kmz az ke1 ae1 ke2 ae2 : float) :
  fs_files fs !! path = Some content →
  c !! "Kmx" = Some kmx → c !! "Ax" = Some ax →
  c !! "Kmy" = Some kmy → c !! "Ay" = Some ay →
  c !! "Kmz" = Some kmz → c !! "Az" = Some az →
  c !! "Ke1" = Some ke1 → c !! "Ae1" = Some ae1 →
  c !! "Ke2" = Some ke2 → c !! "Ae2" = Some ae2 →
  let rs := Bin.read_records content in
  let channel (raw : Bin.RawRecord → Z) (scale offset : float) :=
    Some (FloatCol (map (fun r =>
            PrimFloat.add (PrimFloat.mul (Num.of_Z (raw r)) scale) offset) rs)) in
  ∃ df : DataFrame,
    snd (Read_Lemi_Data._from_binary fs (Read_Lemi_Data.init path (PyDict c)))
    = Some df
    ∧ df_index df
      = DatetimeIndex
          (map (fun r => Bin.time r * 1000000000 + Bin.tick r * 1000000) rs)
    ∧ df_cols df !! "Bx" = channel Bin.Bx kmx ax
    ∧ df_cols df !! "By" = channel Bin.By kmy ay
    ∧ df_cols df !! "Bz" = channel Bin.Bz kmz az
    ∧ df_cols df !! "Ex" = channel Bin.Ex ke1 ae1
    ∧ df_cols df !! "Ey" = channel Bin.Ey ke2 ae2.
Proof.
  intros Hf H1 H2 H3 H4 H5 H6 H7 H8 H9 H10 rs channel.
  pose (k := {| Kmx := kmx; Ax := ax; Kmy := kmy; Ay := ay; Kmz := kmz;
                Az := az; Ke1 := ke1; Ae1 := ae1; Ke2 := ke2; Ae2 := ae2 |}).
  exists (calibrated_frame rs k).
  split; [|repeat split].
  unfold Read_Lemi_Data._from_binary. rewrite from_binary_body_spec.
  unfold open_rb. cbn [Read_Lemi_Data.binary_file Read_Lemi_Data.init
                       Read_Lemi_Data.coefficients].
  rewrite Hf. cbn [of_option mbind result_bind].
  rewrite (lookup_coefficients_dict c k) by assumption.
  reflexivity.
Qed.

(** The sample file with the sample coefficients: three calibrated rows. *)
Lemma calibration_formula_witness :
  ∃ df : DataFrame,
    snd (Read_Lemi_Data._from_binary
           {| fs_dirs := ∅; fs_files := {[ "f.B423" := Sample.good_file ]} |}
           (Read_Lemi_Data.init "f.B423" (PyDict Sample.coeffs)))
    = Some df
    ∧ df_index df
      = DatetimeIndex
          [1720000000000000000; 1720000000500000000; 1720000001000000000].
Proof.
  destruct (calibration_formula
              {| fs_dirs := ∅; fs_files := {[ "f.B423" := Sample.good_file ]} |}
              "f.B423" Sample.good_file Sample.coeffs
              (Num.of_decimal false 5 (-1)) (Num.of_Z 1)
              (Num.of_decimal false 25 (-2)) (Num.of_Z (-2))
              (Num.of_Z 2) (Num.of_Z 0)
              (Num.of_decimal false 125 (-3)) (Num.of_Z 3)
              (Num.of_Z 4) (Num.of_decimal true 15 (-1)))
    as (df & Hret & Hidx & _); try (vm_compute; reflexivity).
  exists df. split; [exact Hret|]. rewrite Hidx. vm_compute. reflexivity.
Defined.

(** C10.  [_from_binary] never raises: it returns [None] and leaves the
    object as it was (an unreadable file, a missing coefficient), or it
    returns the frame with all five channels calibrated and the time index
    set, and stores that same frame in [self.data].  No other frame is ever
    returned or stored: on an object whose [data] was [None], [data] is
    afterwards [None] or a fully calibrated frame. *)
Theorem from_binary_atomic (fs : filesystem) (self : Read_Lemi_Data.t) :
  let out := Read_Lemi_Data._from_binary fs self in
  ((snd out = None ∧ fst out = self)
   ∨ (∃ (content : list Byte.byte) (k : Coefficients),
        open_rb fs (Read_Lemi_Data.binary_file self) = Ok content
        ∧ lookup_coefficients (Read_Lemi_Data.coefficients self) = Ok k
        ∧ snd out = Some (calibrated_frame (Bin.read_records content) k)
        ∧ Read_Lemi_Data.get_data (fst out) = snd out
        ∧ Read_Lemi_Data.binary_file (fst out) = Read_Lemi_Data.binary_file self
        ∧ Read_Lemi_Data.coefficients (fst out) = Read_Lemi_Data.coefficients self))
  ∧ (is_ok (open_rb fs (Read_Lemi_Data.binary_file self)) = false → snd out = None)
  ∧ (is_ok (lookup_coefficients (Read_Lemi_Data.coefficients self)) = false →
     snd out = None)
  ∧ (Read_Lemi_Data.get_data self = None →
     Read_Lemi_Data.get_data (fst out) = None
     ∨ ∃ (content : list Byte.byte) (k : Coefficients),
         Read_Lemi_Data.get_data (fst out)
         = Some (calibrated_frame (Bin.read_records content) k)).
Proof.
  cbn zeta. unfold Read_Lemi_Data._from_binary. rewrite from_binary_body_spec.
  destruct (open_rb fs (Read_Lemi_Data.binary_file self)) as [content|e];
    cbn [mbind result_bind is_ok].
  - destruct (lookup_coefficients (Read_Lemi_Data.coefficients self)) as [k|e];
      cbn [mbind result_bind is_ok snd fst].
    + split; [|split; [discriminate|split; [discriminate|]]].
      * right. exists content, k. repeat split; reflexivity.
      * intros _. right. exists content, k. reflexivity.
    + split; [|split; [reflexivity|split; [reflexivity|]]].
      * left. split; reflexivity.
      * intros Hnone. left. exact Hnone.
  - split; [|split; [reflexivity|split; [reflexivity|]]].
    + left. split; reflexivity.
    + intros Hnone. left. exact Hnone.
Qed.

(** ** The header reader *)

(** Run a method body: unfold the binds and split on every intermediate
    result. *)
Ltac run_M :=
  unfold mbind, M_bind, lift, modify, get, mret, M_ret;
  repeat match goal with
         | |- context [match ?r with Ok _ => _ | Raise _ => _ end] =>
             destruct r eqn:?
         | |- context [let '(_, _) := ?p in _] => destruct p eqn:?
         | |- context [if ?b then _ else _] => destruct b eqn:?
         end.

Section Header.
Import Read_Lemi_Header.
Context `{PyRuntime}.
Variable fs : filesystem.

(** Whether an extraction raises depends on the header alone, not on the
    attributes already set. *)
Lemma instrument_indep header s s' :
  snd (_extract_instrument_number header s)
  = snd (_extract_instrument_number header s').
Proof. unfold _extract_instrument_number. run_M; reflexivity. Qed.

Lemma deployment_indep header s s' :
  snd (_extract_deployment_time header s)
  = snd (_extract_deployment_time header s').
Proof. unfold _extract_deployment_time. run_M; reflexivity. Qed.

Lemma coefficients_indep header s s' :
  snd (_extract_coefficients header s) = snd (_extract_coefficients header s').
Proof. unfold _extract_coefficients. run_M; reflexivity. Qed.

Lemma coordinates_indep header s s' :
  snd (_extract_coordinates header s) = snd (_extract_coordinates header s').
Proof. unfold _extract_coordinates. run_M; reflexivity. Qed.

Lemma coordinates_float header s s' :
  _extract_coordinates header s = (s', Ok tt) →
  ∃ la lo, latitude s' = PyFloat la ∧ longitude s' = PyFloat lo.
Proof. unfold _extract_coordinates. run_M; intros [= <-]; eauto. Qed.

Lemma metadata_dom s la lo :
  latitude s = PyFloat la → longitude s = PyFloat lo →
  ∃ md, metadata s = (s, Ok md) ∧ dom md = metadata_keys.
Proof.
  intros Hla Hlo. unfold metadata. unfold mbind, M_bind, get, lift, mret, M_ret.
  rewrite Hla, Hlo. cbn [format_6f]. eexists. split; reflexivity.
Qed.

Lemma read_body_outcome header s : read_outcome header (read_body header s).
Proof.
  unfold read_body. unfold mbind at 1, M_bind at 1.
  destruct (_extract_instrument_number header s) as [s1 [[]|e1]] eqn:E1.
  2:{ apply read_failed. left. intros s0.
      rewrite (instrument_indep header s0 s), E1. reflexivity. }
  unfold mbind at 1, M_bind at 1.
  destruct (_extract_deployment_time header s1) as [s2 [[]|e2]] eqn:E2.
  2:{ apply read_failed. right; left. intros s0.
      rewrite (deployment_indep header s0 s1), E2. reflexivity. }
  unfold mbind at 1, M_bind at 1.
  destruct (_extract_coefficients header s2) as [s3 [[]|e3]] eqn:E3.
  2:{ apply read_failed. right; right; left. intros s0.
      rewrite (coefficients_indep header s0 s2), E3. reflexivity. }
  unfold mbind at 1, M_bind at 1.
  destruct (_extract_coordinates header s3) as [s4 [[]|e4]] eqn:E4.
  2:{ apply read_failed. right; right; right. intros s0.
      rewrite (coordinates_indep header s0 s3), E4. reflexivity. }
  destruct (coordinates_float _ _ _ E4) as (la & lo & Hla & Hlo).
  destruct (metadata_dom s4 la lo Hla Hlo) as (md & Hmd & Hdom).
  rewrite Hmd. apply read_full; [exact Hdom|..]; intros s0.
  - rewrite (instrument_indep header s0 s), E1. reflexivity.
  - rewrite (deployment_indep header s0 s1), E2. reflexivity.
  - rewrite (coefficients_indep header s0 s2), E3. reflexivity.
  - rewrite (coordinates_indep header s0 s3), E4. reflexivity.
Qed.

(** [read] returns the empty dictionary or one with all seven keys. *)
Lemma read_empty_or_full (self : t) :
  snd (read fs self) = ∅ ∨ dom (snd (read fs self)) = metadata_keys.
Proof.
  unfold read. destruct (_read_header fs self) as [|l ls]; [left; reflexivity|].
  destruct (read_body_outcome (l :: ls) self) as [s' md Hdom _ _ _ _|s' e _].
  - right. exact Hdom.
  - left. reflexivity.
Qed.

(** C5.  When the header bytes cannot be read, or decode to no line,
    [read] returns the empty dictionary; when any one of the four
    extractions (instrument number, deployment time, coefficients,
    coordinates and elevation) raises, it returns the empty dictionary as
    well; otherwise it returns a dictionary with all seven keys.  A
    dictionary with some keys only is never returned. *)
Theorem read_all_or_nothing (self : t) :
  let header := _read_header fs self in
  let md := snd (read fs self) in
  (md = ∅ ∨ dom md = metadata_keys)
  ∧ (is_ok (open_rb fs (binary_file self)) = false → md = ∅)
  ∧ (header = [] → md = ∅)
  ∧ (is_ok (snd (_extract_instrument_number header self)) = false → md = ∅)
  ∧ (is_ok (snd (_extract_deployment_time header self)) = false → md = ∅)
  ∧ (is_ok (snd (_extract_coefficients header self)) = false → md = ∅)
  ∧ (is_ok (snd (_extract_coordinates header self)) = false → md = ∅)
  ∧ (header ≠ [] →
     is_ok (snd (_extract_instrument_number header self)) = true →
     is_ok (snd (_extract_deployment_time header self)) = true →
     is_ok (snd (_extract_coefficients header self)) = true →
     is_ok (snd (_extract_coordinates header self)) = true →
     dom md = metadata_keys).
Proof.
  cbn zeta. split; [apply read_empty_or_full|].
  assert (Hcase :
    _read_header fs self = [] ∧ snd (read fs self) = ∅
    ∨ (_read_header fs self ≠ []
       ∧ read_outcome (_read_header fs self)
           (read_body (_read_header fs self) self)
       ∧ snd (read fs self)
         = match snd (read_body (_read_header fs self) self) with
           | Ok md => md
           | Raise _ => ∅
           end)).
  { unfold read. destruct (_read_header fs self) as [|l ls] eqn:Eh.
    - left. split; reflexivity.
    - right. split; [discriminate|]. split; [apply read_body_outcome|].
      destruct (read_body (l :: ls) self) as [s' [md|e]]; reflexivity. }
  assert (Hopen : is_ok (open_rb fs (binary_file self)) = false →
                  _read_header fs self = []).
  { unfold _read_header. destruct (open_rb fs (binary_file self));
      [discriminate|reflexivity]. }
  destruct Hcase as [[Hnil Hmd]|(Hne & Hout & Hmd)].
  - repeat split; intros; try exact Hmd. congruence.
  - rewrite Hmd. clear Hmd.
    destruct Hout as [s' md Hdom H1 H2 H3 H4|s' e Hor]; cbn [snd].
    + split; [intros Ho; apply Hopen in Ho; congruence|].
      split; [congruence|].
      repeat split; intros; try exact Hdom;
        match goal with
        | Hf : is_ok _ = false |- _ =>
            first [rewrite H1 in Hf | rewrite H2 in Hf
                  | rewrite H3 in Hf | rewrite H4 in Hf]; discriminate
        end.
    + repeat split; intros; try reflexivity.
      destruct Hor as [Hf|[Hf|[Hf|Hf]]]; specialize (Hf self); congruence.
Qed.

End Header.

(** The reader itself checks no range: digits that read 91 and 181 degrees
    are parsed without complaint, to 91.0 and 181.0.  The range of a
    coordinate rests on the header being well formed. *)
Lemma coordinates_out_of_range :
  let fs := {| fs_dirs := ∅;
               fs_files := {[ "f.B423" :=
                 Sample.header_bytes
                   (Sample.header_lines "9100.0000,N" "18100.0000,E") ]} |} in
  let md := snd (@Read_Lemi_Header.read Sample.runtime fs
                   (Read_Lemi_Header.init "f.B423")) in
  md !! "latitude" = Some (PyFloat (Num.of_Z 91))
  ∧ md !! "longitude" = Some (PyFloat (Num.of_Z 181))
  ∧ PrimFloat.ltb (Num.of_Z 90) (Num.of_Z 91) = true
  ∧ PrimFloat.ltb (Num.of_Z 180) (Num.of_Z 181) = true.
Proof. vm_compute. repeat split; reflexivity. Qed.

(** ** The site loop *)

Section Site.
Context `{PyRuntime}.
Variable fs : filesystem.

Lemma file_try_spec (site_id : Z) (binary_file : string) (vars : Locals) :
  file_try fs site_id binary_file vars
  = match file_frame fs binary_file with
    | Ok d => (after_file fs site_id binary_file d vars, Ok tt)
    | Raise e => (set_header_info (header_of fs binary_file) vars, Raise e)
    end.
Proof.
  unfold file_try, file_frame. fold (header_of fs binary_file).
  unfold mbind at 1, M_bind at 1, modify at 1.
  unfold mbind at 1, M_bind at 1, lift at 1.
  destruct (dict_get (header_of fs binary_file) "coefficients") as [c|e];
    [|reflexivity].
  cbn [mbind result_bind].
  destruct (snd (Read_Lemi_Data._from_binary fs (Read_Lemi_Data.init binary_file c)))
    as [d|]; destruct vars as [ad st ft sr hi lg];
    unfold mbind, M_bind, result_bind, get, lift, modify, mret, M_ret, frame,
      of_option, set_header_info, set_start_time, set_finish_time,
      set_sample_rate, append_data, after_file;
    cbn [start_time sample_rate all_data finish_time header_info log].
  - destruct (truthy st); destruct (is_none sr); reflexivity.
  - destruct (truthy st); reflexivity.
Qed.

Lemma file_step_spec (site_id : Z) (binary_file : string) (vars : Locals) :
  file_step fs site_id binary_file vars
  = let vars1 := write_log INFO (MsgProcessingFile binary_file) vars in
    match file_frame fs binary_file with
    | Ok d => (after_file fs site_id binary_file d vars1, Ok tt)
    | Raise e =>
        (write_log ERROR (MsgFileError binary_file e)
           (set_header_info (header_of fs binary_file) vars1), Ok tt)
    end.
Proof.
  unfold file_step, try_except. unfold mbind, M_bind, modify at 1.
  rewrite file_try_spec. destruct (file_frame fs binary_file); reflexivity.
Qed.

Lemma file_step_ok site_id f vars : snd (file_step fs site_id f vars) = Ok tt.
Proof. rewrite file_step_spec. cbn zeta. destruct (file_frame fs f); reflexivity. Qed.

Lemma site_loop_cons site_id f files vars :
  site_loop fs site_id (f :: files) vars
  = site_loop fs site_id files (fst (file_step fs site_id f vars)).
Proof.
  unfold site_loop. cbn [for_each]. unfold mbind, M_bind.
  pose proof (file_step_ok site_id f vars) as Hok.
  destruct (file_step fs site_id f vars) as [vars' r]. cbn in Hok. subst r.
  reflexivity.
Qed.

(** The loop never raises: every exception of a turn is caught in it. *)
Lemma site_loop_ok site_id files vars :
  snd (site_loop fs site_id files vars) = Ok tt.
Proof.
  revert vars. induction files as [|f files IH]; intros vars; [reflexivity|].
  rewrite site_loop_cons. apply IH.
Qed.

Lemma site_loop_processed site_id files vars :
  processed (log (fst (site_loop fs site_id files vars)))
  = processed (log vars) ++ files.
Proof.
  revert vars. induction files as [|f files IH]; intros vars.
  - cbn. rewrite app_nil_r. reflexivity.
  - rewrite site_loop_cons, IH, file_step_spec. cbn zeta.
    destruct (file_frame fs f); cbn [fst log after_file write_log set_header_info];
      unfold processed; rewrite ?omap_app; cbn; rewrite <- ?app_assoc; reflexivity.
Qed.

Lemma site_loop_header_info site_id files f vars :
  last files = Some f →
  header_info (fst (site_loop fs site_id files vars)) = Some (header_of fs f).
Proof.
  revert vars. induction files as [|g files IH]; intros vars Hlast; [discriminate|].
  rewrite site_loop_cons. destruct files as [|g' files'].
  - injection Hlast as ->. rewrite file_step_spec. cbn zeta.
    destruct (file_frame fs f); reflexivity.
  - apply IH. exact Hlast.
Qed.

Lemma site_loop_rate_kept site_id files vars :
  is_none (sample_rate vars) = false →
  sample_rate (fst (site_loop fs site_id files vars)) = sample_rate vars.
Proof.
  revert vars. induction files as [|f files IH]; intros vars Hset; [reflexivity|].
  rewrite site_loop_cons, file_step_spec. cbn zeta.
  destruct (file_frame fs f) as [d|e]; cbn [fst].
  - rewrite IH; cbn [sample_rate after_file write_log]; rewrite Hset; [reflexivity|exact Hset].
  - rewrite IH; [reflexivity|exact Hset].
Qed.

Lemma site_loop_rate site_id pre f post d vars :
  Forall (fun p => is_ok (file_frame fs p) = false) pre →
  file_frame fs f = Ok d →
  is_none (sample_rate vars) = true →
  sample_rate (fst (site_loop fs site_id (pre ++ f :: post) vars))
  = PyInt (first_second_count d).
Proof.
  intros Hpre Hf. revert vars. induction Hpre as [|p pre Hp Hpre IH]; intros vars Hnone.
  - cbn [app]. rewrite site_loop_cons, file_step_spec. cbn zeta. rewrite Hf. cbn [fst].
    rewrite site_loop_rate_kept; cbn [sample_rate after_file write_log];
      rewrite Hnone; reflexivity.
  - cbn [app]. rewrite site_loop_cons, file_step_spec. cbn zeta.
    destruct (file_frame fs p); [discriminate|]. cbn [fst]. apply IH. exact Hnone.
Qed.

Lemma site_loop_rate_none site_id files vars :
  Forall (fun p => is_ok (file_frame fs p) = false) files →
  sample_rate (fst (site_loop fs site_id files vars)) = sample_rate vars.
Proof.
  intros Hall. revert vars. induction Hall as [|p files Hp Hall IH]; intros vars;
    [reflexivity|].
  rewrite site_loop_cons, file_step_spec. cbn zeta.
  destruct (file_frame fs p); [discriminate|]. cbn [fst]. rewrite IH. reflexivity.
Qed.

Lemma site_loop_all_data site_id files vars :
  all_data (fst (site_loop fs site_id files vars))
  = all_data vars
    ++ omap (fun f => match file_frame fs f with
                      | Ok d => Some (trimmed site_id d)
                      | Raise _ => None
                      end) files.
Proof.
  revert vars. induction files as [|f files IH]; intros vars.
  - cbn. rewrite app_nil_r. reflexivity.
  - rewrite site_loop_cons, IH, file_step_spec. cbn zeta. cbn [omap list_omap].
    destruct (file_frame fs f); cbn [fst all_data after_file write_log set_header_info].
    + rewrite <- app_assoc. reflexivity.
    + reflexivity.
Qed.

Lemma site_metadata_state site_info site_id vars :
  fst (site_metadata site_info site_id vars) = vars.
Proof.
  unfold site_metadata. run_M; reflexivity.
Qed.

Lemma summary_sample_rate site_info site_id vars md :
  summary_of site_info site_id vars = Ok md →
  md !! "Sample Rate" = Some (sample_rate vars)
  ∧ md !! "Start Time" = Some (start_time vars)
  ∧ md !! "Finish Time" = Some (finish_time vars)
  ∧ md !! "site_id" = Some (PyInt site_id).
Proof.
  unfold summary_of, site_metadata. run_M; cbn [snd]; intros [= <-].
  repeat split; reflexivity.
Qed.

Lemma summary_empty_header site_info site_id vars :
  header_info vars = Some ∅ →
  summary_of site_info site_id vars = Raise (KeyError "instrument_number").
Proof.
  intros Hinfo. unfold summary_of, site_metadata.
  unfold mbind, M_bind, get, lift. rewrite Hinfo. reflexivity.
Qed.

Lemma process_site_files directory site_info site_id names files :
  fs_dirs fs !! Os.path_join directory (SiteName site_info) = Some names →
  binary_files (Os.path_join directory (SiteName site_info)) names = Ok files →
  files ≠ [] →
  process_site fs directory site_info site_id
  = let vars := fst (site_loop fs site_id files
                       (locals0 [(INFO, MsgHandlingSite (SiteName site_info))])) in
    match summary_of site_info site_id vars with
    | Ok md =>
        (log vars ++ [(INFO, MsgFinishedSite (SiteName site_info))],
         Ok (Pd.concat_or_none (all_data vars), Some md))
    | Raise e => (log vars, Raise e)
    end.
Proof.
  intros Hdir Hfiles Hne. unfold process_site. rewrite Hdir, Hfiles.
  destruct files as [|f files]; [congruence|].
  set (l0 := locals0 _). cbn zeta.
  unfold mbind at 1, M_bind at 1.
  pose proof (site_loop_ok site_id (f :: files) l0) as Hok.
  destruct (site_loop fs site_id (f :: files) l0) as [vars r]. cbn in Hok. subst r.
  cbn [fst]. unfold site_finish, summary_of.
  unfold mbind at 1, M_bind at 1.
  pose proof (site_metadata_state site_info site_id vars) as Hst.
  destruct (site_metadata site_info site_id vars) as [vars' [md|e]];
    cbn in Hst; subst vars'; reflexivity.
Qed.

End Site.

(** ** Sorting by key *)

Section Sorting.
Context {A : Type}.

Lemma insert_by_key_perm (x : Z * A) (l : list (Z * A)) :
  Permutation (insert_by_key x l) (x :: l).
Proof.
  induction l as [|y l IH]; [reflexivity|]. cbn.
  destruct (fst x <=? fst y); [reflexivity|].
  rewrite IH. apply perm_swap.
Qed.

Lemma insert_by_key_sorted (x : Z * A) (l : list (Z * A)) :
  StronglySorted fst_le l → StronglySorted fst_le (insert_by_key x l).
Proof.
  induction 1 as [|y l Hs IH Hall]; cbn.
  - repeat constructor.
  - destruct (fst x <=? fst y) eqn:E.
    + apply Z.leb_le in E. constructor; [constructor; assumption|].
      constructor; [exact E|].
      eapply Forall_impl; [exact Hall|]. unfold fst_le. intros z Hz. lia.
    + apply Z.leb_gt in E. constructor; [exact IH|].
      eapply Permutation_Forall; [symmetry; apply insert_by_key_perm|].
      constructor; [unfold fst_le; lia|exact Hall].
Qed.

Lemma sort_perm (l : list (Z * A)) :
  Permutation (fold_right insert_by_key [] l) l.
Proof.
  induction l as [|x l IH]; [reflexivity|]. cbn.
  rewrite insert_by_key_perm, IH. reflexivity.
Qed.

Lemma sort_sorted (l : list (Z * A)) :
  StronglySorted fst_le (fold_right insert_by_key [] l).
Proof.
  induction l as [|x l IH]; [constructor|]. cbn.
  apply insert_by_key_sorted, IH.
Qed.

Variable key : A → result Z.

Lemma decorate_ok (l : list A) (keyed : list (Z * A)) :
  decorate key l = Ok keyed →
  map snd keyed = l ∧ Forall (fun kx => key (snd kx) = Ok (fst kx)) keyed.
Proof.
  revert keyed. induction l as [|x l IH]; intros keyed; cbn.
  - intros [= <-]. split; [reflexivity|constructor].
  - destruct (key x) as [k|] eqn:Ek; [|discriminate]. cbn.
    destruct (decorate key l) as [rest|]; [|discriminate]. cbn.
    intros [= <-]. destruct (IH rest eq_refl) as [Hmap Hall].
    split; [cbn; rewrite Hmap; reflexivity|]. constructor; [exact Ek|exact Hall].
Qed.

Lemma decorate_total (l : list A) :
  Forall (fun x => is_ok (key x) = true) l → ∃ keyed, decorate key l = Ok keyed.
Proof.
  induction 1 as [|x l Hx Hall [rest IH]]; [exists []; reflexivity|]. cbn.
  destruct (key x) as [k|]; [|discriminate]. cbn. rewrite IH. cbn.
  eexists. reflexivity.
Qed.

Lemma decorate_raise (l : list A) (keyed : list (Z * A)) :
  decorate key l = Ok keyed → Forall (fun x => is_ok (key x) = true) l.
Proof.
  revert keyed. induction l as [|x l IH]; intros keyed; cbn; [constructor|].
  destruct (key x) as [k|] eqn:Ek; [|discriminate]. cbn.
  destruct (decorate key l) as [rest|]; [|discriminate]. intros _.
  constructor; [rewrite Ek; reflexivity|]. eapply IH. reflexivity.
Qed.

Lemma sorted_by_key_spec (l files : list A) :
  sorted_by_key key l = Ok files →
  Permutation files l ∧ StronglySorted (key_le key) files.
Proof.
  unfold sorted_by_key. destruct (decorate key l) as [keyed|] eqn:Ed; [|discriminate].
  cbn. intros [= <-]. destruct (decorate_ok _ _ Ed) as [Hmap Hall].
  split.
  - rewrite <- Hmap. apply Permutation_map, sort_perm.
  - assert (Hall' : Forall (fun kx => key (snd kx) = Ok (fst kx))
                      (fold_right insert_by_key [] keyed)).
    { eapply Permutation_Forall; [symmetry; apply sort_perm|exact Hall]. }
    pose proof (sort_sorted keyed) as Hs.
    induction Hs as [|y ys Hs IH Hy]; [constructor|].
    inversion Hall' as [|? ? Hk Hrest]; subst. cbn. constructor; [apply IH, Hrest|].
    apply Forall_map. rewrite Forall_forall in *. intros z Hz.
    exists (fst y), (fst z). repeat split; [exact Hk|apply Hrest, Hz|apply Hy, Hz].
Qed.

End Sorting.

(** ** The first second of a frame *)

Lemma select_map {A} (p : A → bool) (l : list A) :
  Pd.select (map p l) l = List.filter p l.
Proof.
  induction l as [|x l IH]; [reflexivity|]. cbn.
  destruct (p x); rewrite IH; reflexivity.
Qed.

Lemma first_second_count_spec (d : DataFrame) (stamps : list Z) :
  df_index d = DatetimeIndex stamps →
  first_second_count d = count_first_second stamps.
Proof.
  intros Hidx. unfold first_second_count, count_first_second, Pd.len,
    Pd.select_rows, Pd.index_before_plus_1s, Pd.index_min.
  rewrite Hidx. destruct stamps as [|t ts]; [reflexivity|].
  cbn [df_index earliest Pd.index_len]. rewrite select_map. reflexivity.
Qed.

(** In a file whose records are in time order the earliest timestamp is
    that of the first record. *)
Lemma earliest_sorted (t : Z) (ts : list Z) :
  StronglySorted Z.le (t :: ts) → earliest (t :: ts) = Some t.
Proof.
  intros Hs. cbn. f_equal. apply StronglySorted_inv in Hs as [_ Hall].
  induction Hall as [|x xs Hx Hall IH]; [reflexivity|]. cbn. lia.
Qed.

(** ** Sort keys that raise *)

Lemma split_on_cons (sep : ascii) (s : string) :
  ∃ x xs, Str.split_on sep s = x :: xs.
Proof.
  destruct s as [|c s]; cbn [Str.split_on]; [eauto|].
  destruct (Ascii.eqb c sep); [eauto|].
  destruct (Str.split_on sep s); eauto.
Qed.

Lemma py_int_raises (s : string) (e : exn) :
  Num.py_int s = Raise e → e = ValueError.
Proof.
  unfold Num.py_int. destruct (Num.sign (Num.trim s)) as [neg body].
  destruct (Num.digitpart body 0) as [[[v n] rest]|]; [destruct rest|];
    congruence.
Qed.

(** The key of a file raises nothing but [ValueError]. *)
Lemma file_key_raises (x : string) (e : exn) :
  file_key x = Raise e → e = ValueError.
Proof.
  unfold file_key.
  destruct (split_on_cons "." (Os.basename x)) as (prefix & rest & ->).
  cbn. apply py_int_raises.
Qed.

(** One key that raises makes the whole sort raise. *)
Lemma decorate_raises {A} (key : A → result Z) (l : list A) :
  (∀ x e, key x = Raise e → e = ValueError) →
  Exists (fun x => is_ok (key x) = false) l →
  decorate key l = Raise ValueError.
Proof.
  intros Hkey. induction l as [|x l IH]; intros Hex; [inversion Hex|].
  cbn [decorate]. destruct (key x) as [k|e] eqn:Ek.
  - cbn [mbind result_bind]. rewrite IH; [reflexivity|].
    inversion Hex as [? ? Hx|? ? Hl]; subst; [|exact Hl].
    rewrite Ek in Hx. discriminate.
  - cbn [mbind result_bind]. rewrite (Hkey x e Ek). reflexivity.
Qed.

(** ** Sites and batches *)

Section Claims.
Context `{PyRuntime}.
Variable fs : filesystem.

Lemma file_frame_calibrated (f : string) (d : DataFrame) :
  file_frame fs f = Ok d →
  ∃ (content : list Byte.byte) (k : Coefficients),
    open_rb fs f = Ok content
    ∧ d = calibrated_frame (Bin.read_records content) k.
Proof.
  unfold file_frame. destruct (dict_get (header_of fs f) "coefficients") as [c|];
    [|discriminate].
  cbn [mbind result_bind].
  unfold Read_Lemi_Data._from_binary. rewrite from_binary_body_spec.
  cbn [Read_Lemi_Data.binary_file Read_Lemi_Data.coefficients Read_Lemi_Data.init].
  destruct (open_rb fs f) as [content|]; [|discriminate]. cbn [mbind result_bind].
  destruct (lookup_coefficients c) as [k|]; [|discriminate]. cbn.
  intros [= <-]. exists content, k. split; reflexivity.
Qed.

Lemma collect_no_table (rs : list (result (option DataFrame * option dict)))
    (ad : list DataFrame) (ml : list (option dict)) (lg : logbook) :
  Forall (fun r => yields_table r = false) rs →
  fold_left collect rs (ad, ml, lg)
  = (ad, ml, lg ++ omap (fun r => match r with
                                  | Raise e => Some (ERROR, MsgPoolError e)
                                  | Ok _ => None
                                  end) rs).
Proof.
  intros Hall. revert lg. induction Hall as [|r rs Hr Hall IH]; intros lg.
  - cbn. rewrite app_nil_r. reflexivity.
  - cbn [fold_left omap list_omap].
    destruct r as [[[df|] md]|e]; cbn in Hr; try discriminate; cbn [collect].
    + apply IH.
    + rewrite IH, <- app_assoc. reflexivity.
Qed.

Lemma collect_skip (rs1 rs2 : list (result (option DataFrame * option dict)))
    (md : option dict) (acc : list DataFrame * list (option dict) * logbook) :
  fold_left collect (rs1 ++ Ok (None, md) :: rs2) acc
  = fold_left collect (rs1 ++ rs2) acc.
Proof.
  rewrite !fold_left_app. cbn [fold_left].
  destruct (fold_left collect rs1 acc) as [[ad ml] lg]. reflexivity.
Qed.

(** C6 (amended).  When every name ending in [.B423] starts with an
    integer before its first dot, the list the site job works through is
    made of exactly the [.B423] names of the folder (as paths), is in
    ascending order of that integer, and the files are processed one after
    the other in that order.  When one of these names, whichever it is,
    starts with no integer, the sort raises [ValueError]: the job raises
    it after its first log line and processes no file. *)
Theorem files_selected_sorted_processed (directory : string)
    (site_info : SiteInfo) (site_id : Z) (names : list string) :
  let site_path := Os.path_join directory (SiteName site_info) in
  let selected :=
    map (Os.path_join site_path) (List.filter (Str.endswith ".B423") names) in
  fs_dirs fs !! site_path = Some names →
  (Forall (fun p => is_ok (file_key p) = true) selected →
   ∃ files : list string,
     binary_files site_path names = Ok files
     ∧ Permutation files selected
     ∧ StronglySorted (key_le file_key) files
     ∧ processed (fst (process_site fs directory site_info site_id)) = files)
  ∧ (Exists (fun p => is_ok (file_key p) = false) selected →
     binary_files site_path names = Raise ValueError
     ∧ process_site fs directory site_info site_id
       = ([(INFO, MsgHandlingSite (SiteName site_info))], Raise ValueError)
     ∧ processed (fst (process_site fs directory site_info site_id)) = []).
Proof.
  intros site_path selected Hdir. split.
  - intros Hkeys.
    destruct (decorate_total file_key selected Hkeys) as [keyed Hdec].
    assert (Hfiles : binary_files site_path names
                     = Ok (map snd (fold_right insert_by_key [] keyed))).
    { unfold binary_files, sorted_by_key. fold selected. rewrite Hdec. reflexivity. }
    exists (map snd (fold_right insert_by_key [] keyed)).
    destruct (sorted_by_key_spec file_key selected _ Hfiles) as [Hperm Hsorted].
    repeat split; try assumption.
    destruct (map snd (fold_right insert_by_key [] keyed)) as [|f files] eqn:Ef.
    + unfold process_site. fold site_path. rewrite Hdir, Hfiles. reflexivity.
    + rewrite (process_site_files fs directory site_info site_id names (f :: files))
        by (assumption || discriminate).
      cbn zeta. destruct (summary_of _ _ _); cbn [fst].
      * unfold processed at 1. rewrite omap_app. cbn [omap list_omap snd].
        rewrite app_nil_r. fold (processed (log (fst (site_loop fs site_id (f :: files)
          (locals0 [(INFO, MsgHandlingSite (SiteName site_info))]))))).
        rewrite site_loop_processed. reflexivity.
      * rewrite site_loop_processed. reflexivity.
  - intros Hstray.
    assert (Hfiles : binary_files site_path names = Raise ValueError).
    { unfold binary_files, sorted_by_key. fold selected.
      rewrite (decorate_raises file_key selected file_key_raises Hstray).
      reflexivity. }
    assert (Hjob : process_site fs directory site_info site_id
                   = ([(INFO, MsgHandlingSite (SiteName site_info))],
                      Raise ValueError)).
    { unfold process_site. fold site_path. rewrite Hdir, Hfiles. reflexivity. }
    split; [exact Hfiles|]. split; [exact Hjob|]. rewrite Hjob. reflexivity.
Qed.

(** C7.  The sample rate is set by the first file of the sorted list that
    is processed without error, to the number of its samples whose
    timestamp is less than one second after its earliest timestamp; no
    later file changes it, and the summary the job returns carries it. *)
Theorem sample_rate_of_first_file (directory : string) (site_info : SiteInfo)
    (site_id : Z) (names pre post : list string) (f : string) (d : DataFrame) :
  let site_path := Os.path_join directory (SiteName site_info) in
  fs_dirs fs !! site_path = Some names →
  binary_files site_path names = Ok (pre ++ f :: post) →
  Forall (fun p => is_ok (file_frame fs p) = false) pre →
  file_frame fs f = Ok d →
  (∃ stamps : list Z,
     df_index d = DatetimeIndex stamps
     ∧ first_second_count d = count_first_second stamps)
  ∧ sample_rate
      (fst (site_loop fs site_id (pre ++ f :: post)
              (locals0 [(INFO, MsgHandlingSite (SiteName site_info))])))
    = PyInt (first_second_count d)
  ∧ (∀ data md,
       snd (process_site fs directory site_info site_id) = Ok (data, Some md) →
       md !! "Sample Rate" = Some (PyInt (first_second_count d))).
Proof.
  intros site_path Hdir Hfiles Hpre Hf.
  assert (Hrate : sample_rate
            (fst (site_loop fs site_id (pre ++ f :: post)
                    (locals0 [(INFO, MsgHandlingSite (SiteName site_info))])))
          = PyInt (first_second_count d)).
  { apply site_loop_rate; [exact Hpre|exact Hf|reflexivity]. }
  split; [|split; [exact Hrate|]].
  - destruct (file_frame_calibrated f d Hf) as (content & k & _ & ->).
    eexists. split; [reflexivity|]. apply first_second_count_spec. reflexivity.
  - intros data md Hret.
    rewrite (process_site_files fs directory site_info site_id names (pre ++ f :: post))
      in Hret by (try assumption; destruct pre; discriminate).
    cbn zeta in Hret.
    destruct (summary_of _ _ _) as [md'|e] eqn:Esum; cbn [snd] in Hret;
      [|discriminate].
    injection Hret as _ <-.
    destruct (summary_sample_rate _ _ _ _ Esum) as [Hsr _].
    rewrite Hsr, Hrate. reflexivity.
Qed.

(** C8.  A site whose folder is absent, or holds no [.B423] name, returns
    the pair (None, None), and the batch goes on as if the site had not
    been listed: every other site contributes exactly what it contributes
    without it. *)
Theorem missing_site_is_skipped (csv_file : string) (site_info : SiteInfo)
    (site_id : Z) :
  let site_path := Os.path_join (Os.dirname csv_file) (SiteName site_info) in
  fs_dirs fs !! site_path = None
  ∨ (∃ names, fs_dirs fs !! site_path = Some names
              ∧ List.filter (Str.endswith ".B423") names = []) →
  snd (process_site fs (Os.dirname csv_file) site_info site_id) = Ok (None, None)
  ∧ ∀ rows1 rows2 : list (Z * SiteInfo),
      process_all_sites fs csv_file (Some (rows1 ++ (site_id, site_info) :: rows2))
      = process_all_sites fs csv_file (Some (rows1 ++ rows2)).
Proof.
  intros site_path Hmissing.
  assert (Hret : snd (process_site fs (Os.dirname csv_file) site_info site_id)
                 = Ok (None, None)).
  { unfold process_site. fold site_path.
    destruct Hmissing as [Hnone|(names & Hdir & Hempty)].
    - rewrite Hnone. reflexivity.
    - rewrite Hdir. unfold binary_files. rewrite Hempty. reflexivity. }
  split; [exact Hret|]. intros rows1 rows2.
  unfold process_all_sites, run_jobs. rewrite !map_app. cbn [map fst snd].
  rewrite Hret, collect_skip. reflexivity.
Qed.

Lemma collect_fold (rs : list (result (option DataFrame * option dict)))
    (ad : list DataFrame) (ml : list (option dict)) (lg : logbook) :
  fold_left collect rs (ad, ml, lg)
  = (ad ++ omap job_table rs, ml ++ omap job_summary rs, lg ++ omap job_error rs).
Proof.
  revert ad ml lg. induction rs as [|r rs IH]; intros ad ml lg.
  - cbn. rewrite !app_nil_r. reflexivity.
  - cbn [fold_left omap list_omap].
    destruct r as [[[df|] md]|e]; cbn [collect job_table job_summary job_error];
      rewrite IH, <- ?app_assoc; reflexivity.
Qed.

Lemma len_concat2 (a b : DataFrame) :
  Pd.len (Pd.concat2 a b) = (Pd.len a + Pd.len b)%nat.
Proof.
  unfold Pd.len, Pd.concat2, Pd.app_index. cbn [df_index].
  destruct (df_index a), (df_index b); cbn [Pd.index_len];
    rewrite ?length_app; reflexivity.
Qed.

Lemma concat_no_rows (ds : list DataFrame) (d : DataFrame) :
  Forall (fun d => Pd.len d = 0%nat) (d :: ds) →
  Pd.len (fold_left Pd.concat2 ds d) = 0%nat.
Proof.
  revert d. induction ds as [|d' ds IH]; intros d Hall.
  - inversion Hall; assumption.
  - cbn [fold_left]. apply IH.
    inversion Hall as [|? ? Hd Hrest]; subst.
    inversion Hrest as [|? ? Hd' Hds]; subst.
    constructor; [|exact Hds]. rewrite len_concat2, Hd, Hd'. reflexivity.
Qed.

Lemma tables_no_rows (rs : list (result (option DataFrame * option dict))) :
  Forall (fun r => ∀ df, job_table r = Some df → Pd.len df = 0%nat) rs →
  Forall (fun d => Pd.len d = 0%nat) (omap job_table rs).
Proof.
  induction 1 as [|r rs Hr Hall IH]; [constructor|].
  cbn [omap list_omap]. destruct (job_table r) as [df|]; [|exact IH].
  constructor; [apply Hr; reflexivity|exact IH].
Qed.

Lemma tables_some (rs : list (result (option DataFrame * option dict))) :
  Exists (fun r => yields_table r = true) rs →
  ∃ d ds, omap job_table rs = d :: ds.
Proof.
  induction 1 as [r rs Hr|r rs Hex (d & ds & IH)].
  - destruct r as [[[df|] md]|e]; try discriminate. cbn. eauto.
  - cbn [omap list_omap]. rewrite IH. destruct (job_table r); eauto.
Qed.

(** C9 (amended).  Take a batch in which no site produces data: every job
    raises, returns [None] in place of a table, or returns a table without
    rows.  When no job returns a table, [process_all_sites] returns [None]
    in place of the merged table, with an empty metadata table, and the
    entry point, which tests for that [None], writes neither the success
    line nor a summary.  When some job returns a table, [process_all_sites]
    returns a merged table without rows together with the summaries, and
    the entry point writes the success line and then the warning that no
    data was loaded.  Either way nothing is raised: the empty batch is told
    apart by the [None] or by that warning only. *)
Theorem empty_batch_outcome (csv_file : string) (rows : list (Z * SiteInfo)) :
  let jobs := run_jobs fs (Os.dirname csv_file) rows in
  Forall (fun r => ∀ df, job_table r = Some df → Pd.len df = 0%nat) jobs →
  (Forall (fun r => yields_table r = false) jobs →
   snd (process_all_sites fs csv_file (Some rows)) = (None, Some [])
   ∧ main fs csv_file true (Some rows)
     = fst (process_all_sites fs csv_file (Some rows))
   ∧ (INFO, MsgAllSitesProcessed) ∉ main fs csv_file true (Some rows))
  ∧ (Exists (fun r => yields_table r = true) jobs →
     ∃ df : DataFrame,
       snd (process_all_sites fs csv_file (Some rows))
       = (Some df, Some (omap job_summary jobs))
       ∧ Pd.len df = 0%nat
       ∧ main fs csv_file true (Some rows)
         = fst (process_all_sites fs csv_file (Some rows))
           ++ [(INFO, MsgAllSitesProcessed); (WARNING, MsgNoDataLoaded)]).
Proof.
  intros jobs Hrows. split.
  - intros Hall. unfold main, process_all_sites. fold jobs.
    rewrite (collect_no_table _ [] [] [] Hall). cbn [Pd.concat_or_none snd fst].
    repeat split. cbn [app]. intros Hin. apply list_elem_of_In in Hin.
    clear Hrows. induction jobs as [|r rs IH]; [inversion Hin|].
    cbn [omap list_omap] in Hin. inversion Hall; subst.
    destruct r; [apply IH; assumption|].
    destruct Hin as [Heq|Hin]; [discriminate|]. apply IH; assumption.
  - intros Hsome. unfold main, process_all_sites. fold jobs.
    rewrite collect_fold. cbn [app].
    destruct (tables_some jobs Hsome) as (d & ds & Etab).
    pose proof (tables_no_rows jobs Hrows) as Hlen. rewrite Etab in Hlen.
    rewrite Etab. cbn [Pd.concat_or_none snd fst].
    exists (fold_left Pd.concat2 ds d).
    pose proof (concat_no_rows ds d Hlen) as Hzero.
    split; [reflexivity|]. split; [exact Hzero|].
    unfold log_summary, df_empty. rewrite Hzero. reflexivity.
Qed.

(** C3 at its failing inputs.  When the header of the last file of the
    sorted list cannot be read, so that [read] returns the empty
    dictionary, the job raises [KeyError] from the summary built after the
    loop, and [process_all_sites] drops the whole site: the tables already
    built from the earlier files are lost with it. *)
Theorem last_header_error_escapes (directory : string) (site_info : SiteInfo)
    (site_id : Z) (names files : list string) (f : string) :
  let site_path := Os.path_join directory (SiteName site_info) in
  fs_dirs fs !! site_path = Some names →
  binary_files site_path names = Ok files →
  last files = Some f →
  header_of fs f = ∅ →
  snd (process_site fs directory site_info site_id)
  = Raise (KeyError "instrument_number")
  ∧ ∀ ad ml lg,
      collect (ad, ml, lg) (snd (process_site fs directory site_info site_id))
      = (ad, ml, lg ++ [(ERROR, MsgPoolError (KeyError "instrument_number"))]).
Proof.
  intros site_path Hdir Hfiles Hlast Hempty.
  assert (Hraise : snd (process_site fs directory site_info site_id)
                   = Raise (KeyError "instrument_number")).
  { rewrite (process_site_files fs directory site_info site_id names files)
      by (try assumption; destruct files; discriminate).
    cbn zeta. rewrite summary_empty_header; [reflexivity|].
    rewrite (site_loop_header_info fs site_id files f) by exact Hlast.
    rewrite Hempty. reflexivity. }
  split; [exact Hraise|]. intros ad ml lg. rewrite Hraise. reflexivity.
Qed.

End Claims.

(** ** The claims on the sample inputs *)

Section Samples.
Import Sample.

(** Two files listed out of order are processed in the order of their
    integer prefixes; with [notes.B423] beside a good file the job raises
    and processes nothing. *)
Lemma files_selected_sorted_processed_witness :
  processed (fst (@process_site runtime two_files "base" (site "S1") 0))
  = ["base/S1/1720000000.B423"; "base/S1/1720003600.B423"]
  ∧ snd (@process_site runtime stray_name "base" (site "S1") 0)
    = Raise ValueError
  ∧ processed (fst (@process_site runtime stray_name "base" (site "S1") 0)) = [].
Proof.
  split.
  - destruct (@files_selected_sorted_processed runtime two_files "base" (site "S1") 0
                ["1720003600.B423"; "1720000000.B423"])
      as [Hsorted _]; [vm_compute; reflexivity|].
    destruct Hsorted as (files & Hfiles & _ & _ & Hproc).
    + apply List.Forall_forall, List.forallb_forall. vm_compute. reflexivity.
    + rewrite Hproc.
      assert (E : binary_files (Os.path_join "base" (SiteName (site "S1")))
                    ["1720003600.B423"; "1720000000.B423"]
                  = Ok ["base/S1/1720000000.B423"; "base/S1/1720003600.B423"])
        by (vm_compute; reflexivity).
      rewrite E in Hfiles. congruence.
  - destruct (@files_selected_sorted_processed runtime stray_name "base" (site "S1") 0
                ["notes.B423"; "1720000000.B423"])
      as [_ Hstray]; [vm_compute; reflexivity|].
    destruct Hstray as (_ & Hjob & Hnone).
    + apply List.Exists_exists. exists "base/S1/notes.B423".
      split; vm_compute; [tauto|reflexivity].
    + split; [rewrite Hjob; reflexivity|exact Hnone].
Defined.

(** C6 as stated fails: one [.B423] name that starts with no integer makes
    the sort raise, and no file of the site is processed. *)
Lemma stray_name_stops_site :
  @process_site runtime stray_name "base" (site "S1") 0
  = ([(INFO, MsgHandlingSite "S1")], Raise ValueError).
Proof. vm_compute. reflexivity. Qed.

(** The first file has two samples in its first second, the later file
    one: the rate is 2. *)
Lemma sample_rate_of_first_file_witness :
  sample_rate
    (fst (@site_loop runtime two_files 0
            ["base/S1/1720000000.B423"; "base/S1/1720003600.B423"]
            (locals0 [(INFO, MsgHandlingSite "S1")])))
  = PyInt 2.
Proof.
  pose (d := match @file_frame runtime two_files "base/S1/1720000000.B423" with
             | Ok d => d
             | Raise _ => Pd.of_records []
             end).
  destruct (@sample_rate_of_first_file runtime two_files "base" (site "S1") 0
              ["1720003600.B423"; "1720000000.B423"] []
              ["base/S1/1720003600.B423"] "base/S1/1720000000.B423" d)
    as (_ & Hrate & _).
  - vm_compute. reflexivity.
  - vm_compute. reflexivity.
  - constructor.
  - vm_compute. reflexivity.
  - cbn [app SiteName site] in Hrate. rewrite Hrate. vm_compute. reflexivity.
Defined.

(** Three sites, the folder of the second missing: two summaries. *)
Lemma missing_site_is_skipped_witness :
  snd (@process_site runtime two_of_three (Os.dirname "base/sites.csv") (site "S2") 1)
  = Ok (None, None)
  ∧ option_map length
      (snd (snd (@process_all_sites runtime two_of_three "base/sites.csv"
                   (Some ([(0, site "S1")] ++ (1, site "S2") :: [(2, site "S3")])))))
    = Some 2%nat.
Proof.
  destruct (@missing_site_is_skipped runtime two_of_three "base/sites.csv"
              (site "S2") 1) as [Hret Hbatch].
  - left. vm_compute. reflexivity.
  - split; [exact Hret|].
    rewrite (Hbatch [(0, site "S1")] [(2, site "S3")]).
    vm_compute. reflexivity.
Defined.

(** A batch made of the missing site alone returns no table; a batch of
    two sites with a header and no record returns a table without rows and
    ends on the warning. *)
Lemma empty_batch_outcome_witness :
  snd (@process_all_sites runtime two_of_three "base/sites.csv"
         (Some [(1, site "S2")]))
  = (None, Some [])
  ∧ ∃ df : DataFrame,
      fst (snd (@process_all_sites runtime empty_sites "base/sites.csv"
                  (Some [(0, site "S1"); (1, site "S2")]))) = Some df
      ∧ Pd.len df = 0%nat
      ∧ @main runtime empty_sites "base/sites.csv" true
          (Some [(0, site "S1"); (1, site "S2")])
        = fst (@process_all_sites runtime empty_sites "base/sites.csv"
                 (Some [(0, site "S1"); (1, site "S2")]))
          ++ [(INFO, MsgAllSitesProcessed); (WARNING, MsgNoDataLoaded)].
Proof.
  split.
  - assert (E : @run_jobs runtime two_of_three (Os.dirname "base/sites.csv")
                  [(1, site "S2")] = [Ok (None, None)])
      by (vm_compute; reflexivity).
    destruct (@empty_batch_outcome runtime two_of_three "base/sites.csv"
                [(1, site "S2")]) as [Hnone _].
    + cbv zeta. rewrite E. repeat constructor. discriminate.
    + destruct Hnone as (Hret & _); [rewrite E; repeat constructor|exact Hret].
  - destruct (@empty_batch_outcome runtime empty_sites "base/sites.csv"
                [(0, site "S1"); (1, site "S2")]) as [_ Hsome].
    + apply List.Forall_forall. intros r Hr df Hdf.
      assert (Hb : forallb (fun r => match job_table r with
                                     | Some df => (Pd.len df =? 0)%nat
                                     | None => true
                                     end)
                     (@run_jobs runtime empty_sites (Os.dirname "base/sites.csv")
                        [(0, site "S1"); (1, site "S2")]) = true)
        by (vm_compute; reflexivity).
      rewrite List.forallb_forall in Hb. specialize (Hb r Hr).
      rewrite Hdf in Hb. apply Nat.eqb_eq in Hb. exact Hb.
    + destruct Hsome as (df & Hret & Hlen & Hmain).
      * apply List.Exists_exists.
        exists (snd (@process_site runtime empty_sites
                       (Os.dirname "base/sites.csv") (site "S1") 0)).
        split; [left; reflexivity|vm_compute; reflexivity].
      * exists df. rewrite Hret. split; [reflexivity|]. split; assumption.
Defined.

(** C9 as stated fails: in a batch of two sites whose files hold a header
    and no record, no site produces data, yet [process_all_sites] returns a
    table (without rows) and two summaries as if they were valid output,
    and the entry point writes the success line before the warning that no
    data was loaded.  Nothing is raised. *)
Lemma empty_batch_logged_as_success :
  let out := @process_all_sites runtime empty_sites "base/sites.csv"
               (Some [(0, site "S1"); (1, site "S2")]) in
  (Pd.len <$> fst (snd out)) = Some 0%nat
  ∧ (length <$> snd (snd out)) = Some 2%nat
  ∧ @main runtime empty_sites "base/sites.csv" true
      (Some [(0, site "S1"); (1, site "S2")])
    = [(INFO, MsgAllSitesProcessed); (WARNING, MsgNoDataLoaded)].
Proof. vm_compute. repeat split; reflexivity. Qed.

(** A good file followed by an empty one: the first file is processed,
    the second is skipped inside the loop, and then the job raises, so the
    batch ends with no table and no summary for the site. *)
Lemma last_header_error_escapes_witness :
  is_ok (@file_frame runtime good_then_empty "base/S1/1720000000.B423") = true
  ∧ snd (@process_site runtime good_then_empty "base" (site "S1") 0)
    = Raise (KeyError "instrument_number")
  ∧ @process_all_sites runtime good_then_empty "base/sites.csv"
      (Some [(0, site "S1")])
    = ([(ERROR, MsgPoolError (KeyError "instrument_number"))], (None, Some [])).
Proof.
  destruct (@last_header_error_escapes runtime good_then_empty "base" (site "S1") 0
              ["1720003600.B423"; "1720000000.B423"]
              ["base/S1/1720000000.B423"; "base/S1/1720003600.B423"]
              "base/S1/1720003600.B423")
    as [Hraise Hcollect]; try (vm_compute; reflexivity).
  split; [vm_compute; reflexivity|]. split; [exact Hraise|].
  vm_compute. reflexivity.
Defined.

End Samples.

(** * Further properties of the code *)

Section MoreSite.
Context `{PyRuntime}.
Variable fs : filesystem.

Lemma site_loop_app site_id l1 l2 vars :
  fst (site_loop fs site_id (l1 ++ l2) vars)
  = fst (site_loop fs site_id l2 (fst (site_loop fs site_id l1 vars))).
Proof.
  revert vars. induction l1 as [|f l1 IH]; intros vars; [reflexivity|].
  cbn [app]. rewrite !site_loop_cons. apply IH.
Qed.

Lemma site_loop_failed site_id files vars :
  failed (log (fst (site_loop fs site_id files vars)))
  = failed (log vars)
    ++ List.filter (fun f => negb (is_ok (file_frame fs f))) files.
Proof.
  revert vars. induction files as [|f files IH]; intros vars.
  - cbn. rewrite app_nil_r. reflexivity.
  - rewrite site_loop_cons, IH, file_step_spec. cbn zeta. cbn [List.filter].
    destruct (file_frame fs f); cbn [fst log after_file write_log set_header_info is_ok negb];
      unfold failed; rewrite ?omap_app; cbn; rewrite <- ?app_assoc;
      rewrite ?app_nil_r; reflexivity.
Qed.

Lemma site_loop_count site_id files vars :
  length (all_data (fst (site_loop fs site_id files vars)))
  = (length (all_data vars)
     + length (List.filter (fun f => is_ok (file_frame fs f)) files))%nat.
Proof.
  rewrite site_loop_all_data, length_app. f_equal.
  induction files as [|f files IH]; [reflexivity|].
  cbn [omap list_omap List.filter].
  destruct (file_frame fs f); cbn [is_ok length]; rewrite IH; reflexivity.
Qed.

Lemma site_loop_times_fail site_id files vars :
  Forall (fun p => is_ok (file_frame fs p) = false) files →
  start_time (fst (site_loop fs site_id files vars)) = start_time vars
  ∧ finish_time (fst (site_loop fs site_id files vars)) = finish_time vars.
Proof.
  intros Hall. revert vars. induction Hall as [|p files Hp Hall IH]; intros vars;
    [split; reflexivity|].
  rewrite site_loop_cons, file_step_spec. cbn zeta.
  destruct (file_frame fs p); [discriminate|]. cbn [fst].
  destruct (IH (write_log ERROR (MsgFileError p e)
                  (set_header_info (header_of fs p)
                     (write_log INFO (MsgProcessingFile p) vars)))) as [-> ->].
  split; reflexivity.
Qed.

Lemma site_loop_start_kept site_id files vars :
  truthy (start_time vars) = true →
  start_time (fst (site_loop fs site_id files vars)) = start_time vars.
Proof.
  revert vars. induction files as [|f files IH]; intros vars Hset; [reflexivity|].
  rewrite site_loop_cons, file_step_spec. cbn zeta.
  destruct (file_frame fs f) as [d|e]; cbn [fst].
  - rewrite IH; cbn [start_time after_file write_log]; rewrite Hset;
      [reflexivity|exact Hset].
  - rewrite IH; [reflexivity|exact Hset].
Qed.

Lemma file_frame_index (f : string) (d : DataFrame) :
  file_frame fs f = Ok d →
  ∃ content : list Byte.byte,
    open_rb fs f = Ok content
    ∧ df_index d = DatetimeIndex (map stamp (Bin.read_records content)).
Proof.
  intros Hf. destruct (file_frame_calibrated fs f d Hf) as (content & k & Ho & ->).
  exists content. split; [exact Ho|reflexivity].
Qed.

(** X1.  The loop over the files of a site never raises: whatever a file
    does (unreadable header, missing coefficient, unreadable data), the
    loop goes on to the next one.  Every file gets its "processing" line,
    exactly the files that failed get an "error" line, in order, and
    exactly the others add a table to [all_data]. *)
Theorem loop_catches_file_errors (site_id : Z) (files : list string) (vars : Locals) :
  let out := site_loop fs site_id files vars in
  snd out = Ok tt
  ∧ processed (log (fst out)) = processed (log vars) ++ files
  ∧ failed (log (fst out))
    = failed (log vars)
      ++ List.filter (fun f => negb (is_ok (file_frame fs f))) files
  ∧ length (all_data (fst out))
    = (length (all_data vars)
       + length (List.filter (fun f => is_ok (file_frame fs f)) files))%nat.
Proof.
  cbn zeta. split; [apply site_loop_ok|]. split; [apply site_loop_processed|].
  split; [apply site_loop_failed|apply site_loop_count].
Qed.

Lemma index_max_stamps (d : DataFrame) (stamps : list Z) :
  df_index d = DatetimeIndex stamps →
  Pd.index_max d = from_option PyTimestamp PyNaT (latest stamps).
Proof. unfold Pd.index_max. intros ->. destruct stamps; reflexivity. Qed.

Lemma index_min_stamps (d : DataFrame) (stamps : list Z) :
  df_index d = DatetimeIndex stamps →
  Pd.index_min d = from_option PyTimestamp PyNaT (earliest stamps).
Proof. unfold Pd.index_min. intros ->. destruct stamps; reflexivity. Qed.

Lemma summary_times site_info site_id vars md :
  summary_of site_info site_id vars = Ok md →
  md !! "Start Time" = Some (start_time vars)
  ∧ md !! "Finish Time" = Some (finish_time vars).
Proof.
  intros Hs. destruct (summary_sample_rate _ _ _ _ Hs) as (_ & H1 & H2 & _).
  split; assumption.
Qed.

(** X3.  The finish time of the summary is the latest timestamp of the last
    file processed without error (NaT when that file holds no record): it
    is overwritten at every file, so earlier files play no part. *)
Theorem finish_time_of_last_file (directory : string) (site_info : SiteInfo)
    (site_id : Z) (names pre post : list string) (f : string) (d : DataFrame) :
  let site_path := Os.path_join directory (SiteName site_info) in
  fs_dirs fs !! site_path = Some names →
  binary_files site_path names = Ok (pre ++ f :: post) →
  file_frame fs f = Ok d →
  Forall (fun p => is_ok (file_frame fs p) = false) post →
  ∃ content : list Byte.byte,
    open_rb fs f = Ok content
    ∧ ∀ data md,
        snd (process_site fs directory site_info site_id) = Ok (data, Some md) →
        md !! "Finish Time"
        = Some (from_option PyTimestamp PyNaT
                  (latest (map stamp (Bin.read_records content)))).
Proof.
  intros site_path Hdir Hfiles Hf Hpost.
  destruct (file_frame_index f d Hf) as (content & Hopen & Hidx).
  exists content. split; [exact Hopen|]. intros data md Hret.
  rewrite (process_site_files fs directory site_info site_id names (pre ++ f :: post))
    in Hret by (try assumption; destruct pre; discriminate).
  cbn zeta in Hret.
  destruct (summary_of _ _ _) as [md'|e] eqn:Esum; cbn [snd] in Hret; [|discriminate].
  injection Hret as _ <-.
  destruct (summary_times _ _ _ _ Esum) as [_ Hfin]. rewrite Hfin. f_equal.
  rewrite site_loop_app, site_loop_cons.
  destruct (site_loop_times_fail site_id post
              (fst (file_step fs site_id f
                      (fst (site_loop fs site_id pre
                              (locals0 [(INFO, MsgHandlingSite (SiteName site_info))])))))
              Hpost) as [_ ->].
  rewrite file_step_spec. cbn zeta. rewrite Hf. cbn [fst finish_time after_file].
  apply index_max_stamps. exact Hidx.
Qed.

(** X2.  The start time of the summary is the earliest timestamp of the
    first file of the sorted list that is processed without error, when
    that file holds at least one record; later files do not change it. *)
Theorem start_time_of_first_file (directory : string) (site_info : SiteInfo)
    (site_id : Z) (names pre post : list string) (f : string) (d : DataFrame) :
  let site_path := Os.path_join directory (SiteName site_info) in
  fs_dirs fs !! site_path = Some names →
  binary_files site_path names = Ok (pre ++ f :: post) →
  Forall (fun p => is_ok (file_frame fs p) = false) pre →
  file_frame fs f = Ok d →
  Pd.len d ≠ 0%nat →
  ∃ (content : list Byte.byte) (t0 : Z),
    open_rb fs f = Ok content
    ∧ earliest (map stamp (Bin.read_records content)) = Some t0
    ∧ ∀ data md,
        snd (process_site fs directory site_info site_id) = Ok (data, Some md) →
        md !! "Start Time" = Some (PyTimestamp t0).
Proof.
  intros site_path Hdir Hfiles Hpre Hf Hlen.
  destruct (file_frame_index f d Hf) as (content & Hopen & Hidx).
  destruct (earliest (map stamp (Bin.read_records content))) as [t0|] eqn:Et.
  2:{ exfalso. apply Hlen. unfold Pd.len. rewrite Hidx.
      destruct (map stamp (Bin.read_records content)); [reflexivity|discriminate]. }
  exists content, t0. split; [exact Hopen|]. split; [exact Et|].
  intros data md Hret.
  rewrite (process_site_files fs directory site_info site_id names (pre ++ f :: post))
    in Hret by (try assumption; destruct pre; discriminate).
  cbn zeta in Hret.
  destruct (summary_of _ _ _) as [md'|e] eqn:Esum; cbn [snd] in Hret; [|discriminate].
  injection Hret as _ <-.
  destruct (summary_times _ _ _ _ Esum) as [Hst _]. rewrite Hst. f_equal.
  rewrite site_loop_app, site_loop_cons.
  destruct (site_loop_times_fail site_id pre
              (locals0 [(INFO, MsgHandlingSite (SiteName site_info))]) Hpre)
    as [Hs0 _].
  assert (Hstep : start_time
            (fst (file_step fs site_id f
                    (fst (site_loop fs site_id pre
                            (locals0 [(INFO, MsgHandlingSite (SiteName site_info))])))))
          = PyTimestamp t0).
  { rewrite file_step_spec. cbn zeta. rewrite Hf.
    cbn [fst start_time after_file write_log]. rewrite Hs0. cbn [start_time locals0 truthy].
    rewrite (index_min_stamps d _ Hidx), Et. reflexivity. }
  rewrite site_loop_start_kept; rewrite Hstep; reflexivity.
Qed.

Lemma summary_fields site_info site_id vars md info :
  summary_of site_info site_id vars = Ok md →
  header_info vars = Some info →
  md !! "Rx_no." = info !! "instrument_number"
  ∧ md !! "Alt" = info !! "elevation"
  ∧ ∃ la lo slat slon,
      info !! "latitude" = Some la ∧ info !! "longitude" = Some lo
      ∧ Read_Lemi_Header.format_6f la = Ok slat
      ∧ Read_Lemi_Header.format_6f lo = Ok slon
      ∧ md !! "Lat" = Some (PyStr slat) ∧ md !! "Lon" = Some (PyStr slon).
Proof.
  unfold summary_of, site_metadata. intros Hs Hinfo. revert Hs.
  unfold mbind, M_bind, get, lift, mret, M_ret. rewrite Hinfo.
  cbn [of_option]. unfold dict_get.
  destruct (info !! "instrument_number") as [rx|]; [|discriminate]. cbn [of_option snd].
  destruct (info !! "latitude") as [la|]; [|discriminate]. cbn [of_option snd].
  destruct (Read_Lemi_Header.format_6f la) as [slat|] eqn:Ela; [|discriminate].
  destruct (info !! "longitude") as [lo|]; [|discriminate]. cbn [of_option snd].
  destruct (Read_Lemi_Header.format_6f lo) as [slon|] eqn:Elo; [|discriminate].
  destruct (info !! "elevation") as [alt|]; [|discriminate]. cbn [of_option snd].
  intros [= <-]. split; [reflexivity|]. split; [reflexivity|].
  exists la, lo, slat, slon. repeat split; assumption || reflexivity.
Qed.

(** X4.  The instrument number, latitude, longitude and altitude of the
    summary are those of the header of the last file of the sorted list,
    whether or not the data of that file could be read; Lat and Lon are
    its coordinates written with six decimals. *)
Theorem summary_from_last_header (directory : string) (site_info : SiteInfo)
    (site_id : Z) (names files : list string) (f : string)
    (data : option DataFrame) (md : dict) :
  let site_path := Os.path_join directory (SiteName site_info) in
  fs_dirs fs !! site_path = Some names →
  binary_files site_path names = Ok files →
  last files = Some f →
  snd (process_site fs directory site_info site_id) = Ok (data, Some md) →
  md !! "Rx_no." = header_of fs f !! "instrument_number"
  ∧ md !! "Alt" = header_of fs f !! "elevation"
  ∧ ∃ la lo slat slon,
      header_of fs f !! "latitude" = Some la
      ∧ header_of fs f !! "longitude" = Some lo
      ∧ Read_Lemi_Header.format_6f la = Ok slat
      ∧ Read_Lemi_Header.format_6f lo = Ok slon
      ∧ md !! "Lat" = Some (PyStr slat) ∧ md !! "Lon" = Some (PyStr slon).
Proof.
  intros site_path Hdir Hfiles Hlast Hret.
  rewrite (process_site_files fs directory site_info site_id names files)
    in Hret by (try assumption; destruct files; discriminate).
  cbn zeta in Hret.
  destruct (summary_of _ _ _) as [md'|e] eqn:Esum; cbn [snd] in Hret; [|discriminate].
  injection Hret as _ <-.
  apply (summary_fields _ _ _ _ _ Esum).
  apply site_loop_header_info. exact Hlast.
Qed.

(** X5.  [process_all_sites] keeps, in the order of the rows, the table and
    the summary of every job that returned a table, nothing of a job that
    returned [None] in place of the table (its summary is dropped too),
    and one error line for every job that raised; so there are as many
    summaries as tables. *)
Theorem batch_tables_and_summaries (csv_file : string) (rows : list (Z * SiteInfo)) :
  let jobs := run_jobs fs (Os.dirname csv_file) rows in
  process_all_sites fs csv_file (Some rows)
  = (omap job_error jobs,
     (Pd.concat_or_none (omap job_table jobs), Some (omap job_summary jobs)))
  ∧ length (omap job_summary jobs) = length (omap job_table jobs)
  ∧ length jobs = length rows.
Proof.
  cbn zeta. unfold process_all_sites. rewrite collect_fold. cbn [app].
  split; [reflexivity|]. split.
  - induction (run_jobs fs (Os.dirname csv_file) rows) as [|r rs IH]; [reflexivity|].
    cbn [omap list_omap]. destruct r as [[[df|] md]|e]; cbn; rewrite ?IH; reflexivity.
  - unfold run_jobs. apply length_map.
Qed.

End MoreSite.

(** X7.  The frame [_from_binary] returns has one row for every whole record
    after the 1024 header bytes, the nine columns tick, Bx, By, Bz, Ex,
    Ey, sync, stage, CRC (time has become the index), and its tick, sync,
    stage and CRC columns hold the raw integers of the records. *)
Theorem from_binary_shape (fs : filesystem) (self : Read_Lemi_Data.t) (df : DataFrame) :
  snd (Read_Lemi_Data._from_binary fs self) = Some df →
  ∃ content : list Byte.byte,
    open_rb fs (Read_Lemi_Data.binary_file self) = Ok content
    ∧ Pd.len df = ((length content - 1024) / 30)%nat
    ∧ dom (df_cols df)
      = {[ "tick"; "Bx"; "By"; "Bz"; "Ex"; "Ey"; "sync"; "stage"; "CRC" ]}
    ∧ df_cols df !! "time" = None
    ∧ df_cols df !! "tick" = Some (IntCol (map Bin.tick (Bin.read_records content)))
    ∧ df_cols df !! "sync" = Some (IntCol (map Bin.sync (Bin.read_records content)))
    ∧ df_cols df !! "stage" = Some (IntCol (map Bin.stage (Bin.read_records content)))
    ∧ df_cols df !! "CRC" = Some (IntCol (map Bin.CRC (Bin.read_records content))).
Proof.
  unfold Read_Lemi_Data._from_binary. rewrite from_binary_body_spec.
  destruct (open_rb fs (Read_Lemi_Data.binary_file self)) as [content|]; [|discriminate].
  cbn [mbind result_bind].
  destruct (lookup_coefficients (Read_Lemi_Data.coefficients self)) as [k|];
    [|discriminate].
  cbn [snd]. intros [= <-]. exists content. split; [reflexivity|].
  split.
  { unfold Pd.len. cbn [df_index calibrated_frame Pd.index_len].
    rewrite length_map. apply read_records_length. }
  split.
  { cbn [df_cols calibrated_frame]. rewrite !dom_insert_L, dom_empty_L. set_solver. }
  repeat split; reflexivity.
Qed.

Section MoreHeader.
Context `{PyRuntime}.

(** X9.  What [read] returns, and the object it leaves, depend on the first
    1024 bytes of the file only: two files that agree there give the same
    metadata. *)
Theorem read_uses_header_bytes_only (fs1 fs2 : filesystem)
    (self : Read_Lemi_Header.t) (c1 c2 : list Byte.byte) :
  fs_files fs1 !! Read_Lemi_Header.binary_file self = Some c1 →
  fs_files fs2 !! Read_Lemi_Header.binary_file self = Some c2 →
  firstn 1024 c1 = firstn 1024 c2 →
  Read_Lemi_Header.read fs1 self = Read_Lemi_Header.read fs2 self.
Proof.
  intros H1 H2 Heq. unfold Read_Lemi_Header.read, Read_Lemi_Header._read_header, open_rb.
  rewrite H1, H2. cbn [of_option]. rewrite Heq. reflexivity.
Qed.

End MoreHeader.

Section Coefficients.
Import Read_Lemi_Header.

Lemma coefficient_items_app (l1 l2 : list string) (acc : gmap string float) :
  coefficient_items (l1 ++ l2) acc
  = coefficient_items l1 acc ≫= coefficient_items l2.
Proof.
  revert acc. induction l1 as [|line l1 IH]; intros acc; [reflexivity|].
  cbn [app coefficient_items].
  destruct (Str.contains "=" line); [|apply IH].
  destruct (getitem (Str.split_on "=" line) 0); [|reflexivity]. cbn [mbind result_bind].
  destruct (getitem (Str.split_on "=" line) 1); [|reflexivity]. cbn [mbind result_bind].
  destruct (Num.py_float _); [|reflexivity]. cbn [mbind result_bind]. apply IH.
Qed.

Lemma coefficient_items_filter (lines : list string) (acc : gmap string float) :
  coefficient_items (List.filter (Str.contains "=") lines) acc
  = coefficient_items lines acc.
Proof.
  revert acc. induction lines as [|line lines IH]; intros acc; [reflexivity|].
  cbn [List.filter coefficient_items].
  destruct (Str.contains "=" line) eqn:E; [|apply IH].
  cbn [coefficient_items]. rewrite E.
  destruct (getitem (Str.split_on "=" line) 0); [|reflexivity]. cbn [mbind result_bind].
  destruct (getitem (Str.split_on "=" line) 1); [|reflexivity]. cbn [mbind result_bind].
  destruct (Num.py_float _); [|reflexivity]. cbn [mbind result_bind]. apply IH.
Qed.

Lemma coefficient_items_line (line : string) (acc : gmap string float) :
  coefficient_items [line] acc
  = if Str.contains "=" line then
      k ← coefficient_key line;
      v ← coefficient_value line;
      Ok (<[k := v]> acc)
    else Ok acc.
Proof.
  cbn [coefficient_items]. unfold coefficient_key, coefficient_value.
  destruct (Str.contains "=" line); [|reflexivity].
  destruct (getitem (Str.split_on "=" line) 0); [|reflexivity]. cbn [mbind result_bind].
  destruct (getitem (Str.split_on "=" line) 1); [|reflexivity]. cbn [mbind result_bind].
  destruct (Num.py_float _); reflexivity.
Qed.

Lemma coefficient_items_keep (post : list string) (acc m : gmap string float)
    (k : string) (v : float) :
  Forall (fun l => Str.contains "=" l = true → coefficient_key l ≠ Ok k) post →
  acc !! k = Some v →
  coefficient_items post acc = Ok m →
  m !! k = Some v.
Proof.
  intros Hpost. revert acc. induction Hpost as [|l post Hl Hpost IH]; intros acc Hacc.
  - cbn. intros [= <-]. exact Hacc.
  - change (l :: post) with ([l] ++ post).
    rewrite coefficient_items_app, coefficient_items_line.
    destruct (Str.contains "=" l) eqn:E; cbn [mbind result_bind]; [|apply IH; exact Hacc].
    specialize (Hl eq_refl).
    destruct (coefficient_key l) as [k'|]; [|discriminate]. cbn [mbind result_bind].
    destruct (coefficient_value l) as [v'|]; [|discriminate]. cbn [mbind result_bind].
    apply IH. rewrite lookup_insert_ne; [exact Hacc|]. congruence.
Qed.

Section Methods.
Context `{PyRuntime}.

(** X11.  The coefficients come from the header lines from index 13 on that
    contain an equals sign: the first thirteen lines and the lines without
    one play no part, and a header of thirteen lines or fewer gives the
    empty dictionary without an error. *)
Theorem coefficients_lines_that_count (s : t) :
  (∀ h1 h2 rest : list string,
     length h1 = 13%nat → length h2 = 13%nat →
     _extract_coefficients (h1 ++ rest) s
     = _extract_coefficients (h2 ++ List.filter (Str.contains "=") rest) s)
  ∧ (∀ header : list string,
       (length header <= 13)%nat →
       _extract_coefficients header s = (set_coefficients ∅ s, Ok tt)).
Proof.
  split.
  - intros h1 h2 rest H1 H2. unfold _extract_coefficients.
    assert (E1 : skipn 13 h1 = []) by (apply skipn_all2; lia).
    assert (E2 : skipn 13 h2 = []) by (apply skipn_all2; lia).
    rewrite !skipn_app, H1, H2, Nat.sub_diag, !skipn_O, E1, E2. cbn [app].
    rewrite coefficient_items_filter. reflexivity.
  - intros header Hlen. unfold _extract_coefficients.
    rewrite skipn_all2 by lia. reflexivity.
Qed.

(** X12.  When several header lines give the same coefficient, the last of
    them wins. *)
Theorem coefficient_last_line_wins (head pre post : list string) (line k : string)
    (v : float) (s s' : t) :
  length head = 13%nat →
  Str.contains "=" line = true →
  coefficient_key line = Ok k →
  coefficient_value line = Ok v →
  Forall (fun l => Str.contains "=" l = true → coefficient_key l ≠ Ok k) post →
  _extract_coefficients (head ++ pre ++ line :: post) s = (s', Ok tt) →
  coefficients s' !! k = Some v.
Proof.
  intros Hhead Hc Hk Hv Hpost. unfold _extract_coefficients.
  assert (E1 : skipn 13 head = []) by (apply skipn_all2; lia).
  rewrite skipn_app, Hhead, Nat.sub_diag, skipn_O, E1. cbn [app].
  unfold mbind, M_bind, lift, modify.
  destruct (coefficient_items (pre ++ line :: post) ∅) as [m|] eqn:E; [|discriminate].
  intros [= <-]. cbn [coefficients set_coefficients].
  change (line :: post) with ([line] ++ post) in E.
  rewrite coefficient_items_app in E.
  destruct (coefficient_items pre ∅) as [m0|]; [|discriminate]. cbn [mbind result_bind] in E.
  rewrite coefficient_items_app, coefficient_items_line, Hc, Hk, Hv in E.
  cbn [mbind result_bind] in E.
  apply (coefficient_items_keep post (<[k := v]> m0) m k v Hpost); [|exact E].
  apply lookup_insert_eq.
Qed.

End Methods.
End Coefficients.

(** ** The record fields *)

Section Ranges.
Import Bin.

Lemma length_slice (off len : nat) (bs : list Byte.byte) :
  (length (slice off len bs) <= len)%nat.
Proof. unfold slice. rewrite length_firstn. lia. Qed.

Lemma le_uint_bound (n : nat) (bs : list Byte.byte) :
  (length bs <= n)%nat → 0 <= le_uint bs < 2 ^ (8 * Z.of_nat n).
Proof.
  intros Hlen. pose proof (le_uint_range bs) as [H0 H1]. split; [exact H0|].
  eapply Z.lt_le_trans; [exact H1|].
  change 256 with (2 ^ 8). rewrite <- Z.pow_mul_r by lia.
  apply Z.pow_le_mono_r; lia.
Qed.

Lemma le_sint_bound (n : nat) (bs : list Byte.byte) :
  (0 < n)%nat → (length bs <= n)%nat →
  - 2 ^ (8 * Z.of_nat n - 1) <= le_sint bs < 2 ^ (8 * Z.of_nat n - 1).
Proof.
  intros Hn Hlen. unfold le_sint.
  destruct (length bs) as [|m] eqn:El.
  - destruct bs; [|discriminate].
    match goal with |- _ <= ?x < _ => change x with (-1) end.
    assert (0 < 2 ^ (8 * Z.of_nat n - 1)) by (apply Z.pow_pos_nonneg; lia).
    lia.
  - pose proof (le_uint_range bs) as [H0 H1]. rewrite El in H1.
    replace (256 ^ Z.of_nat (S m)) with (2 ^ (8 * Z.of_nat (S m))) in H1
      by (change 256 with (2 ^ 8); rewrite <- Z.pow_mul_r by lia; reflexivity).
    assert (Hp : 2 ^ (8 * Z.of_nat (S m)) = 2 * 2 ^ (8 * Z.of_nat (S m) - 1)).
    { rewrite <- Z.pow_succ_r by lia. f_equal. lia. }
    assert (Hm : 2 ^ (8 * Z.of_nat (S m) - 1) <= 2 ^ (8 * Z.of_nat n - 1)).
    { apply Z.pow_le_mono_r; lia. }
    assert (0 < 2 ^ (8 * Z.of_nat (S m) - 1)) by (apply Z.pow_pos_nonneg; lia).
    destruct (Z.ltb_spec (le_uint bs) (2 ^ (8 * Z.of_nat (S m) - 1))); lia.
Qed.

Lemma decode_record_in_range (bs : list Byte.byte) : in_range (decode_record bs).
Proof.
  unfold in_range, decode_record. cbn [time tick Bx By Bz Ex Ey sync stage CRC].
  pose proof (le_uint_bound 4 _ (length_slice 0 4 bs)).
  pose proof (le_uint_bound 2 _ (length_slice 4 2 bs)).
  pose proof (le_sint_bound 4 _ ltac:(lia) (length_slice 6 4 bs)).
  pose proof (le_sint_bound 4 _ ltac:(lia) (length_slice 10 4 bs)).
  pose proof (le_sint_bound 4 _ ltac:(lia) (length_slice 14 4 bs)).
  pose proof (le_sint_bound 4 _ ltac:(lia) (length_slice 18 4 bs)).
  pose proof (le_sint_bound 4 _ ltac:(lia) (length_slice 22 4 bs)).
  pose proof (le_sint_bound 1 _ ltac:(lia) (length_slice 26 1 bs)).
  pose proof (le_uint_bound 1 _ (length_slice 27 1 bs)).
  pose proof (le_sint_bound 2 _ ltac:(lia) (length_slice 28 2 bs)).
  repeat split; lia.
Qed.

End Ranges.

(** X8.  Every record read from a file, whatever its bytes, has each field
    within the range of its type (u4, u2, i4, b, B, i2), and so a
    timestamp from the epoch up to 2^32 + 66 seconds after it. *)
Theorem records_in_range (content : list Byte.byte) :
  Forall in_range (Bin.read_records content)
  ∧ Forall (fun t => 0 <= t < (2 ^ 32 + 66) * 1000000000)
      (map stamp (Bin.read_records content)).
Proof.
  assert (Hall : Forall in_range (Bin.read_records content)).
  { unfold Bin.read_records, Bin.fromfile. apply Forall_map, Forall_forall.
    intros i _. apply decode_record_in_range. }
  split; [exact Hall|]. apply Forall_map. eapply Forall_impl; [exact Hall|].
  intros r (Ht & Hk & _). unfold stamp. cbn beta. lia.
Qed.

(** ** The size of the pool *)


Section PartialRead.
Import Read_Lemi_Header.
Context `{PyRuntime}.
Variable fs : filesystem.

Lemma coordinates_keep header s :
  instrument_number (fst (_extract_coordinates header s)) = instrument_number s
  ∧ deployment_time (fst (_extract_coordinates header s)) = deployment_time s
  ∧ coefficients (fst (_extract_coordinates header s)) = coefficients s.
Proof. unfold _extract_coordinates. run_M; cbn; auto. Qed.

Lemma deployment_keep header s :
  instrument_number (fst (_extract_deployment_time header s)) = instrument_number s.
Proof. unfold _extract_deployment_time. run_M; reflexivity. Qed.

(** X10.  When the instrument number, the deployment time and the
    coefficients are extracted and the coordinates then fail, [read]
    returns the empty dictionary but the reader object keeps the three
    attributes already set: a failed [read] is not undone. *)
Theorem failed_read_leaves_attributes (self s1 s2 : t) (items : gmap string float) :
  let header := _read_header fs self in
  header ≠ [] →
  _extract_instrument_number header self = (s1, Ok tt) →
  _extract_deployment_time header s1 = (s2, Ok tt) →
  coefficient_items (skipn 13 header) ∅ = Ok items →
  is_ok (snd (_extract_coordinates header (set_coefficients items s2))) = false →
  snd (read fs self) = ∅
  ∧ instrument_number (fst (read fs self)) = instrument_number s1
  ∧ deployment_time (fst (read fs self)) = deployment_time s2
  ∧ coefficients (fst (read fs self)) = items.
Proof.
  cbn zeta. intros Hne H1 H2 H3 H4.
  set (header := _read_header fs self) in *.
  set (s3 := set_coefficients items s2) in *.
  assert (Hbody : ∃ e, read_body header self
                       = (fst (_extract_coordinates header s3), Raise e)).
  { unfold read_body. unfold mbind at 1, M_bind at 1. rewrite H1.
    unfold mbind at 1, M_bind at 1. rewrite H2.
    unfold mbind at 1, M_bind at 1.
    unfold _extract_coefficients. unfold mbind at 1, M_bind at 1, lift at 1.
    rewrite H3. unfold modify at 1. fold s3.
    unfold mbind at 1, M_bind at 1.
    destruct (_extract_coordinates header s3) as [s4 [[]|e]]; [discriminate|].
    exists e. reflexivity. }
  destruct Hbody as [e Hbody].
  assert (Hread : read fs self = (fst (_extract_coordinates header s3), ∅)).
  { unfold read. fold header. destruct header as [|l ls] eqn:Eh; [congruence|].
    rewrite Hbody. reflexivity. }
  rewrite Hread. cbn [fst snd].
  destruct (coordinates_keep header s3) as (K1 & K2 & K3).
  rewrite K1, K2, K3. unfold s3. cbn [set_coefficients instrument_number
    deployment_time coefficients].
  rewrite <- (deployment_keep header s1), H2. repeat split; reflexivity.
Qed.

End PartialRead.

(** ** The table of a site *)

Lemma trimmed_calibrated (site_id : Z) (rs : list Bin.RawRecord) (k : Coefficients) :
  site_frame site_id (trimmed site_id (calibrated_frame rs k)).
Proof.
  unfold site_frame, trimmed, Pd.set_scalar, Pd.setcol, Pd.drop_columns, Pd.len.
  cbn [df_index df_cols calibrated_frame fold_right].
  split; [eexists; reflexivity|]. split; [|apply lookup_insert_eq].
  rewrite dom_insert_L, !dom_delete_L, !dom_insert_L, dom_empty_L.
  unfold site_columns. set_solver.
Qed.

Lemma dom_concat2 (a b : DataFrame) :
  dom (df_cols (Pd.concat2 a b)) = dom (df_cols a) ∪ dom (df_cols b).
Proof.
  unfold Pd.concat2. cbn [df_cols]. apply set_eq. intros x.
  rewrite elem_of_union, !elem_of_dom, lookup_union_with.
  destruct (df_cols a !! x), (df_cols b !! x); cbn; rewrite ?is_Some_alt; tauto.
Qed.

Lemma concat2_site_frame (site_id : Z) (a b : DataFrame) :
  site_frame site_id a → site_frame site_id b →
  site_frame site_id (Pd.concat2 a b).
Proof.
  intros ([la Ha] & Hda & Hia) ([lb Hb] & Hdb & Hib).
  unfold site_frame. rewrite dom_concat2, Hda, Hdb.
  unfold Pd.concat2, Pd.len in *. cbn [df_index df_cols].
  rewrite Ha, Hb in *. cbn [Pd.app_index Pd.index_len] in *.
  split; [eexists; reflexivity|]. split; [set_solver|].
  rewrite lookup_union_with, Hia, Hib. cbn.
  rewrite length_app, repeat_app. reflexivity.
Qed.

Lemma concat_site_frame (site_id : Z) (ds : list DataFrame) (d df : DataFrame) :
  Forall (site_frame site_id) (d :: ds) →
  Pd.concat_or_none (d :: ds) = Some df →
  site_frame site_id df.
Proof.
  cbn [Pd.concat_or_none]. intros Hall [= <-]. inversion Hall as [|? ? Hd Hds]; subst.
  clear Hall. revert d Hd. induction Hds as [|x ds Hx Hds IH]; intros d Hd; [exact Hd|].
  cbn [fold_left]. apply IH. apply concat2_site_frame; assumption.
Qed.

Section SiteTable.
Context `{PyRuntime}.
Variable fs : filesystem.

Lemma all_data_site_frames (site_id : Z) (files : list string) :
  Forall (site_frame site_id)
    (omap (fun f => match file_frame fs f with
                    | Ok d => Some (trimmed site_id d)
                    | Raise _ => None
                    end) files).
Proof.
  induction files as [|f files IH]; [constructor|].
  cbn [omap list_omap]. destruct (file_frame fs f) as [d|] eqn:Ef; [|exact IH].
  constructor; [|exact IH].
  destruct (file_frame_calibrated fs f d Ef) as (content & k & _ & ->).
  apply trimmed_calibrated.
Qed.

(** X6.  The table a site job returns is indexed by time and has exactly the
    columns Bx, By, Ex, Ey and site_id: Bz and the raw tick, sync, stage
    and CRC columns are gone, and every row carries the id of the site. *)
Theorem site_table_columns (directory : string) (site_info : SiteInfo)
    (site_id : Z) (df : DataFrame) (md : option dict) :
  snd (process_site fs directory site_info site_id) = Ok (Some df, md) →
  dom (df_cols df) = site_columns
  ∧ df_cols df !! "Bz" = None
  ∧ df_cols df !! "site_id" = Some (IntCol (repeat site_id (Pd.len df)))
  ∧ ∃ stamps, df_index df = DatetimeIndex stamps.
Proof.
  intros Hret.
  cut (site_frame site_id df).
  { intros (Hidx & Hdom & Hid). split; [exact Hdom|]. split; [|split; assumption].
    apply not_elem_of_dom. rewrite Hdom. unfold site_columns.
    rewrite !not_elem_of_union, !not_elem_of_singleton. repeat split; discriminate. }
  revert Hret. unfold process_site.
  destruct (fs_dirs fs !! Os.path_join directory (SiteName site_info))
    as [names|] eqn:Hdir; [|discriminate].
  destruct (binary_files (Os.path_join directory (SiteName site_info)) names)
    as [files|] eqn:Hfiles; [|discriminate].
  destruct files as [|f files]; [discriminate|].
  intros Hret.
  pose proof (process_site_files fs directory site_info site_id names (f :: files)
                Hdir Hfiles ltac:(discriminate)) as Hps.
  unfold process_site in Hps. rewrite Hdir, Hfiles in Hps. rewrite Hps in Hret.
  cbn zeta in Hret.
  destruct (summary_of _ _ _); cbn [snd] in Hret; [|discriminate].
  injection Hret as Hdata _.
  rewrite site_loop_all_data in Hdata. cbn [all_data locals0 app] in Hdata.
  pose proof (all_data_site_frames site_id (f :: files)) as Hall.
  destruct (omap _ (f :: files)) as [|d ds]; [discriminate|].
  apply (concat_site_frame site_id ds d df Hall Hdata).
Qed.

End SiteTable.

Lemma ok_eta {A} (a0 : A) (r : result A) :
  is_ok r = true → r = Ok (value_or a0 r).
Proof. destruct r; [reflexivity|discriminate]. Qed.

Lemma summary_eta (r : result (option DataFrame * option dict)) :
  has_summary r = true → r = Ok (job_data r, Some (job_dict r)).
Proof. destruct r as [[data [md|]]|]; try discriminate. reflexivity. Qed.

Lemma table_eta (r : result (option DataFrame * option dict)) :
  yields_table r = true →
  r = Ok (Some (default (Pd.of_records []) (job_data r)),
          snd (value_or (None, None) r)).
Proof. destruct r as [[[df|] md]|]; try discriminate. reflexivity. Qed.

Import Sample MoreSample.

(** The first of the two files starts at 1720000000 s. *)
Lemma start_time_of_first_file_witness :
  ∃ (content : list Byte.byte) (t0 : Z),
    open_rb two_files "base/S1/1720000000.B423" = Ok content
    ∧ earliest (map stamp (Bin.read_records content)) = Some t0
    ∧ t0 = 1720000000000000000.
Proof.
  destruct (@start_time_of_first_file runtime two_files "base" (site "S1") 0
              ["1720003600.B423"; "1720000000.B423"] []
              ["base/S1/1720003600.B423"] "base/S1/1720000000.B423"
              (value_or (Pd.of_records [])
                 (@file_frame runtime two_files "base/S1/1720000000.B423")))
    as (content & t0 & Hopen & Ht & _).
  - vm_compute. reflexivity.
  - vm_compute. reflexivity.
  - constructor.
  - apply ok_eta. vm_compute. reflexivity.
  - vm_compute. discriminate.
  - exists content, t0. split; [exact Hopen|]. split; [exact Ht|].
    assert (E : open_rb two_files "base/S1/1720000000.B423" = Ok good_file)
      by (vm_compute; reflexivity).
    rewrite E in Hopen. injection Hopen as <-.
    assert (E2 : earliest (map stamp (Bin.read_records good_file))
                 = Some 1720000000000000000) by (vm_compute; reflexivity).
    congruence.
Defined.

(** The second of the two files ends a quarter of a second after
    1720003600 s. *)
Lemma finish_time_of_last_file_witness :
  ∃ content : list Byte.byte,
    open_rb two_files "base/S1/1720003600.B423" = Ok content
    ∧ latest (map stamp (Bin.read_records content)) = Some 1720003600250000000.
Proof.
  destruct (@finish_time_of_last_file runtime two_files "base" (site "S1") 0
              ["1720003600.B423"; "1720000000.B423"]
              ["base/S1/1720000000.B423"] [] "base/S1/1720003600.B423"
              (value_or (Pd.of_records [])
                 (@file_frame runtime two_files "base/S1/1720003600.B423")))
    as (content & Hopen & _).
  - vm_compute. reflexivity.
  - vm_compute. reflexivity.
  - apply ok_eta. vm_compute. reflexivity.
  - constructor.
  - exists content. split; [exact Hopen|].
    assert (E : open_rb two_files "base/S1/1720003600.B423" = Ok later_file)
      by (vm_compute; reflexivity).
    rewrite E in Hopen. injection Hopen as <-.
    vm_compute. reflexivity.
Defined.

(** The summary of the two files carries instrument number 123. *)
Lemma summary_from_last_header_witness :
  job_dict (snd (@process_site runtime two_files "base" (site "S1") 0)) !! "Rx_no."
  = @header_of runtime two_files "base/S1/1720003600.B423" !! "instrument_number"
  ∧ @header_of runtime two_files "base/S1/1720003600.B423" !! "instrument_number"
    = Some (PyInt 123).
Proof.
  destruct (@summary_from_last_header runtime two_files "base" (site "S1") 0
              ["1720003600.B423"; "1720000000.B423"]
              ["base/S1/1720000000.B423"; "base/S1/1720003600.B423"]
              "base/S1/1720003600.B423"
              (job_data (snd (@process_site runtime two_files "base" (site "S1") 0)))
              (job_dict (snd (@process_site runtime two_files "base" (site "S1") 0))))
    as (Hrx & _).
  - vm_compute. reflexivity.
  - vm_compute. reflexivity.
  - reflexivity.
  - apply summary_eta. vm_compute. reflexivity.
  - split; [exact Hrx|]. vm_compute. reflexivity.
Defined.

(** The table of the two files has the five columns. *)
Lemma site_table_columns_witness :
  dom (df_cols (default (Pd.of_records [])
                  (job_data (snd (@process_site runtime two_files "base"
                                    (site "S1") 0)))))
  = site_columns.
Proof.
  destruct (@site_table_columns runtime two_files "base" (site "S1") 0
              (default (Pd.of_records [])
                 (job_data (snd (@process_site runtime two_files "base"
                                   (site "S1") 0))))
              (snd (value_or (None, None)
                      (snd (@process_site runtime two_files "base" (site "S1") 0)))))
    as (Hdom & _).
  - apply table_eta. vm_compute. reflexivity.
  - exact Hdom.
Defined.

(** The good file holds three whole records. *)
Lemma from_binary_shape_witness :
  ∃ content : list Byte.byte,
    open_rb one_file "f.B423" = Ok content
    ∧ Pd.len (default (Pd.of_records [])
                (snd (Read_Lemi_Data._from_binary one_file
                        (Read_Lemi_Data.init "f.B423" (PyDict coeffs)))))
      = ((length content - 1024) / 30)%nat
    ∧ ((length good_file - 1024) / 30 = 3)%nat.
Proof.
  destruct (from_binary_shape one_file
              (Read_Lemi_Data.init "f.B423" (PyDict coeffs))
              (default (Pd.of_records [])
                 (snd (Read_Lemi_Data._from_binary one_file
                         (Read_Lemi_Data.init "f.B423" (PyDict coeffs))))))
    as (content & Hopen & Hlen & _).
  - destruct (snd (Read_Lemi_Data._from_binary one_file
                     (Read_Lemi_Data.init "f.B423" (PyDict coeffs)))) eqn:E;
      [reflexivity|].
    exfalso. revert E. vm_compute. discriminate.
  - exists content. split; [exact Hopen|]. split; [exact Hlen|].
    vm_compute. reflexivity.
Defined.

(** The records after the header do not change what [read] returns. *)
Lemma read_uses_header_bytes_only_witness :
  @Read_Lemi_Header.read runtime one_file (Read_Lemi_Header.init "f.B423")
  = @Read_Lemi_Header.read runtime header_only (Read_Lemi_Header.init "f.B423").
Proof.
  apply (@read_uses_header_bytes_only runtime one_file header_only
           (Read_Lemi_Header.init "f.B423") good_file good_header).
  - vm_compute. reflexivity.
  - vm_compute. reflexivity.
  - vm_compute. reflexivity.
Defined.

(** With no number in the latitude field, [read] returns the empty
    dictionary and leaves instrument number 123 on the object. *)
Lemma failed_read_leaves_attributes_witness :
  snd (@Read_Lemi_Header.read runtime no_latitude (Read_Lemi_Header.init "f.B423")) = ∅
  ∧ Read_Lemi_Header.instrument_number
      (fst (@Read_Lemi_Header.read runtime no_latitude
              (Read_Lemi_Header.init "f.B423"))) = PyInt 123.
Proof.
  pose (self := Read_Lemi_Header.init "f.B423").
  pose (header := @Read_Lemi_Header._read_header runtime no_latitude self).
  pose (s1 := fst (Read_Lemi_Header._extract_instrument_number header self)).
  pose (s2 := fst (@Read_Lemi_Header._extract_deployment_time runtime header s1)).
  destruct (@failed_read_leaves_attributes runtime no_latitude self s1 s2 coeffs)
    as (Hmd & Hin & _).
  - vm_compute. discriminate.
  - vm_compute. reflexivity.
  - vm_compute. reflexivity.
  - vm_compute. reflexivity.
  - vm_compute. reflexivity.
  - split; [exact Hmd|]. etransitivity; [exact Hin|]. vm_compute. reflexivity.
Defined.

(** Kmx given as 1 and then as 2 is 2. *)
Lemma coefficient_last_line_wins_witness :
  Read_Lemi_Header.coefficients
    (fst (Read_Lemi_Header._extract_coefficients kmx_twice
            (Read_Lemi_Header.init "f.B423"))) !! "Kmx"
  = Some (Num.of_Z 2).
Proof.
  apply (coefficient_last_line_wins (repeat "%" 13) ["%Kmx = 1"] ["%end"]
           "%Kmx = 2" "Kmx" (Num.of_Z 2) (Read_Lemi_Header.init "f.B423")).
  - reflexivity.
  - vm_compute. reflexivity.
  - vm_compute. reflexivity.
  - vm_compute. reflexivity.
  - constructor; [|constructor]. intros Hc. vm_compute in Hc. discriminate.
  - vm_compute. reflexivity.
Defined.


(** ** Paths and sort keys *)

Section Paths.

Lemma split_on_nonempty (sep : ascii) (s : string) : Str.split_on sep s ≠ [].
Proof.
  destruct s as [|c s]; cbn [Str.split_on]; [discriminate|].
  destruct (Ascii.eqb c sep); [discriminate|].
  destruct (Str.split_on sep s); discriminate.
Qed.

Lemma split_on_app (sep : ascii) (s t : string) :
  Str.split_on sep (s +:+ String sep t) = Str.split_on sep s ++ Str.split_on sep t.
Proof.
  induction s as [|c s IH].
  - change ("" +:+ String sep t) with (String sep t).
    cbn [Str.split_on app]. rewrite Ascii.eqb_refl. reflexivity.
  - change (String c s +:+ String sep t) with (String c (s +:+ String sep t)).
    cbn [Str.split_on]. rewrite IH.
    destruct (Ascii.eqb c sep); [reflexivity|].
    pose proof (split_on_nonempty sep s) as Hne.
    destruct (Str.split_on sep s) as [|x xs]; [congruence|]. reflexivity.
Qed.

Lemma split_on_none (sep : ascii) (s : string) :
  Str.contains sep s = false → Str.split_on sep s = [s].
Proof.
  induction s as [|c s IH]; [reflexivity|].
  cbn [Str.contains Str.split_on]. intros Hc.
  apply orb_false_elim in Hc as [Hc1 Hc2]. rewrite Hc1, (IH Hc2). reflexivity.
Qed.

Lemma last_split_on_app (sep : ascii) (s t : string) :
  Str.contains sep t = false →
  last (Str.split_on sep (s +:+ String sep t)) = Some t.
Proof.
  intros Hc. rewrite split_on_app, (split_on_none sep t Hc), last_snoc. reflexivity.
Qed.

Lemma take_drop (n : nat) (s : string) : Str.take n s +:+ Str.drop n s = s.
Proof.
  revert s. induction n as [|n IH]; intros s; [destruct s; reflexivity|].
  destruct s as [|c s]; [reflexivity|]. cbn [Str.take Str.drop].
  change (String c (Str.take n s) +:+ Str.drop n s)
    with (String c (Str.take n s +:+ Str.drop n s)).
  rewrite IH. reflexivity.
Qed.

Lemma append_assoc (a b c : string) : (a +:+ b) +:+ c = a +:+ (b +:+ c).
Proof.
  induction a as [|x a IH]; [reflexivity|].
  change ((String x a +:+ b) +:+ c) with (String x ((a +:+ b) +:+ c)).
  rewrite IH. reflexivity.
Qed.

Lemma endswith_slash (a : string) :
  Str.endswith "/" a = true → ∃ a', a = a' +:+ "/".
Proof.
  unfold Str.endswith. intros Hend. apply andb_prop in Hend as [Heq _].
  apply String.eqb_eq in Heq.
  exists (Str.take (String.length a - String.length "/") a).
  rewrite <- Heq at 2. symmetry. apply take_drop.
Qed.

Lemma basename_join (a b : string) :
  Str.contains "/" b = false → Os.basename (Os.path_join a b) = b.
Proof.
  intros Hc. unfold Os.basename, Os.path_join.
  destruct (Str.startswith_char "/" b) eqn:Hs.
  { destruct b as [|c b]; [discriminate|]. cbn in Hs, Hc. rewrite Hs in Hc. discriminate. }
  destruct (Str.is_empty a) eqn:Ha.
  { destruct a; [|discriminate]. cbn [orb]. change ("" +:+ b) with b.
    rewrite (split_on_none _ _ Hc). reflexivity. }
  cbn [orb]. destruct (Str.endswith "/" a) eqn:He.
  - destruct (endswith_slash a He) as [a' ->]. rewrite append_assoc.
    change ("/" +:+ b) with (String "/" b).
    rewrite (last_split_on_app "/" a' b Hc). reflexivity.
  - change ("/" +:+ b) with (String "/" b).
    rewrite (last_split_on_app "/" a b Hc). reflexivity.
Qed.

End Paths.

(** X15.  The sort key of a file is the integer before the first dot of its
    name: the directory it is joined to plays no part, whatever dots or
    digits its path holds. *)
Theorem file_key_ignores_directory (site_path name : string) :
  Str.contains "/" name = false →
  file_key (Os.path_join site_path name) = file_key name
  ∧ file_key name
    = (prefix ← getitem (Str.split_on "." name) 0; Num.py_int prefix).
Proof.
  intros Hc. unfold file_key. rewrite (basename_join site_path name Hc).
  pose proof (basename_join "" name Hc) as Hb.
  assert (Hj : Os.path_join "" name = name).
  { unfold Os.path_join. destruct (Str.startswith_char "/" name); reflexivity. }
  rewrite Hj in Hb. rewrite Hb. split; reflexivity.
Qed.

(** A directory with dots and digits in its name leaves the key alone. *)
Lemma file_key_ignores_directory_witness :
  file_key (Os.path_join "data.v2/12.site" "1720000000.B423") = Ok 1720000000.
Proof.
  destruct (file_key_ignores_directory "data.v2/12.site" "1720000000.B423")
    as [Hk _]; [reflexivity|].
  rewrite Hk. vm_compute. reflexivity.
Defined.

(** ** Rounding in binary64 *)

Module RoundingFacts.
Import SpecFloat FloatOps Rounding.

Lemma val_shift (m e k : Z) :
  0 <= k → -3000 <= e → val (m * 2 ^ k) e = val m (e + k).
Proof.
  intros Hk He. unfold val.
  replace (e + k + 3000) with (k + (e + 3000)) by lia.
  rewrite (Z.pow_add_r 2 k (e + 3000)) by lia. ring.
Qed.

Lemma val_mono_l (m1 m2 e : Z) : -3000 <= e → m1 <= m2 → val m1 e <= val m2 e.
Proof.
  intros He Hm. unfold val. apply Z.mul_le_mono_nonneg_r; [|exact Hm].
  apply Z.pow_nonneg. lia.
Qed.

Lemma val_lt_inv (m1 m2 e : Z) : -3000 <= e → val m1 e < val m2 e → m1 < m2.
Proof.
  intros He H. unfold val in H.
  assert (0 < 2 ^ (e + 3000)) by (apply Z.pow_pos_nonneg; lia). nia.
Qed.

Lemma val_le_inv (m1 m2 e : Z) : -3000 <= e → val m1 e <= val m2 e → m1 <= m2.
Proof.
  intros He H. unfold val in H.
  assert (0 < 2 ^ (e + 3000)) by (apply Z.pow_pos_nonneg; lia). nia.
Qed.

(** *** Digits *)

Lemma digits2_pos_bounds (p : positive) :
  2 ^ (Zpos (digits2_pos p) - 1) <= Zpos p < 2 ^ Zpos (digits2_pos p).
Proof.
  induction p as [p IH|p IH|]; cbn [digits2_pos].
  - rewrite Pos2Z.inj_succ.
    replace (Z.succ (Zpos (digits2_pos p)) - 1) with (Z.succ (Zpos (digits2_pos p) - 1)) by lia.
    rewrite !Z.pow_succ_r by lia. lia.
  - rewrite Pos2Z.inj_succ.
    replace (Z.succ (Zpos (digits2_pos p)) - 1) with (Z.succ (Zpos (digits2_pos p) - 1)) by lia.
    rewrite !Z.pow_succ_r by lia. lia.
  - cbn. lia.
Qed.

(** A larger value has at least as many digits above the binary point. *)
Lemma digits_le (m1 m2 : positive) (e1 e2 : Z) :
  -3000 <= e1 → -3000 <= e2 →
  val (Zpos m1) e1 <= val (Zpos m2) e2 →
  Zpos (digits2_pos m1) + e1 <= Zpos (digits2_pos m2) + e2.
Proof.
  intros He1 He2 Hle. unfold val in Hle.
  pose proof (digits2_pos_bounds m1) as [Hl1 _].
  pose proof (digits2_pos_bounds m2) as [_ Hu2].
  assert (H1 : 2 ^ (Zpos (digits2_pos m1) - 1 + (e1 + 3000)) <= Zpos m1 * 2 ^ (e1 + 3000)).
  { rewrite Z.pow_add_r by lia. apply Z.mul_le_mono_nonneg_r; [apply Z.pow_nonneg; lia|exact Hl1]. }
  assert (H2 : Zpos m2 * 2 ^ (e2 + 3000) < 2 ^ (Zpos (digits2_pos m2) + (e2 + 3000))).
  { rewrite (Z.pow_add_r 2 (Zpos (digits2_pos m2))) by lia. apply Z.mul_lt_mono_pos_r; [apply Z.pow_pos_nonneg; lia|exact Hu2]. }
  assert (H3 : 2 ^ (Zpos (digits2_pos m1) - 1 + (e1 + 3000)) < 2 ^ (Zpos (digits2_pos m2) + (e2 + 3000))) by lia.
  destruct (Z.lt_ge_cases (Zpos (digits2_pos m1) - 1 + (e1 + 3000)) (Zpos (digits2_pos m2) + (e2 + 3000))) as [Hlt|Hge]; [lia|].
  apply (Z.pow_le_mono_r 2) in Hge; lia.
Qed.

(** *** Shifting right *)

Lemma shifted_0 (mrs : shr_record) : shifted 0 mrs mrs.
Proof.
  intros _. change (2 ^ 0) with 1. rewrite Z.div_1_r, Z.mul_1_r. tauto.
Qed.

Lemma shifted_1 (mrs : shr_record) : shifted 1 mrs (shr_1 mrs).
Proof.
  destruct mrs as [m r s]. unfold shifted, exact. cbn [shr_m shr_r shr_s].
  intros Hm. change (2 ^ 1) with 2.
  destruct m as [|p|p]; [| |lia].
  - cbn. split; [reflexivity|]. destruct r, s; cbn; intuition congruence.
  - destruct p as [p|p|]; cbn [shr_1 shr_m shr_r shr_s].
    + split; [|split; [intros [Hr _]; discriminate|intros [_ Hp]; lia]].
      rewrite Pos2Z.inj_xI. apply (Z.div_unique _ _ _ 1); lia.
    + split.
      * rewrite Pos2Z.inj_xO. apply (Z.div_unique _ _ _ 0); lia.
      * destruct r, s; cbn; split; intros [H1 H2]; try discriminate;
          try (destruct H1; discriminate); (split; [auto|lia]).
    + split; [reflexivity|]. split; [intros [Hr _]; discriminate|intros [_ Hp]; lia].
Qed.

Lemma shifted_trans (a b : Z) (x y z : shr_record) :
  0 <= a → 0 <= b → shifted a x y → shifted b y z → shifted (a + b) x z.
Proof.
  intros Ha Hb Hxy Hyz Hx. destruct (Hxy Hx) as [Hy Hey].
  assert (Ha2 : 0 < 2 ^ a) by (apply Z.pow_pos_nonneg; lia).
  assert (Hb2 : 0 < 2 ^ b) by (apply Z.pow_pos_nonneg; lia).
  assert (Hy0 : 0 <= shr_m y) by (rewrite Hy; apply Z.div_pos; lia).
  destruct (Hyz Hy0) as [Hz Hez].
  assert (Hz' : shr_m z = shr_m x / 2 ^ (a + b)).
  { rewrite Hz, Hy, Z.pow_add_r, Z.div_div by lia. reflexivity. }
  split; [exact Hz'|]. rewrite Hez, Hey. rewrite Z.pow_add_r by lia. split.
  - intros [[Hx' Hxm] Hym]. split; [exact Hx'|]. rewrite Hxm, Hym. ring.
  - intros [Hx' Hxm].
    assert (Hym : shr_m y = shr_m z * 2 ^ b).
    { rewrite Hy. rewrite Hxm at 1.
      replace (shr_m z * (2 ^ a * 2 ^ b)) with (shr_m z * 2 ^ b * 2 ^ a) by ring.
      apply Z.div_mul. lia. }
    split; [split; [exact Hx'|]|exact Hym].
    rewrite Hym. rewrite Hxm at 1. ring.
Qed.

Lemma shifted_iter (n : positive) (mrs : shr_record) :
  shifted (Zpos n) mrs (iter_pos shr_1 n mrs).
Proof.
  revert mrs. induction n as [n IH|n IH|]; intros mrs; cbn [iter_pos].
  - replace (Zpos n~1) with (1 + (Zpos n + Zpos n)) by lia.
    eapply shifted_trans; [lia|lia|apply shifted_1|].
    eapply shifted_trans; [lia|lia|apply IH|apply IH].
  - replace (Zpos n~0) with (Zpos n + Zpos n) by lia.
    eapply shifted_trans; [lia|lia|apply IH|apply IH].
  - apply shifted_1.
Qed.

(** *** The exponent function of binary64 *)

Lemma fexp_eq (e : Z) : fexp e = Z.max (e - 53) (-1074).
Proof. reflexivity. Qed.

Lemma fexp_mono (a b : Z) : a <= b → fexp a <= fexp b.
Proof. rewrite !fexp_eq. lia. Qed.

Lemma bounded_inv (m : positive) (e : Z) :
  bounded prec emax m e = true →
  fexp (Zpos (digits2_pos m) + e) = e ∧ e <= 971 ∧ -1074 <= e.
Proof.
  unfold bounded, canonical_mantissa. intros H.
  apply andb_prop in H as [H1 H2].
  apply Z.eqb_eq in H1. apply Z.leb_le in H2.
  change (SpecFloat.fexp prec emax (Zpos (digits2_pos m) + e)) with
    (fexp (Zpos (digits2_pos m) + e)) in H1.
  change (emax - prec) with 971 in H2.
  split; [exact H1|]. split; [exact H2|]. rewrite fexp_eq in H1. lia.
Qed.

Lemma shr_record_of_loc_m (m : Z) (l : location) : shr_m (shr_record_of_loc m l) = m.
Proof. destruct l as [|[| |]]; reflexivity. Qed.

Lemma shr_record_of_loc_exact (m : Z) (l : location) :
  exact (shr_record_of_loc m l) ↔ l = loc_Exact.
Proof. unfold exact. destruct l as [|[| |]]; cbn; intuition congruence. Qed.

Lemma loc_of_shr_record_exact (mrs : shr_record) :
  loc_of_shr_record mrs = loc_Exact ↔ exact mrs.
Proof. unfold exact. destruct mrs as [m [|] [|]]; cbn; intuition congruence. Qed.

Lemma shr_fexp_spec (mx ex : Z) (lx : location) :
  snd (shr_fexp prec emax mx ex lx) = Z.max ex (fexp (Zdigits2 mx + ex))
  ∧ shifted (Z.max ex (fexp (Zdigits2 mx + ex)) - ex)
      (shr_record_of_loc mx lx) (fst (shr_fexp prec emax mx ex lx)).
Proof.
  unfold shr_fexp, shr.
  change (SpecFloat.fexp prec emax (Zdigits2 mx + ex)) with (fexp (Zdigits2 mx + ex)).
  destruct (fexp (Zdigits2 mx + ex) - ex) as [|p|p] eqn:E; cbn [fst snd].
  - replace (Z.max ex (fexp (Zdigits2 mx + ex))) with ex by lia.
    split; [reflexivity|]. rewrite Z.sub_diag. apply shifted_0.
  - replace (Z.max ex (fexp (Zdigits2 mx + ex))) with (ex + Zpos p) by lia.
    split; [reflexivity|]. replace (ex + Zpos p - ex) with (Zpos p) by lia.
    apply shifted_iter.
  - replace (Z.max ex (fexp (Zdigits2 mx + ex))) with ex by lia.
    split; [reflexivity|]. rewrite Z.sub_diag. apply shifted_0.
Qed.

Lemma round_nearest_even_bounds (m : Z) (l : location) :
  m <= round_nearest_even m l <= m + 1
  ∧ (l = loc_Exact → round_nearest_even m l = m).
Proof.
  destruct l as [|[| |]]; cbn; try destruct (Z.even m); split; try lia;
    intros; congruence.
Qed.

(** *** Rounding never crosses a representable bound *)

Lemma round_aux_le (sx : bool) (mx ex : Z) (lx : location) (K : positive) (eK : Z) :
  0 <= mx → -3000 <= ex → ex <= eK →
  bounded prec emax K eK = true →
  val mx ex <= val (Zpos K) eK →
  (lx ≠ loc_Exact → val mx ex < val (Zpos K) eK) →
  below sx K eK (binary_round_aux prec emax sx mx ex lx).
Proof.
  intros Hmx Hex HeK HK Hle Hlt.
  apply bounded_inv in HK as (HcK & HeK1 & HeK2).
  unfold binary_round_aux.
  pose proof (shr_fexp_spec mx ex lx) as [He' Hsh].
  destruct (shr_fexp prec emax mx ex lx) as [mrs' e']. cbn [fst snd] in He', Hsh.
  set (n := e' - ex) in *.
  assert (Hn : 0 <= n) by lia.
  assert (Hn2 : 0 < 2 ^ n) by (apply Z.pow_pos_nonneg; lia).
  rewrite <- He' in Hsh. fold n in Hsh.
  destruct Hsh as [Hm' Hex'].
  { rewrite shr_record_of_loc_m. exact Hmx. }
  rewrite shr_record_of_loc_m in Hm', Hex'.
  rewrite shr_record_of_loc_exact in Hex'.
  assert (He'K : e' <= eK).
  { rewrite He'. apply Z.max_lub; [exact HeK|].
    destruct mx as [|p|p]; [| |lia].
    - cbn [Zdigits2]. rewrite fexp_eq. lia.
    - cbn [Zdigits2]. rewrite <- HcK. apply fexp_mono.
      apply digits_le; [lia|lia|exact Hle]. }
  assert (He'3 : -3000 <= e') by lia.
  set (K' := Zpos K * 2 ^ (eK - e')).
  assert (HK' : val (Zpos K) eK = val K' e').
  { unfold K'. rewrite val_shift by lia. f_equal. lia. }
  assert (Hm'0 : 0 <= shr_m mrs') by (rewrite Hm'; apply Z.div_pos; lia).
  assert (Hm'x : val (shr_m mrs') e' <= val mx ex).
  { replace e' with (ex + n) by (unfold n; lia).
    rewrite <- val_shift by lia. apply val_mono_l; [lia|].
    rewrite Hm', Z.mul_comm. apply Z.mul_div_le. lia. }
  set (m'' := round_nearest_even (shr_m mrs') (loc_of_shr_record mrs')).
  assert (Hm'' : 0 <= m'' ∧ m'' <= K').
  { pose proof (round_nearest_even_bounds (shr_m mrs') (loc_of_shr_record mrs')) as [Hb Hexa].
    fold m'' in Hb, Hexa. split; [lia|].
    assert (Hle' : shr_m mrs' <= K').
    { apply (val_le_inv _ _ e'); [lia|]. rewrite <- HK'. lia. }
    destruct (Z.eq_dec (shr_m mrs') K') as [Heq|Hne]; [|lia].
    cut (exact mrs').
    { intros Hx. apply loc_of_shr_record_exact in Hx. rewrite (Hexa Hx). lia. }
    assert (Hv : val mx ex = val (Zpos K) eK).
    { rewrite HK' in Hle |- *. rewrite <- Heq in Hle |- *. lia. }
    apply Hex'. split.
    - destruct lx as [|c]; [reflexivity|]. exfalso.
      assert (val mx ex < val (Zpos K) eK) by (apply Hlt; discriminate). lia.
    - assert (Hs : val (shr_m mrs' * 2 ^ n) ex = val mx ex).
      { rewrite val_shift by lia. replace (ex + n) with e' by (unfold n; lia).
        rewrite Hv, HK', Heq. reflexivity. }
      apply Z.le_antisymm; apply (val_le_inv _ _ ex); lia. }
  destruct Hm'' as [Hm''0 Hm''K].
  pose proof (shr_fexp_spec m'' e' loc_Exact) as [He'' Hsh2].
  destruct (shr_fexp prec emax m'' e' loc_Exact) as [mrs'' e'']. cbn [fst snd] in He'', Hsh2.
  rewrite <- He'' in Hsh2.
  set (n2 := e'' - e') in *.
  assert (Hn2' : 0 <= n2) by lia.
  assert (Hn22 : 0 < 2 ^ n2) by (apply Z.pow_pos_nonneg; lia).
  destruct Hsh2 as [Hm3 _]; [cbn; exact Hm''0|]. cbn [shr_record_of_loc shr_m] in Hm3.
  destruct (shr_m mrs'') as [|p3|p3] eqn:Ep3.
  - reflexivity.
  - assert (Hm''pos : 0 < m'').
    { destruct (Z.eq_dec m'' 0) as [E0|]; [|lia].
      assert (m'' / 2 ^ n2 = 0) by (rewrite E0; apply Zdiv_0_l). lia. }
    assert (Hv'' : val m'' e' <= val (Zpos K) eK).
    { rewrite HK'. apply val_mono_l; lia. }
    assert (He''K : e'' <= eK).
    { rewrite He''. apply Z.max_lub; [exact He'K|].
      destruct m'' as [|p|p]; [lia| |lia].
      cbn [Zdigits2]. rewrite <- HcK. apply fexp_mono.
      apply digits_le; [lia|lia|exact Hv'']. }
    change (emax - prec) with 971.
    destruct (Z.leb_spec e'' 971) as [_|Hbad]; [|lia].
    split; [reflexivity|]. split; [lia|].
    etransitivity; [|exact Hv''].
    replace e'' with (e' + n2) by (unfold n2; lia).
    rewrite <- val_shift by lia. apply val_mono_l; [lia|].
    rewrite Hm3, Z.mul_comm. apply Z.mul_div_le. lia.
  - exfalso. assert (0 <= m'' / 2 ^ n2) by (apply Z.div_pos; lia). lia.
Qed.

(** *** Alignment and [binary_round] *)

Lemma iter_xO (m d : positive) : Zpos (Pos.iter xO m d) = Zpos m * 2 ^ Zpos d.
Proof.
  induction d as [|d IH] using Pos.peano_ind.
  - cbn [Pos.iter]. change (2 ^ 1) with 2. lia.
  - rewrite Pos.iter_succ, Pos2Z.inj_xO, IH, Pos2Z.inj_succ, Z.pow_succ_r by lia. ring.
Qed.

Lemma shl_align_spec (mx : positive) (ex ex' : Z) :
  snd (shl_align mx ex ex') = Z.min ex ex'
  ∧ Zpos (fst (shl_align mx ex ex')) = Zpos mx * 2 ^ (ex - Z.min ex ex').
Proof.
  unfold shl_align. destruct (ex' - ex) as [|d|d] eqn:E; cbn [fst snd].
  - replace (Z.min ex ex') with ex by lia. rewrite Z.sub_diag. split; lia.
  - replace (Z.min ex ex') with ex by lia. rewrite Z.sub_diag. split; lia.
  - replace (Z.min ex ex') with ex' by lia. split; [reflexivity|].
    rewrite iter_xO. f_equal. f_equal. lia.
Qed.

Lemma binary_round_le (sx : bool) (mx : positive) (ex : Z) (K : positive) (eK : Z) :
  -1900 <= ex →
  bounded prec emax K eK = true →
  val (Zpos mx) ex <= val (Zpos K) eK →
  below sx K eK (binary_round prec emax sx mx ex).
Proof.
  intros Hex HK Hle. unfold binary_round.
  change (SpecFloat.fexp prec emax (Zpos (digits2_pos mx) + ex))
    with (fexp (Zpos (digits2_pos mx) + ex)).
  pose proof (shl_align_spec mx ex (fexp (Zpos (digits2_pos mx) + ex))) as [He Hm].
  destruct (shl_align mx ex (fexp (Zpos (digits2_pos mx) + ex))) as [mz ez].
  cbn [fst snd] in He, Hm.
  pose proof (bounded_inv _ _ HK) as (HcK & HeK1 & HeK2).
  assert (Hf : -1074 <= fexp (Zpos (digits2_pos mx) + ex)) by (rewrite fexp_eq; lia).
  assert (Hv : val (Zpos mz) ez = val (Zpos mx) ex).
  { rewrite Hm, val_shift by lia. f_equal. lia. }
  apply round_aux_le; try lia; try assumption.
  - rewrite He. etransitivity; [apply Z.le_min_r|].
    rewrite <- HcK. apply fexp_mono. apply digits_le; [lia|lia|exact Hle].
  - intros Hne. contradiction.
Qed.

(** *** Non-negative finite numbers and their values *)

Lemma valid_inv (s : bool) (m : positive) (e : Z) :
  valid_binary prec emax (S754_finite s m e) = true →
  fexp (Zpos (digits2_pos m) + e) = e ∧ e <= 971 ∧ -1074 <= e.
Proof. apply bounded_inv. Qed.

Lemma below_nonneg (K : positive) (eK : Z) (x : spec_float) :
  below false K eK x → nonneg x ∧ value x <= val (Zpos K) eK.
Proof.
  destruct x as [s|s| |s m e]; cbn; try tauto.
  intros _. split; [exact I|]. unfold val.
  apply Z.mul_nonneg_nonneg; [lia|]. apply Z.pow_nonneg. lia.
Qed.

(** *** Addition *)

Lemma SFadd_le (x y : spec_float) (K : positive) (eK : Z) :
  valid_binary prec emax x = true → valid_binary prec emax y = true →
  nonneg x → nonneg y →
  bounded prec emax K eK = true →
  value x + value y <= val (Zpos K) eK →
  nonneg (SFadd prec emax x y) ∧ value (SFadd prec emax x y) <= val (Zpos K) eK.
Proof.
  intros Vx Vy Hx Hy HK Hle.
  assert (Hpos : ∀ m e, 0 <= val (Zpos m) e).
  { intros m e. unfold val. apply Z.mul_nonneg_nonneg; [lia|]. apply Z.pow_nonneg. lia. }
  destruct x as [sx|sx| |sx mx ex]; try contradiction;
    destruct y as [sy|sy| |sy my ey]; try contradiction.
  - cbn in Hle |- *. destruct sx, sy; cbn; split; auto.
  - cbn in Hx, Hy, Hle |- *. split; [exact Hy|]. lia.
  - cbn in Hx, Hy, Hle |- *. split; [exact Hx|]. lia.
  - cbn in Hx, Hy. subst sx sy. cbn [value] in Hle.
    apply valid_inv in Vx as (_ & Hx1 & Hx2). apply valid_inv in Vy as (_ & Hy1 & Hy2).
    unfold SFadd. cbn [cond_Zopp].
    pose proof (shl_align_spec mx ex (Z.min ex ey)) as [_ Ha].
    pose proof (shl_align_spec my ey (Z.min ex ey)) as [_ Hb].
    set (a := fst (shl_align mx ex (Z.min ex ey))) in *.
    set (b := fst (shl_align my ey (Z.min ex ey))) in *.
    change (Zpos a + Zpos b) with (Zpos (a + b)). cbn [binary_normalize].
    apply below_nonneg. apply binary_round_le; [lia|exact HK|].
    rewrite Pos2Z.inj_add.
    replace (Z.min ex (Z.min ex ey)) with (Z.min ex ey) in Ha by lia.
    replace (Z.min ey (Z.min ex ey)) with (Z.min ex ey) in Hb by lia.
    unfold val in *. rewrite Z.mul_add_distr_r, Ha, Hb.
    rewrite <- !Z.mul_assoc, <- !Z.pow_add_r by lia.
    replace (ex - Z.min ex ey + (Z.min ex ey + 3000)) with (ex + 3000) by lia.
    replace (ey - Z.min ex ey + (Z.min ex ey + 3000)) with (ey + 3000) by lia.
    exact Hle.
Qed.

(** *** Division *)

(** A quotient of a smaller by a larger number is at most one. *)
Lemma SFdiv_le (x : spec_float) (my : positive) (ey : Z) :
  valid_binary prec emax x = true →
  bounded prec emax my ey = true →
  nonneg x →
  value x < val (Zpos my) ey →
  nonneg (SFdiv prec emax x (S754_finite false my ey))
  ∧ value (SFdiv prec emax x (S754_finite false my ey)) <= val (2 ^ 52) (-52).
Proof.
  intros Vx Vy Hx Hlt.
  destruct x as [sx|sx| |sx mx ex]; try contradiction.
  - cbn. split; [exact I|]. unfold val. lia.
  - cbn in Hx. subst sx. cbn [value] in Hlt.
    apply valid_inv in Vx as (_ & Hx1 & Hx2).
    pose proof (bounded_inv _ _ Vy) as (_ & Hy1 & Hy2).
    unfold SFdiv, SFdiv_core_binary. cbn [xorb Zdigits2].
    change (SpecFloat.fexp prec emax ?a) with (fexp a).
    set (D := Zpos (digits2_pos mx) + ex - (Zpos (digits2_pos my) + ey)).
    set (e' := Z.min (fexp D) (ex - ey)).
    set (s := ex - ey - e').
    assert (HD : D <= 0).
    { unfold D. pose proof (digits_le mx my ex ey). lia. }
    assert (Hf : -1074 <= fexp D <= -53) by (rewrite fexp_eq; lia).
    assert (Hs : 0 <= s) by (unfold s, e'; lia).
    set (m' := match s with Zpos _ => Z.shiftl (Zpos mx) s | Z0 => Zpos mx | Zneg _ => 0 end).
    assert (Hm' : m' = Zpos mx * 2 ^ s).
    { unfold m'. destruct s as [|p|p] eqn:Es; [change (2 ^ 0) with 1; lia| |lia].
      apply Z.shiftl_mul_pow2. lia. }
    pose proof (Z.div_eucl_eq m' (Zpos my)) as Hdiv.
    pose proof (Z.mod_pos_bound m' (Zpos my)) as Hmod. unfold Z.modulo in Hmod.
    destruct (Z.div_eucl m' (Zpos my)) as [q r].
    specialize (Hdiv ltac:(lia)). specialize (Hmod ltac:(lia)).
    assert (Hs2 : 0 < 2 ^ s) by (apply Z.pow_pos_nonneg; lia).
    assert (Hm'0 : 0 < Zpos mx * 2 ^ s) by (apply Z.mul_pos_pos; lia).
    clearbody m'. subst m'.
    assert (Hq : 0 <= q) by nia.
    assert (He'3 : -3000 <= e') by (unfold e'; lia).
    assert (Hv : val q e' < val (2 ^ 52) (-52)).
    { unfold val in *.
      change (2 ^ 52 * 2 ^ (-52 + 3000)) with (2 ^ 3000).
      assert (HA : 0 < 2 ^ (e' + 3000)) by (apply Z.pow_pos_nonneg; lia).
      assert (HB : 0 < 2 ^ (ey + 3000)) by (apply Z.pow_pos_nonneg; lia).
      assert (HC : 0 < 2 ^ (ex + 3000)) by (apply Z.pow_pos_nonneg; lia).
      assert (HT : 0 < 2 ^ 3000) by (apply Z.pow_pos_nonneg; lia).
      assert (Hpow : 2 ^ s * 2 ^ (e' + 3000) * 2 ^ (ey + 3000) = 2 ^ (ex + 3000) * 2 ^ 3000).
      { rewrite <- !Z.pow_add_r by lia. f_equal. unfold s. lia. }
      revert Hpow HA HB HC HT Hlt Hs2 Hdiv Hmod Hq.
      generalize (2 ^ (e' + 3000)) (2 ^ (ey + 3000)) (2 ^ (ex + 3000)) (2 ^ 3000) (2 ^ s).
      intros A B C T S Hpow HA HB HC HT Hlt HS Hdiv Hmod Hq.
      assert (H1 : q * Zpos my <= Zpos mx * S) by lia.
      assert (H2 : q * Zpos my * (A * B) <= Zpos mx * S * (A * B)).
      { apply Z.mul_le_mono_nonneg_r; [nia|exact H1]. }
      assert (H3 : Zpos mx * S * (A * B) = Zpos mx * C * T).
      { replace (Zpos mx * S * (A * B)) with (Zpos mx * (S * A * B)) by ring.
        rewrite Hpow. ring. }
      assert (H4 : Zpos mx * C * T < Zpos my * B * T).
      { apply Z.mul_lt_mono_pos_r; [exact HT|exact Hlt]. }
      assert (H5 : (q * A) * (Zpos my * B) < T * (Zpos my * B)).
      { replace (q * A * (Zpos my * B)) with (q * Zpos my * (A * B)) by ring.
        replace (T * (Zpos my * B)) with (Zpos my * B * T) by ring. lia. }
      apply Z.mul_lt_mono_pos_r in H5; [exact H5|nia]. }
    apply below_nonneg.
    change (2 ^ 52) with (Zpos (2 ^ 52)) in Hv |- *.
    apply round_aux_le.
    + exact Hq.
    + exact He'3.
    + unfold e'. lia.
    + reflexivity.
    + apply Z.lt_le_incl. exact Hv.
    + intros _. exact Hv.
Qed.

(** *** Multiplication by plus or minus one *)

Lemma SFmul_one_le (x : spec_float) (s : bool) (K : positive) (eK : Z) :
  valid_binary prec emax x = true →
  bounded prec emax K eK = true →
  nonneg x → value x <= val (Zpos K) eK →
  match SFmul prec emax x (S754_finite s (2 ^ 52) (-52)) with
  | S754_zero _ => True
  | S754_finite _ m e => val (Zpos m) e <= val (Zpos K) eK
  | _ => False
  end.
Proof.
  intros Vx HK Hx Hle.
  destruct x as [sx|sx| |sx mx ex]; try contradiction.
  - exact I.
  - cbn in Hx. subst sx. cbn [value] in Hle.
    pose proof (valid_inv _ _ _ Vx) as (Hcx & Hx1 & Hx2).
    pose proof (bounded_inv _ _ HK) as (HcK & HK1 & HK2).
    unfold SFmul.
    assert (Hb : below (xorb false s) K eK
                   (binary_round_aux prec emax (xorb false s)
                      (Zpos (mx * 2 ^ 52)) (ex + -52) loc_Exact)).
    { apply round_aux_le; try lia; try assumption.
      - pose proof (fexp_mono _ _ (digits_le mx K ex eK ltac:(lia) ltac:(lia) Hle)). lia.
      - rewrite Pos2Z.inj_mul. change (Zpos (2 ^ 52)) with (2 ^ 52).
        rewrite val_shift by lia. replace (ex + -52 + 52) with ex by lia. exact Hle.
      - intros Hne. contradiction. }
    destruct (binary_round_aux prec emax (xorb false s)
                (Zpos (mx * 2 ^ 52)) (ex + -52) loc_Exact); cbn in Hb; tauto.
Qed.

(** *** Comparisons of valid numbers *)

Lemma canonical_digits (m : positive) (e : Z) :
  fexp (Zpos (digits2_pos m) + e) = e →
  Zpos (digits2_pos m) <= 53 ∧ (-1074 < e → Zpos (digits2_pos m) = 53).
Proof. rewrite fexp_eq. lia. Qed.

(** Between two valid positive numbers the one with the larger exponent is
    the larger. *)
Lemma exponent_lt (m1 m2 : positive) (e1 e2 : Z) :
  bounded prec emax m1 e1 = true → bounded prec emax m2 e2 = true →
  e1 < e2 → val (Zpos m1) e1 < val (Zpos m2) e2.
Proof.
  intros H1 H2 Hlt.
  apply bounded_inv in H1 as (Hc1 & _ & Hl1). apply bounded_inv in H2 as (Hc2 & _ & Hl2).
  apply canonical_digits in Hc1 as [Hd1 _]. apply canonical_digits in Hc2 as [_ Hd2].
  specialize (Hd2 ltac:(lia)).
  pose proof (digits2_pos_bounds m1) as [_ Hu1].
  pose proof (digits2_pos_bounds m2) as [Hl2' _]. rewrite Hd2 in Hl2'.
  assert (Hu1' : Zpos m1 < 2 ^ 53).
  { eapply Z.lt_le_trans; [exact Hu1|]. apply Z.pow_le_mono_r; lia. }
  unfold val.
  replace (e2 + 3000) with ((e2 - e1 - 1) + 1 + (e1 + 3000)) by lia.
  rewrite (Z.pow_add_r 2 (e2 - e1 - 1 + 1) (e1 + 3000)),
    (Z.pow_add_r 2 (e2 - e1 - 1) 1) by lia.
  change (2 ^ 1) with 2.
  assert (0 < 2 ^ (e1 + 3000)) by (apply Z.pow_pos_nonneg; lia).
  assert (1 <= 2 ^ (e2 - e1 - 1)).
  { change 1 with (2 ^ 0). apply Z.pow_le_mono_r; lia. }
  change (2 ^ (53 - 1)) with (2 ^ 52) in Hl2'.
  assert (Zpos m1 < Zpos m2 * (2 ^ (e2 - e1 - 1) * 2)).
  { change (2 ^ 53) with (2 ^ 52 * 2) in Hu1'. nia. }
  nia.
Qed.

Lemma SFleb_bound (x : spec_float) (K : positive) (eK : Z) :
  valid_binary prec emax x = true →
  bounded prec emax K eK = true →
  match x with
  | S754_zero _ => True
  | S754_finite _ m e => val (Zpos m) e <= val (Zpos K) eK
  | _ => False
  end →
  SFleb (S754_finite true K eK) x = true ∧ SFleb x (S754_finite false K eK) = true.
Proof.
  intros Vx HK Hx.
  destruct x as [sx|sx| |sx m e]; try contradiction.
  - split; reflexivity.
  - cbn in Vx, Hx. pose proof (bounded_inv _ _ HK) as (_ & _ & HK2).
    assert (He : e <= eK).
    { destruct (Z.le_gt_cases e eK) as [|Hgt]; [assumption|].
      pose proof (exponent_lt _ _ _ _ HK Vx Hgt). lia. }
    assert (Hm : e = eK → (m <= K)%positive).
    { intros ->. apply val_le_inv in Hx; lia. }
    unfold SFleb, SFcompare. destruct sx.
    + split; [|reflexivity].
      destruct (Z.compare_spec eK e) as [Heq|Hlt|Hgt]; [|lia|reflexivity].
      specialize (Hm (eq_sym Heq)).
      change (Pos.compare_cont Eq K m) with (K ?= m)%positive.
      destruct (Pos.compare_spec K m); try reflexivity. lia.
    + split; [reflexivity|].
      destruct (Z.compare_spec e eK) as [Heq|Hlt|Hgt]; [|reflexivity|lia].
      specialize (Hm Heq).
      change (Pos.compare_cont Eq m K) with (m ?= K)%positive.
      destruct (Pos.compare_spec m K); try reflexivity. lia.
Qed.

(** A number between zero and a positive bound, the bound excluded. *)
Lemma between_inv (x : spec_float) (my : positive) (ey : Z) :
  valid_binary prec emax x = true →
  bounded prec emax my ey = true →
  SFleb (S754_zero false) x = true →
  SFltb x (S754_finite false my ey) = true →
  nonneg x ∧ value x < val (Zpos my) ey.
Proof.
  intros Vx Vy H0 Hlt.
  assert (Hpos : 0 < val (Zpos my) ey).
  { unfold val. apply Z.mul_pos_pos; [lia|]. apply Z.pow_pos_nonneg; [lia|].
    apply bounded_inv in Vy. lia. }
  destruct x as [sx|sx| |sx m e]; try discriminate.
  - split; [exact I|exact Hpos].
  - destruct sx; discriminate.
  - destruct sx; [discriminate|]. split; [reflexivity|]. cbn [value].
    cbn in Vx. unfold SFltb, SFcompare in Hlt.
    destruct (Z.compare_spec e ey) as [Heq|Hl|Hg]; try discriminate.
    + subst e. change (Pos.compare_cont Eq m my) with (m ?= my)%positive in Hlt.
      destruct (Pos.compare_spec m my); try discriminate.
      unfold val. apply Z.mul_lt_mono_pos_r; [|lia].
      apply Z.pow_pos_nonneg; [lia|]. apply bounded_inv in Vy. lia.
    + apply exponent_lt; assumption.
Qed.

(** *** Degrees and minutes *)

Lemma small_ok_all : List.forallb small_ok (List.map Z.of_nat (List.seq 0 181)) = true.
Proof. vm_compute. reflexivity. Qed.

Lemma of_Z_small (d : Z) :
  0 <= d <= 180 →
  nonneg (Prim2SF (Num.of_Z d)) ∧ value (Prim2SF (Num.of_Z d)) = val d 0.
Proof.
  intros Hd.
  assert (Hok : small_ok d = true).
  { pose proof small_ok_all as Hall. rewrite List.forallb_forall in Hall.
    apply Hall. apply List.in_map_iff. exists (Z.to_nat d). split; [lia|].
    apply List.in_seq. lia. }
  unfold small_ok in Hok.
  destruct (Prim2SF (Num.of_Z d)) as [s|s| |s m e]; try discriminate.
  - apply Z.eqb_eq in Hok. subst d. split; [exact I|reflexivity].
  - destruct s; [discriminate|].
    apply andb_prop in Hok as [He Hv]. apply Z.leb_le in He. apply Z.eqb_eq in Hv.
    split; [reflexivity|]. cbn [value]. unfold val.
    replace (e + 3000) with ((e + 60) + 2940) by lia.
    rewrite Z.pow_add_r, Z.mul_assoc, Hv by lia.
    rewrite <- Z.mul_assoc, <- Z.pow_add_r by lia. reflexivity.
Qed.

Lemma val_K90 (k : Z) : 0 <= k → val (Zpos K90) (-46 + k) = val (90 * 2 ^ k) 0.
Proof.
  intros Hk. rewrite <- val_shift by lia.
  unfold val. replace (Zpos K90 * 2 ^ k * 2 ^ (-46 + 3000))
    with (Zpos K90 * 2 ^ (-46 + 3000) * 2 ^ k) by ring.
  replace (90 * 2 ^ k * 2 ^ (0 + 3000)) with (90 * 2 ^ (0 + 3000) * 2 ^ k) by ring.
  f_equal.
Qed.

(** [(d + m / 60) * s] stays within [-90 * 2^k, 90 * 2^k] when [d] is a
    whole number below [90 * 2^k], [m] lies in [0, 60) and [s] is 1 or -1;
    [k] is 0 for latitudes and 1 for longitudes. *)
Lemma degrees_in_range (k d : Z) (m : float) (neg : bool) :
  k = 0 ∨ k = 1 →
  0 <= d <= 90 * 2 ^ k - 1 →
  PrimFloat.leb (Num.of_Z 0) m = true →
  PrimFloat.ltb m (Num.of_Z 60) = true →
  let v := PrimFloat.mul
             (PrimFloat.add (Num.of_Z d) (PrimFloat.div m (Num.of_Z 60)))
             (Num.of_Z (if neg then -1 else 1)) in
  PrimFloat.leb (Num.of_Z (- (90 * 2 ^ k))) v = true
  ∧ PrimFloat.leb v (Num.of_Z (90 * 2 ^ k)) = true.
Proof.
  intros Hk Hd H0 H60 v.
  assert (E60 : Prim2SF (Num.of_Z 60) = S754_finite false 8444249301319680 (-47))
    by (vm_compute; reflexivity).
  assert (E0 : Prim2SF (Num.of_Z 0) = S754_zero false) by (vm_compute; reflexivity).
  assert (Es : Prim2SF (Num.of_Z (if neg then -1 else 1))
               = S754_finite neg (2 ^ 52) (-52))
    by (destruct neg; vm_compute; reflexivity).
  assert (Eb : Prim2SF (Num.of_Z (90 * 2 ^ k)) = S754_finite false K90 (-46 + k)
               ∧ Prim2SF (Num.of_Z (- (90 * 2 ^ k))) = S754_finite true K90 (-46 + k))
    by (destruct Hk as [-> | ->]; vm_compute; split; reflexivity).
  destruct Eb as [Eb Enb].
  assert (HK : bounded prec emax K90 (-46 + k) = true)
    by (destruct Hk as [-> | ->]; vm_compute; reflexivity).
  assert (H60b : bounded prec emax 8444249301319680 (-47) = true)
    by (vm_compute; reflexivity).
  rewrite FloatAxioms.leb_spec, E0 in H0.
  rewrite FloatAxioms.ltb_spec, E60 in H60.
  rewrite !FloatAxioms.leb_spec, Eb, Enb.
  destruct (between_inv _ _ _ (FloatAxioms.Prim2SF_valid m) H60b H0 H60) as [Hm Hmv].
  pose proof (FloatAxioms.div_spec m (Num.of_Z 60)) as Hq. rewrite E60 in Hq.
  destruct (SFdiv_le _ _ _ (FloatAxioms.Prim2SF_valid m) H60b Hm Hmv) as [Hqn Hqv].
  change (SFdiv prec emax) with FloatAxioms.SF64div in Hqn, Hqv.
  rewrite <- Hq in Hqn, Hqv.
  destruct (of_Z_small d) as [Hdn Hdv].
  { destruct Hk as [-> | ->]; cbn in Hd; lia. }
  pose proof (FloatAxioms.add_spec (Num.of_Z d) (PrimFloat.div m (Num.of_Z 60))) as Hy.
  destruct (SFadd_le _ _ K90 (-46 + k)
              (FloatAxioms.Prim2SF_valid (Num.of_Z d))
              (FloatAxioms.Prim2SF_valid (PrimFloat.div m (Num.of_Z 60)))
              Hdn Hqn HK) as [Hyn Hyv].
  { rewrite Hdv, val_K90 by lia.
    change (val (2 ^ 52) (-52)) with (val 1 0) in Hqv.
    unfold val in *. cbn [Z.add] in *.
    assert (0 < 2 ^ 3000) by (apply Z.pow_pos_nonneg; lia).
    revert Hqv H. generalize (2 ^ 3000). intros T Hqv HT. nia. }
  change (SFadd prec emax) with FloatAxioms.SF64add in Hyn, Hyv.
  rewrite <- Hy in Hyn, Hyv.
  pose proof (FloatAxioms.mul_spec
                (PrimFloat.add (Num.of_Z d) (PrimFloat.div m (Num.of_Z 60)))
                (Num.of_Z (if neg then -1 else 1))) as Hv.
  rewrite Es in Hv. fold v in Hv.
  pose proof (SFmul_one_le _ neg K90 (-46 + k)
                (FloatAxioms.Prim2SF_valid _) HK Hyn Hyv) as Hshape.
  change (SFmul prec emax) with FloatAxioms.SF64mul in Hshape.
  rewrite <- Hv in Hshape.
  apply SFleb_bound; [apply FloatAxioms.Prim2SF_valid|exact HK|exact Hshape].
Qed.

End RoundingFacts.

(** ** The range of the coordinates *)

Lemma extract_coordinates_values (header : list string) (s s' : Read_Lemi_Header.t) :
  Read_Lemi_Header._extract_coordinates header s = (s', Ok tt) →
  ∃ (lat lat_dir lon lon_dir : string) (la lo : float),
    coordinate_field header 9 = Ok (lat, lat_dir)
    ∧ coordinate_field header 10 = Ok (lon, lon_dir)
    ∧ Read_Lemi_Header.decimal_degrees 2 "S" lat lat_dir = Ok la
    ∧ Read_Lemi_Header.decimal_degrees 3 "W" lon lon_dir = Ok lo
    ∧ Read_Lemi_Header.latitude s' = PyFloat la
    ∧ Read_Lemi_Header.longitude s' = PyFloat lo.
Proof.
  unfold Read_Lemi_Header._extract_coordinates, coordinate_field.
  unfold mbind, M_bind, lift, modify, result_bind.
  destruct (getitem header 9) as [line9|]; [|discriminate].
  destruct (getlast (Str.split line9)) as [tok9|]; [|discriminate].
  destruct (Read_Lemi_Header.unpack2 (Str.split_on "," tok9))
    as [[lat lat_dir]|]; [|discriminate].
  destruct (getitem header 10) as [line10|]; [|discriminate].
  destruct (getlast (Str.split line10)) as [tok10|]; [|discriminate].
  destruct (Read_Lemi_Header.unpack2 (Str.split_on "," tok10))
    as [[lon lon_dir]|]; [|discriminate].
  destruct (Read_Lemi_Header.decimal_degrees 2 "S" lat lat_dir) as [la|] eqn:E1;
    [|discriminate].
  destruct (Read_Lemi_Header.decimal_degrees 3 "W" lon lon_dir) as [lo|] eqn:E2;
    [|discriminate].
  destruct (getitem header 11) as [line11|]; [|discriminate].
  destruct (getitem (Str.split_on "," line11) 0) as [head|]; [|discriminate].
  destruct (getlast (Str.split head)) as [tok11|]; [|discriminate].
  destruct (Num.py_float tok11) as [el|]; [|discriminate].
  intros [= <-]. exists lat, lat_dir, lon, lon_dir, la, lo.
  repeat split; assumption || reflexivity.
Qed.

Lemma decimal_degrees_range (k : Z) (n : nat) (neg s d : string)
    (deg : Z) (m v : float) :
  k = 0 ∨ k = 1 →
  Read_Lemi_Header.decimal_degrees n neg s d = Ok v →
  Num.py_int (Str.take n s) = Ok deg →
  Num.py_float (Str.drop n s) = Ok m →
  0 <= deg <= 90 * 2 ^ k - 1 →
  is_minutes m →
  PrimFloat.leb (Num.of_Z (- (90 * 2 ^ k))) v = true
  ∧ PrimFloat.leb v (Num.of_Z (90 * 2 ^ k)) = true.
Proof.
  intros Hk Hv Hdeg Hm Hrange [H0 H60]. revert Hv.
  unfold Read_Lemi_Header.decimal_degrees. rewrite Hdeg, Hm. cbn [mbind result_bind].
  intros [= <-].
  apply (RoundingFacts.degrees_in_range k deg m (String.eqb (Str.strip d) neg));
    assumption.
Qed.

Lemma decimal_degrees_coordinate (k : Z) (n : nat) (neg s d : string)
    (deg : Z) (m v : float) :
  k = 0 ∨ k = 1 →
  Read_Lemi_Header.decimal_degrees n neg s d = Ok v →
  Num.py_int (Str.take n s) = Ok deg →
  Num.py_float (Str.drop n s) = Ok m →
  is_coordinate (90 * 2 ^ k) deg m →
  v = PrimFloat.mul
        (PrimFloat.add (Num.of_Z deg) (PrimFloat.div m (Num.of_Z 60)))
        (Num.of_Z (if String.eqb (Str.strip d) neg then -1 else 1))
  ∧ PrimFloat.leb (Num.of_Z (- (90 * 2 ^ k))) v = true
  ∧ PrimFloat.leb v (Num.of_Z (90 * 2 ^ k)) = true.
Proof.
  intros Hk Hv Hdeg Hm Hco.
  assert (Ev : v = PrimFloat.mul
                 (PrimFloat.add (Num.of_Z deg) (PrimFloat.div m (Num.of_Z 60)))
                 (Num.of_Z (if String.eqb (Str.strip d) neg then -1 else 1))).
  { revert Hv. unfold Read_Lemi_Header.decimal_degrees. rewrite Hdeg, Hm.
    cbn [mbind result_bind]. congruence. }
  split; [exact Ev|].
  destruct Hco as [[Hrange Hmin]|[-> ->]].
  - apply (decimal_degrees_range k n neg s d deg m v); try assumption. lia.
  - rewrite Ev. destruct (String.eqb (Str.strip d) neg);
      destruct Hk as [-> | ->]; vm_compute; split; reflexivity.
Qed.

(** C4.  For every well-formed header, one whose coordinate lines parse to
    degrees and minutes of a latitude of at most 90 degrees and of a
    longitude of at most 180 degrees, the latitude is
    [int(lat[:2]) + float(lat[2:]) / 60] with its sign flipped when the
    hemisphere letter is S, the longitude is
    [int(lon[:3]) + float(lon[3:]) / 60] with its sign flipped when the
    letter is W, both in binary64, and the latitude lies within [-90, 90]
    and the longitude within [-180, 180]. *)
Theorem coordinates_formula_and_range (header : list string)
    (s s' : Read_Lemi_Header.t)
    (lat lat_dir lon lon_dir : string) (dlat dlon : Z) (mlat mlon : float) :
  Read_Lemi_Header._extract_coordinates header s = (s', Ok tt) →
  coordinate_field header 9 = Ok (lat, lat_dir) →
  coordinate_field header 10 = Ok (lon, lon_dir) →
  Num.py_int (Str.take 2 lat) = Ok dlat →
  Num.py_float (Str.drop 2 lat) = Ok mlat →
  Num.py_int (Str.take 3 lon) = Ok dlon →
  Num.py_float (Str.drop 3 lon) = Ok mlon →
  is_coordinate 90 dlat mlat →
  is_coordinate 180 dlon mlon →
  ∃ la lo : float,
    Read_Lemi_Header.latitude s' = PyFloat la
    ∧ Read_Lemi_Header.longitude s' = PyFloat lo
    ∧ la = PrimFloat.mul
             (PrimFloat.add (Num.of_Z dlat) (PrimFloat.div mlat (Num.of_Z 60)))
             (Num.of_Z (if String.eqb (Str.strip lat_dir) "S" then -1 else 1))
    ∧ lo = PrimFloat.mul
             (PrimFloat.add (Num.of_Z dlon) (PrimFloat.div mlon (Num.of_Z 60)))
             (Num.of_Z (if String.eqb (Str.strip lon_dir) "W" then -1 else 1))
    ∧ PrimFloat.leb (Num.of_Z (-90)) la = true
    ∧ PrimFloat.leb la (Num.of_Z 90) = true
    ∧ PrimFloat.leb (Num.of_Z (-180)) lo = true
    ∧ PrimFloat.leb lo (Num.of_Z 180) = true.
Proof.
  intros Hex H9 H10 Hdlat Hmlat Hdlon Hmlon Hclat Hclon.
  destruct (extract_coordinates_values header s s' Hex)
    as (lat' & lat_dir' & lon' & lon_dir' & la & lo & H9' & H10' & Hla & Hlo & Ela & Elo).
  rewrite H9 in H9'. injection H9' as <- <-.
  rewrite H10 in H10'. injection H10' as <- <-.
  exists la, lo. split; [exact Ela|]. split; [exact Elo|].
  destruct (decimal_degrees_coordinate 0 2 "S" lat lat_dir dlat mlat la)
    as (A0 & A1 & A2); try assumption; [left; reflexivity|].
  destruct (decimal_degrees_coordinate 1 3 "W" lon lon_dir dlon mlon lo)
    as (B0 & B1 & B2); try assumption; [right; reflexivity|].
  repeat split; assumption.
Qed.

(** X14.  For degrees from 0 to 89 (latitude) or 0 to 179 (longitude) and
    minutes from 0 up to, not including, 60, the decimal degrees computed
    in binary64 lie within [-90, 90] and [-180, 180]: no rounding of the
    division, the sum or the sign change leaves the range. *)
Theorem coordinates_within_range (header : list string) (s s' : Read_Lemi_Header.t)
    (lat lat_dir lon lon_dir : string) (dlat dlon : Z) (mlat mlon : float) :
  Read_Lemi_Header._extract_coordinates header s = (s', Ok tt) →
  coordinate_field header 9 = Ok (lat, lat_dir) →
  coordinate_field header 10 = Ok (lon, lon_dir) →
  Num.py_int (Str.take 2 lat) = Ok dlat →
  Num.py_float (Str.drop 2 lat) = Ok mlat →
  Num.py_int (Str.take 3 lon) = Ok dlon →
  Num.py_float (Str.drop 3 lon) = Ok mlon →
  0 <= dlat <= 89 → is_minutes mlat →
  0 <= dlon <= 179 → is_minutes mlon →
  ∃ la lo : float,
    Read_Lemi_Header.latitude s' = PyFloat la
    ∧ Read_Lemi_Header.longitude s' = PyFloat lo
    ∧ PrimFloat.leb (Num.of_Z (-90)) la = true
    ∧ PrimFloat.leb la (Num.of_Z 90) = true
    ∧ PrimFloat.leb (Num.of_Z (-180)) lo = true
    ∧ PrimFloat.leb lo (Num.of_Z 180) = true.
Proof.
  intros Hex H9 H10 Hdlat Hmlat Hdlon Hmlon Hrlat Hminlat Hrlon Hminlon.
  destruct (extract_coordinates_values header s s' Hex)
    as (lat' & lat_dir' & lon' & lon_dir' & la & lo & H9' & H10' & Hla & Hlo & Ela & Elo).
  rewrite H9 in H9'. injection H9' as <- <-.
  rewrite H10 in H10'. injection H10' as <- <-.
  exists la, lo. split; [exact Ela|]. split; [exact Elo|].
  destruct (decimal_degrees_range 0 2 "S" lat lat_dir dlat mlat la) as [A1 A2];
    try assumption; [left; reflexivity|].
  destruct (decimal_degrees_range 1 3 "W" lon lon_dir dlon mlon lo) as [B1 B2];
    try assumption; [right; reflexivity|].
  repeat split; assumption.
Qed.

Import Sample.

(** The sample header: 34 degrees 55.1234 minutes south, 138 degrees 36
    minutes east. *)
Lemma coordinates_within_range_witness :
  ∃ la lo : float,
    Read_Lemi_Header.latitude
      (fst (Read_Lemi_Header._extract_coordinates
              (header_lines "3455.1234,S" "13836.0000,E")
              (Read_Lemi_Header.init "f"))) = PyFloat la
    ∧ Read_Lemi_Header.longitude
        (fst (Read_Lemi_Header._extract_coordinates
                (header_lines "3455.1234,S" "13836.0000,E")
                (Read_Lemi_Header.init "f"))) = PyFloat lo
    ∧ PrimFloat.leb (Num.of_Z (-90)) la = true
    ∧ PrimFloat.leb la (Num.of_Z 90) = true
    ∧ PrimFloat.leb (Num.of_Z (-180)) lo = true
    ∧ PrimFloat.leb lo (Num.of_Z 180) = true.
Proof.
  apply (coordinates_within_range
           (header_lines "3455.1234,S" "13836.0000,E") (Read_Lemi_Header.init "f")
           (fst (Read_Lemi_Header._extract_coordinates
                   (header_lines "3455.1234,S" "13836.0000,E")
                   (Read_Lemi_Header.init "f")))
           "3455.1234" "S" "13836.0000" "E" 34 138
           (value_or PrimFloat.zero (Num.py_float "55.1234"))
           (value_or PrimFloat.zero (Num.py_float "36.0000"))).
  - vm_compute. reflexivity.
  - vm_compute. reflexivity.
  - vm_compute. reflexivity.
  - vm_compute. reflexivity.
  - apply (ok_eta PrimFloat.zero). vm_compute. reflexivity.
  - vm_compute. reflexivity.
  - apply (ok_eta PrimFloat.zero). vm_compute. reflexivity.
  - lia.
  - split; vm_compute; reflexivity.
  - lia.
  - split; vm_compute; reflexivity.
Defined.

(** The pole, written [9000.0000], is a coordinate: 90 degrees and no
    minute. *)
Example pole_is_coordinate :
  Num.py_int (Str.take 2 "9000.0000") = Ok 90
  ∧ is_coordinate 90 90 (value_or PrimFloat.one (Num.py_float (Str.drop 2 "9000.0000"))).
Proof. split; [reflexivity|]. right. split; [reflexivity|]. vm_compute. reflexivity. Qed.

(** The sample header, 34 degrees 55.1234 minutes south and 138 degrees 36
    minutes east: the latitude is -(34 + 55.1234 / 60), written -34.918723
    with six decimals, the longitude 138.6, and both lie within range. *)
Lemma coordinates_formula_and_range_witness :
  ∃ la lo : float,
    Read_Lemi_Header.latitude
      (fst (Read_Lemi_Header._extract_coordinates
              (header_lines "3455.1234,S" "13836.0000,E")
              (Read_Lemi_Header.init "f"))) = PyFloat la
    ∧ Read_Lemi_Header.longitude
        (fst (Read_Lemi_Header._extract_coordinates
                (header_lines "3455.1234,S" "13836.0000,E")
                (Read_Lemi_Header.init "f"))) = PyFloat lo
    ∧ la = PrimFloat.mul
             (PrimFloat.add (Num.of_Z 34)
                (PrimFloat.div (value_or PrimFloat.zero (Num.py_float "55.1234"))
                   (Num.of_Z 60)))
             (Num.of_Z (-1))
    ∧ lo = PrimFloat.mul
             (PrimFloat.add (Num.of_Z 138)
                (PrimFloat.div (value_or PrimFloat.zero (Num.py_float "36.0000"))
                   (Num.of_Z 60)))
             (Num.of_Z 1)
    ∧ Num.format_6f la = "-34.918723"
    ∧ Num.format_6f lo = "138.600000"
    ∧ PrimFloat.leb (Num.of_Z (-90)) la = true
    ∧ PrimFloat.leb la (Num.of_Z 90) = true
    ∧ PrimFloat.leb (Num.of_Z (-180)) lo = true
    ∧ PrimFloat.leb lo (Num.of_Z 180) = true.
Proof.
  destruct (coordinates_formula_and_range
              (header_lines "3455.1234,S" "13836.0000,E") (Read_Lemi_Header.init "f")
              (fst (Read_Lemi_Header._extract_coordinates
                      (header_lines "3455.1234,S" "13836.0000,E")
                      (Read_Lemi_Header.init "f")))
              "3455.1234" "S" "13836.0000" "E" 34 138
              (value_or PrimFloat.zero (Num.py_float "55.1234"))
              (value_or PrimFloat.zero (Num.py_float "36.0000")))
    as (la & lo & Hla & Hlo & Ela & Elo & R1 & R2 & R3 & R4).
  - vm_compute. reflexivity.
  - vm_compute. reflexivity.
  - vm_compute. reflexivity.
  - vm_compute. reflexivity.
  - apply (ok_eta PrimFloat.zero). vm_compute. reflexivity.
  - vm_compute. reflexivity.
  - apply (ok_eta PrimFloat.zero). vm_compute. reflexivity.
  - left. split; [lia|]. split; vm_compute; reflexivity.
  - left. split; [lia|]. split; vm_compute; reflexivity.
  - exists la, lo.
    assert (F1 : Num.format_6f la = "-34.918723")
      by (rewrite Ela; vm_compute; reflexivity).
    assert (F2 : Num.format_6f lo = "138.600000")
      by (rewrite Elo; vm_compute; reflexivity).
    repeat split; assumption.
Defined.

(** ** The metadata table *)

Section LoadMetadata.

Lemma has_column_In (df : CsvTable) (col : string) :
  has_column df col = true ↔ In col (csv_columns df).
Proof.
  unfold has_column. rewrite existsb_exists. split.
  - intros (c & Hin & Heq). apply String.eqb_eq in Heq. subst. exact Hin.
  - intros Hin. exists col. split; [exact Hin|apply String.eqb_refl].
Qed.

Lemma column_position_In (col : string) (columns : list string) :
  In col columns → ∃ p, column_position col columns = Some p.
Proof.
  induction columns as [|c columns IH]; [intros []|].
  cbn [column_position]. destruct (String.eqb_spec col c) as [->|Hne].
  - intros _. eexists. reflexivity.
  - intros [->|Hin]; [congruence|]. destruct (IH Hin) as [p ->]. eexists. reflexivity.
Qed.

Lemma column_positions_ok (cols columns : list string) :
  Forall (fun col => In col columns) cols →
  ∃ ps, column_positions cols columns = Ok ps
        ∧ ps = omap (fun col => column_position col columns) cols
        ∧ length ps = length cols.
Proof.
  induction 1 as [|col cols Hin Hall (ps & Hps & Heq & Hlen)].
  - exists []. repeat split; reflexivity.
  - destruct (column_position_In col columns Hin) as [p Hp].
    exists (p :: ps). cbn [column_positions omap list_omap]. rewrite Hp, Hps.
    cbn [of_option mbind result_bind length]. rewrite <- Heq, Hlen.
    repeat split; reflexivity.
Qed.

Lemma cells_at_required (df : CsvTable) (row : Z * list (option pyval))
    (cols : list string) :
  Forall (fun col => In col (csv_columns df)) cols →
  snd (cells_at (omap (fun col => column_position col (csv_columns df)) cols) row)
  = map (cell_of df row) cols.
Proof.
  induction 1 as [|col cols Hin Hall IH]; [reflexivity|].
  destruct (column_position_In col _ Hin) as [p Hp].
  cbn [omap list_omap map]. rewrite Hp. cbn [cells_at snd map] in *.
  rewrite IH. unfold cell_of at 2. rewrite Hp. reflexivity.
Qed.

Lemma filter_map_rows {A B} (f : A → B) (p : B → bool) (l : list A) :
  List.filter p (map f l) = map f (List.filter (fun x => p (f x)) l).
Proof.
  induction l as [|x l IH]; [reflexivity|].
  cbn [map List.filter]. destruct (p (f x)); cbn [map]; rewrite IH; reflexivity.
Qed.

(** X16.  When the CSV file is read but lacks one of the five required
    columns, [load_metadata] returns [None] and writes one error line,
    and no line of success, whatever else the file holds. *)
Theorem load_metadata_missing_column (read_csv : string → result CsvTable)
    (csv_file : string) (df : CsvTable) (col : string) :
  read_csv csv_file = Ok df →
  In col required_columns → ¬ In col (csv_columns df) →
  load_metadata read_csv csv_file = ([(ERROR, MsgLoadError ValueError)], None).
Proof.
  intros Hread Hreq Hmiss. unfold load_metadata. rewrite Hread.
  destruct (List.filter (fun c => negb (has_column df c)) required_columns)
    as [|c cs] eqn:Ef; [|reflexivity].
  exfalso.
  assert (Hin : In col (List.filter (fun c => negb (has_column df c))
                          required_columns)).
  { apply filter_In. split; [exact Hreq|].
    destruct (has_column df col) eqn:Hc; [|reflexivity].
    apply has_column_In in Hc. contradiction. }
  rewrite Ef in Hin. destruct Hin.
Qed.

(** X17.  When the five required columns are there, [load_metadata] writes
    the line of success and returns those five columns, in their fixed
    order, of exactly the rows that miss none of the five values: a value
    missing in another column does not drop a row, and the rows kept keep
    their order and their index labels, which are not renumbered. *)
Theorem load_metadata_keeps_complete_rows (read_csv : string → result CsvTable)
    (csv_file : string) (df : CsvTable) :
  read_csv csv_file = Ok df →
  Forall (fun col => In col (csv_columns df)) required_columns →
  load_metadata read_csv csv_file
  = ([(INFO, MsgLoaded csv_file)],
     Some {| csv_columns := required_columns;
             csv_rows :=
               map (fun row => (fst row, required_cells df row))
                   (List.filter
                      (fun row => forallb present (required_cells df row))
                      (csv_rows df)) |}).
Proof.
  intros Hread Hall. unfold load_metadata. rewrite Hread.
  assert (Ef : List.filter (fun c => negb (has_column df c)) required_columns = []).
  { induction Hall as [|c cs Hc Hcs IH]; [reflexivity|].
    cbn [List.filter]. apply has_column_In in Hc. rewrite Hc. exact IH. }
  rewrite Ef. unfold select_columns.
  destruct (column_positions_ok required_columns (csv_columns df) Hall)
    as (ps & -> & -> & _).
  cbn [mbind result_bind]. unfold dropna. cbn [csv_columns csv_rows].
  rewrite filter_map_rows.
  assert (Hcells : ∀ row,
    snd (cells_at (omap (fun col => column_position col (csv_columns df))
                     required_columns) row) = required_cells df row)
    by (intros row; apply cells_at_required; exact Hall).
  f_equal. f_equal. f_equal.
  rewrite (filter_ext _ (fun row => forallb present (required_cells df row)))
    by (intros row; rewrite Hcells; reflexivity).
  apply map_ext. intros row. rewrite <- Hcells. reflexivity.
Qed.

End LoadMetadata.

(** Without the Ey azimuth the table is refused, with one error line. *)
Lemma load_metadata_missing_column_witness :
  load_metadata (fun _ => Ok MetadataSample.no_azimuth) "sites.csv"
  = ([(ERROR, MsgLoadError ValueError)], None).
Proof.
  apply (load_metadata_missing_column (fun _ => Ok MetadataSample.no_azimuth)
           "sites.csv" MetadataSample.no_azimuth "EyAzimuth").
  - reflexivity.
  - vm_compute. tauto.
  - vm_compute. intros [E|[E|[E|[E|[]]]]]; discriminate E.
Defined.

(** Of the three sites the second is dropped; the first and the third keep
    their labels 0 and 2, and lose the remark. *)
Lemma load_metadata_keeps_complete_rows_witness :
  snd (load_metadata (fun _ => Ok MetadataSample.three_sites) "sites.csv")
  = Some {| csv_columns := required_columns;
            csv_rows :=
              [ (0, [Some (PyStr "S1"); Some (PyInt 50); Some (PyInt 0);
                     Some (PyInt 50); Some (PyInt 90)]);
                (2, [Some (PyStr "S3"); Some (PyInt 48); Some (PyInt 5);
                     Some (PyInt 52); Some (PyInt 95)]) ] |}.
Proof.
  rewrite (load_metadata_keeps_complete_rows
             (fun _ => Ok MetadataSample.three_sites) "sites.csv"
             MetadataSample.three_sites).
  - vm_compute. reflexivity.
  - reflexivity.
  - vm_compute. repeat constructor; tauto.
Defined.
